(** * Upwind: weather minimums, forecast aggregation and conflict scanning

    A shallow embedding of the decision logic of the Upwind flight-training
    portal (the Express backend, the portal's weather service, the student
    dashboard and the advisory client), followed by the properties of that
    logic stated in the design document.

    Layout:
    - [JS]: the pieces of the ECMAScript runtime the program relies on
      (strings of UTF-16 code units, IEEE-754 numbers, [Math.round],
      [toFixed], number-to-string, [parseFloat], [Date], a small
      backtracking regular-expression matcher, insertion-ordered [Map]);
    - [Weather]: the normaliser shared (as duplicated source text) by the
      backend and by the portal's weather service;
    - [WeatherService]: [fetchWeatherForecast] of the portal;
    - [Backend]: the forecast and reschedule handlers of the backend;
    - [Dashboard]: minimums evaluation and the conflict scan;
    - [ClaudeService]: the advisory client;
    - then the theorems. *)

From Stdlib Require Import ZArith NArith List String Ascii Bool Lia.
From Stdlib Require Import PrimFloat.
From Stdlib Require SpecFloat FloatOps FloatAxioms.
From stdpp Require Import base option list gmap sorting.

Set Warnings "-inexact-float,-register-all,-clear-no-such-hyp".

#[local] Open Scope Z_scope.

(* ===================================================================== *)
(** * The ECMAScript runtime *)
(* ===================================================================== *)

Module JS.

(** ** Strings: sequences of UTF-16 code units *)

Definition jsstring := list N.

(** An ASCII literal as a JS string. *)
Definition js (s : string) : jsstring :=
  (fun a => N_of_ascii a) <$> list_ascii_of_string s.

Definition inRange (lo hi c : N) : bool := ((lo <=? c) && (c <=? hi))%N.

(** [\d] *)
Definition isDigit (c : N) : bool := inRange 48 57 c.

(** WhiteSpace and LineTerminator code units: what [\s] matches and what
    [String.prototype.trim] strips. *)
Definition isWhiteSpace (c : N) : bool :=
  inRange 9 13 c || bool_decide (c ∈ [32; 160; 5760; 8232; 8233; 8239; 8287; 12288; 65279]%N)
  || inRange 8192 8202 c.

Definition isLowerAscii (c : N) : bool := inRange 97 122 c.

(** Upper-casing of one ASCII code unit (the code units above 127 are left
    to [unicodeUpper], see [toUpperCase1]). *)
Definition upperAscii (c : N) : N := if isLowerAscii c then (c - 32)%N else c.

(** [s.trim()] *)
Fixpoint trimStart (s : jsstring) : jsstring :=
  match s with
  | c :: s' => if isWhiteSpace c then trimStart s' else s
  | [] => []
  end.
Definition trimEnd (s : jsstring) : jsstring := reverse (trimStart (reverse s)).
Definition trim (s : jsstring) : jsstring := trimEnd (trimStart s).

(** [s.slice(0, n)] for [n >= 0] and [s.slice(1)] *)
Definition slice0 (n : nat) (s : jsstring) : jsstring := take n s.
Definition slice1 (s : jsstring) : jsstring := drop 1 s.

(** [parts.join(sep)] *)
Fixpoint join (sep : jsstring) (parts : list jsstring) : jsstring :=
  match parts with
  | [] => []
  | [p] => p
  | p :: rest => p ++ sep ++ join sep rest
  end.


(** ** Numbers: IEEE-754 binary64 *)

Definition number := PrimFloat.float.
Bind Scope float_scope with number.

Abbreviation Prim2SF := FloatOps.Prim2SF.
Abbreviation SF2Prim := FloatOps.SF2Prim.
Abbreviation S754_zero := SpecFloat.S754_zero.
Abbreviation S754_infinity := SpecFloat.S754_infinity.
Abbreviation S754_nan := SpecFloat.S754_nan.
Abbreviation S754_finite := SpecFloat.S754_finite.

Definition NaN : number := PrimFloat.nan.
Definition isNaN (x : number) : bool := PrimFloat.is_nan x.

(** The four comparisons of the language; each is [false] on [NaN]. *)
Definition lt (x y : number) : bool := PrimFloat.ltb x y.
Definition le (x y : number) : bool := PrimFloat.leb x y.
Definition gt (x y : number) : bool := PrimFloat.ltb y x.
Definition ge (x y : number) : bool := PrimFloat.leb y x.

(** The number nearest to the integer [z] (exact below 2^53). *)
Definition ofZ (z : Z) : number :=
  SF2Prim (SpecFloat.binary_normalize FloatOps.prec FloatOps.emax z 0 false).

(** The number nearest to [num / den], for [num >= 0] and [den > 0]:
    a quotient with at least 64 significant bits and the exact position of
    the remainder, rounded to nearest, ties to even. *)
Definition ofRatio (num den : Z) : number :=
  if num =? 0 then PrimFloat.zero
  else
    let s := Z.log2 den + 64 in
    let q := (num * 2 ^ s) / den in
    let r := (num * 2 ^ s) mod den in
    let loc := if r =? 0 then SpecFloat.loc_Exact
               else SpecFloat.loc_Inexact (2 * r ?= den) in
    SF2Prim (SpecFloat.binary_round_aux FloatOps.prec FloatOps.emax false q (- s) loc).

(** ToIntegerOrInfinity on a finite number: truncation toward zero. *)
Definition truncate (x : number) : option Z :=
  match Prim2SF x with
  | S754_zero _ => Some 0
  | S754_finite s m e =>
      let a := if 0 <=? e then Zpos m * 2 ^ e else Zpos m / 2 ^ (- e) in
      Some (if s then - a else a)
  | _ => None
  end.

(** [Math.round]: the nearest integer, a tie going toward +infinity; the
    sign of a zero result is that of the argument. *)
Definition Math_round (x : number) : number :=
  match Prim2SF x with
  | S754_finite s m e =>
      if 0 <=? e then x
      else
        let den := 2 ^ (- e) in
        let n := if s then Zneg m else Zpos m in
        if n mod den =? 0 then x
        else
          let r := (2 * n + den) / (2 * den) in
          if r =? 0 then (if s then PrimFloat.neg_zero else PrimFloat.zero)
          else ofZ r
  | _ => x
  end.

(** Decimal digits of a non-negative integer ([0] gives ["0"]). *)
Fixpoint digitsAux (fuel : nat) (n : Z) (acc : jsstring) : jsstring :=
  match fuel with
  | O => acc
  | S fuel' =>
      let acc' := (48 + Z.to_N (n mod 10))%N :: acc in
      if n <? 10 then acc' else digitsAux fuel' (n / 10) acc'
  end.

Definition decimalDigits (n : Z) : jsstring :=
  digitsAux (S (Z.to_nat (Z.log2 n))) n [].

(** *** Number::toString (radix 10) *)

(** Exact comparison of [a * 2^e] with [s * 10^q], for [a], [s] >= 0. *)
Definition cmpDyadicDecimal (a e s q : Z) : comparison :=
  (a * 2 ^ Z.max e 0 * 10 ^ Z.max (- q) 0) ?= (s * 10 ^ Z.max q 0 * 2 ^ Z.max (- e) 0).

(** Does [s * 10^q] round to the number [m * 2^e]?  The rounding interval
    runs from half-way to the predecessor to half-way to the successor, the
    end points included when the mantissa is even. *)
Definition roundsTo (m e s q : Z) : bool :=
  let lo := 4 * m - (if (m =? 2 ^ 52) && (-1074 <? e) then 1 else 2) in
  let hi := 4 * m + 2 in
  match cmpDyadicDecimal lo (e - 2) s q, cmpDyadicDecimal hi (e - 2) s q with
  | Lt, Gt => true
  | Eq, _ | _, Eq => Z.even m
  | _, _ => false
  end.

(** The [d] with [10^(d-1) <= m * 2^e < 10^d], searched around the estimate
    obtained from the binary logarithm. *)
Definition decimalExponent (m e : Z) : Z :=
  let d0 := ((Z.log2 m + e) * 30103) / 100000 - 1 in
  let below d := match cmpDyadicDecimal m e 1 d with Lt => true | _ => false end in
  if below d0 then d0
  else if below (d0 + 1) then d0 + 1
  else if below (d0 + 2) then d0 + 2
  else if below (d0 + 3) then d0 + 3
  else d0 + 4.

(** The shortest digit string [s] (of [k] digits) and the [n] such that
    [s * 10^(n-k)] rounds to [m * 2^e]; of two candidates the nearer, the
    even one on a tie.  The lengths are tried from [k] on, [fuel] of them;
    among the strings of 17 digits there is always one that rounds to the
    number. *)
Fixpoint shortestDigits (fuel : nat) (k : Z) (m e d : Z) : Z * Z :=
  let q := d - k in
  let num := m * 2 ^ Z.max e 0 * 10 ^ Z.max (- q) 0 in
  let den := 2 ^ Z.max (- e) 0 * 10 ^ Z.max q 0 in
  let slo := num / den in
  let shi := slo + 1 in
  let pack s := if s =? 10 ^ k then (s / 10, d + 1) else (s, d) in
  match fuel with
  | O => pack slo
  | S fuel' =>
      match roundsTo m e slo q, roundsTo m e shi q with
      | true, false => pack slo
      | false, true => pack shi
      | true, true =>
          match (num - slo * den) ?= (shi * den - num) with
          | Lt => pack slo
          | Gt => pack shi
          | Eq => if Z.even slo then pack slo else pack shi
          end
      | false, false => shortestDigits fuel' (k + 1) m e d
      end
  end.

Definition zeros (n : Z) : jsstring := replicate (Z.to_nat n) 48%N.

Definition Number_toString (x : number) : jsstring :=
  match Prim2SF x with
  | S754_nan => js "NaN"
  | S754_zero _ => js "0"
  | S754_infinity s => (if s then js "-" else []) ++ js "Infinity"
  | S754_finite sg m e =>
      let '(s, n) := shortestDigits 17 1 (Zpos m) e (decimalExponent (Zpos m) e) in
      let ds := decimalDigits s in
      let k := Z.of_nat (length ds) in
      let body :=
        if (k <=? n) && (n <=? 21) then ds ++ zeros (n - k)
        else if (0 <? n) && (n <=? 21) then
          take (Z.to_nat n) ds ++ js "." ++ drop (Z.to_nat n) ds
        else if (-6 <? n) && (n <=? 0) then js "0." ++ zeros (- n) ++ ds
        else
          let ex := n - 1 in
          let exs := (if ex <? 0 then js "e-" else js "e+") ++ decimalDigits (Z.abs ex) in
          if k =? 1 then ds ++ exs
          else take 1 ds ++ js "." ++ drop 1 ds ++ exs in
      (if sg then js "-" else []) ++ body
  end.

(** *** Number.prototype.toFixed *)

Definition toFixed (x : number) (f : nat) : jsstring :=
  let fixedPoint (n : Z) :=
    let ds := decimalDigits n in
    if (f =? 0)%nat then ds
    else
      let ds := zeros (Z.of_nat (S f) - Z.of_nat (length ds)) ++ ds in
      let k := length ds in
      take (k - f) ds ++ js "." ++ drop (k - f) ds in
  match Prim2SF x with
  | S754_nan | S754_infinity _ => Number_toString x
  | S754_zero _ => fixedPoint 0
  | S754_finite s m e =>
      let sign := if s then js "-" else [] in
      if (0 <=? e) && (10 ^ 21 <=? Zpos m * 2 ^ e) then
        sign ++ Number_toString (PrimFloat.abs x)
      else
        let n := if 0 <=? e then Zpos m * 2 ^ e * 10 ^ Z.of_nat f
                 else (2 * Zpos m * 10 ^ Z.of_nat f + 2 ^ (- e)) / (2 * 2 ^ (- e)) in
        sign ++ fixedPoint n
  end.

(** *** parseFloat *)

Fixpoint takeDigits (s : jsstring) : jsstring * jsstring :=
  match s with
  | c :: s' => if isDigit c then let '(d, r) := takeDigits s' in (c :: d, r) else ([], s)
  | [] => ([], [])
  end.

Definition digitsValue (ds : jsstring) : Z :=
  foldl (fun acc c => 10 * acc + Z.of_N (c - 48)) 0 ds.

(** The exponent part [e], [e+] or [e-] followed by at least one digit;
    [0] when the text does not continue with one. *)
Definition exponentPart (s : jsstring) : Z :=
  match s with
  | c :: s' =>
      if bool_decide (c = 101%N) || bool_decide (c = 69%N) then
        match s' with
        | sg :: s'' =>
            if bool_decide (sg = 43%N) || bool_decide (sg = 45%N) then
              let '(d, _) := takeDigits s'' in
              if bool_decide (d = []) then 0
              else if bool_decide (sg = 45%N) then - digitsValue d else digitsValue d
            else
              let '(d, _) := takeDigits s' in digitsValue d
        | [] => 0
        end
      else 0
  | [] => 0
  end.

(** The longest prefix of the trimmed text that is a StrDecimalLiteral,
    rounded to the nearest number; [NaN] when there is none. *)
Definition parseFloat (input : jsstring) : number :=
  let s := trimStart input in
  let '(neg, s) :=
    match s with
    | c :: s' => if bool_decide (c = 45%N) then (true, s')
                 else if bool_decide (c = 43%N) then (false, s') else (false, s)
    | [] => (false, s)
    end in
  let signed (x : number) := if neg then PrimFloat.opp x else x in
  if bool_decide (take 8 s = js "Infinity") then signed PrimFloat.infinity
  else
    let '(ip, r) := takeDigits s in
    let '(fp, r) :=
      match r with
      | c :: r' => if bool_decide (c = 46%N) then takeDigits r' else ([], r)
      | [] => ([], r)
      end in
    if bool_decide (ip = []) && bool_decide (fp = []) then NaN
    else
      let mant := digitsValue (ip ++ fp) in
      let ex := exponentPart r - Z.of_nat (length fp) in
      signed (if 0 <=? ex then
                (if mant =? 0 then PrimFloat.zero else ofZ (mant * 10 ^ ex))
              else ofRatio mant (10 ^ (- ex))).

(** ** Exceptions *)

Inductive Error :=
| TypeError (msg : jsstring)
| RangeError (msg : jsstring)
| SyntaxError (msg : jsstring)
| ErrorMsg (msg : jsstring).     (* [new Error(msg)] *)

Definition message (e : Error) : jsstring :=
  match e with TypeError m | RangeError m | SyntaxError m | ErrorMsg m => m end.

(** A computation that returns a value or throws. *)
Inductive Result (A : Type) :=
| Ok (a : A)
| Throw (e : Error).
Arguments Ok {A} a.
Arguments Throw {A} e.

Definition bind {A B} (m : Result A) (f : A -> Result B) : Result B :=
  match m with Ok a => f a | Throw e => Throw e end.

Notation "x <-! m ; k" := (bind m (fun x => k))
  (at level 100, m at next level, right associativity).

(** [array.map(f)] where [f] may throw: left to right, stops at the first
    exception. *)
Fixpoint mapM {A B} (f : A -> Result B) (l : list A) : Result (list B) :=
  match l with
  | [] => Ok []
  | a :: l' => b <-! f a; bs <-! mapM f l'; Ok (b :: bs)
  end.

(** [array.find(p)] where [p] may throw. *)
Fixpoint findM {A} (p : A -> Result bool) (l : list A) : Result (option A) :=
  match l with
  | [] => Ok None
  | a :: l' => b <-! p a; if b then Ok (Some a) else findM p l'
  end.

(** ** Dates *)

(** A [Date] object holds a time value, an integral number of milliseconds
    since the epoch, or is the Invalid Date ([None]).  [new Date()] (the
    current time) is always valid and is written as its time value. *)
Definition Date := option Z.

Definition msPerDay : Z := 86400000.
Definition msPerHour : Z := 3600000.

(** [new Date(x)] for a number [x]: TimeClip. *)
Definition newDate (x : number) : Date :=
  match truncate x with
  | Some t => if Z.abs t <=? 8640000000000000 then Some t else None
  | None => None
  end.

(** Day(t) and HourFromTime(t) of the language definition, and the other
    parts of a time of day. *)
Definition Day (t : Z) : Z := t / msPerDay.
Definition HourFromTime (t : Z) : Z := (t / msPerHour) mod 24.
Definition MinFromTime (t : Z) : Z := (t / 60000) mod 60.
Definition SecFromTime (t : Z) : Z := (t / 1000) mod 60.
Definition msFromTime (t : Z) : Z := t mod 1000.

(** [date.getUTCHours()]; [NaN] ([None]) on the Invalid Date. *)
Definition getUTCHours (d : Date) : option Z := HourFromTime <$> d.

(** *** The calendar

    Years, months and days of the month as the language definition gives
    them (the Gregorian calendar, extended to all time). *)

Definition DaysInYear (y : Z) : Z :=
  if negb (y mod 4 =? 0) then 365
  else if negb (y mod 100 =? 0) then 366
  else if negb (y mod 400 =? 0) then 365
  else 366.

Definition DayFromYear (y : Z) : Z :=
  365 * (y - 1970) + (y - 1969) / 4 - (y - 1901) / 100 + (y - 1601) / 400.

(** The year of a day number: the largest [y] with [DayFromYear y <= d]
    (see [YearFromDay_spec]).  It is at most one away from the year
    estimated with 146097 days to 400 years. *)
Definition YearFromDay (d : Z) : Z :=
  let y := 1970 + (400 * d) / 146097 in
  if d <? DayFromYear y then y - 1
  else if DayFromYear (y + 1) <=? d then y + 1
  else y.

Definition YearFromTime (t : Z) : Z := YearFromDay (Day t).
Definition InLeapYear (t : Z) : Z := if DaysInYear (YearFromTime t) =? 366 then 1 else 0.
Definition DayWithinYear (t : Z) : Z := Day t - DayFromYear (YearFromTime t).

(** Months are numbered from 0. *)
Definition MonthFromTime (t : Z) : Z :=
  let d := DayWithinYear t in
  let leap := InLeapYear t in
  if d <? 31 then 0
  else if d <? 59 + leap then 1
  else if d <? 90 + leap then 2
  else if d <? 120 + leap then 3
  else if d <? 151 + leap then 4
  else if d <? 181 + leap then 5
  else if d <? 212 + leap then 6
  else if d <? 243 + leap then 7
  else if d <? 273 + leap then 8
  else if d <? 304 + leap then 9
  else if d <? 334 + leap then 10
  else 11.

Definition DateFromTime (t : Z) : Z :=
  let d := DayWithinYear t in
  let leap := InLeapYear t in
  match MonthFromTime t with
  | 0 => d + 1
  | 1 => d - 30
  | 2 => d - 58 - leap
  | 3 => d - 89 - leap
  | 4 => d - 119 - leap
  | 5 => d - 150 - leap
  | 6 => d - 180 - leap
  | 7 => d - 211 - leap
  | 8 => d - 242 - leap
  | 9 => d - 272 - leap
  | 10 => d - 303 - leap
  | _ => d - 333 - leap
  end.

(** The day within its year on which month [mn] (0 to 11) starts. *)
Definition monthStart (mn leap : Z) : Z :=
  match mn with
  | 0 => 0
  | 1 => 31
  | 2 => 59 + leap
  | 3 => 90 + leap
  | 4 => 120 + leap
  | 5 => 151 + leap
  | 6 => 181 + leap
  | 7 => 212 + leap
  | 8 => 243 + leap
  | 9 => 273 + leap
  | 10 => 304 + leap
  | _ => 334 + leap
  end.

(** MakeDay(year, month, date), for integral arguments: the day number of
    the first of the month, and [date - 1] days on. *)
Definition MakeDay (year month date : Z) : Z :=
  let ym := year + month / 12 in
  let mn := month mod 12 in
  DayFromYear ym + monthStart mn (if DaysInYear ym =? 366 then 1 else 0) + date - 1.

(** TimeClip on an integral time value; [None] is [NaN]. *)
Definition TimeClip (time : Z) : option Z :=
  if Z.abs time <=? 8640000000000000 then Some time else None.

(** [Date.UTC(year, month, date)], for integral arguments: a year from 0
    to 99 stands for the year 1900 later. *)
Definition Date_UTC (year month date : Z) : option Z :=
  let yr := if (0 <=? year) && (year <=? 99) then 1900 + year else year in
  TimeClip (MakeDay yr month date * msPerDay).

(** *** The ISO text of a date *)

(** The last [width] decimal digits of [n], with leading zeros. *)
Fixpoint zeroPad (width : nat) (n : Z) : jsstring :=
  match width with
  | O => []
  | S width' => zeroPad width' (n / 10) ++ [(48 + Z.to_N (n mod 10))%N]
  end.

(** The year of the ISO text: four digits for the years 0 to 9999, a sign
    and six digits for the others. *)
Definition yearText (y : Z) : jsstring :=
  if (0 <=? y) && (y <=? 9999) then zeroPad 4 y
  else (if y <? 0 then js "-" else js "+") ++ zeroPad 6 (Z.abs y).

(** [date.toISOString()] of a valid date. *)
Definition toISOString (t : Z) : jsstring :=
  yearText (YearFromTime t) ++ js "-" ++ zeroPad 2 (MonthFromTime t + 1) ++ js "-"
    ++ zeroPad 2 (DateFromTime t) ++ js "T" ++ zeroPad 2 (HourFromTime t) ++ js ":"
    ++ zeroPad 2 (MinFromTime t) ++ js ":" ++ zeroPad 2 (SecFromTime t) ++ js "."
    ++ zeroPad 3 (msFromTime t) ++ js "Z".

(** The first ten code units of the ISO text, which the program groups
    and matches dates by: ["YYYY-MM-DD"] for the years 0 to 9999, the sign,
    six digits of the year and the month for the others. *)
Definition DateKey := jsstring.
Definition isoDate (t : Z) : DateKey := slice0 10 (toISOString t).

(** [date.toISOString().slice(0, 10)]: a RangeError on the Invalid Date. *)
Definition toISOString_slice10 (d : Date) : Result DateKey :=
  match d with
  | Some t => Ok (isoDate t)
  | None => Throw (RangeError (js "Invalid time value"))
  end.

(** ** Regular expressions

    A backtracking matcher for the constructs the program's patterns use.
    The quantifiers range over character classes.  The continuation [k]
    receives the rest of the input and the text of capturing group 1. *)

Inductive regex :=
| RClass (p : N -> bool)                 (* one code unit of a class *)
| RLit (pat : jsstring) (ignoreCase : bool)  (* literal ASCII text *)
| RSeq (r1 r2 : regex)
| ROpt (r : regex)                       (* [(?:r)?] *)
| RStar (p : N -> bool)                  (* [class*], greedy *)
| RPlus (p : N -> bool)                  (* [class+], greedy *)
| RLazyStar (p : N -> bool)              (* [class*?] *)
| RGroup (r : regex).                    (* [(r)], the capturing group *)

(** Under the [i] flag an ASCII letter of the pattern matches its two ASCII
    cases and nothing else (a code unit above 127 never canonicalises to an
    ASCII one). *)
Definition unitMatches (ignoreCase : bool) (p c : N) : bool :=
  if ignoreCase then (upperAscii p =? upperAscii c)%N else (p =? c)%N.

Fixpoint litMatch (ignoreCase : bool) (pat s : jsstring) : option jsstring :=
  match pat, s with
  | [], _ => Some s
  | p :: pat', c :: s' => if unitMatches ignoreCase p c then litMatch ignoreCase pat' s' else None
  | _ :: _, [] => None
  end.

Section Quantifiers.
Context {R : Type} (p : N -> bool) (k : jsstring -> option R).

Fixpoint starGreedy (s : jsstring) : option R :=
  match s with
  | c :: s' =>
      if p c then
        match starGreedy s' with
        | Some r => Some r
        | None => k s
        end
      else k s
  | [] => k []
  end.

Fixpoint starLazy (s : jsstring) : option R :=
  match k s with
  | Some r => Some r
  | None =>
      match s with
      | c :: s' => if p c then starLazy s' else None
      | [] => None
      end
  end.
End Quantifiers.

Fixpoint rmatch {R : Type} (r : regex) (s : jsstring) (cap : option jsstring)
    (k : jsstring -> option jsstring -> option R) : option R :=
  match r with
  | RClass p =>
      match s with
      | c :: s' => if p c then k s' cap else None
      | [] => None
      end
  | RLit pat ic =>
      match litMatch ic pat s with
      | Some s' => k s' cap
      | None => None
      end
  | RSeq r1 r2 => rmatch r1 s cap (fun s' cap' => rmatch r2 s' cap' k)
  | ROpt r1 =>
      match rmatch r1 s cap k with
      | Some x => Some x
      | None => k s cap
      end
  | RStar p => starGreedy p (fun s' => k s' cap) s
  | RPlus p =>
      match s with
      | c :: s' => if p c then starGreedy p (fun s'' => k s'' cap) s' else None
      | [] => None
      end
  | RLazyStar p => starLazy p (fun s' => k s' cap) s
  | RGroup r1 =>
      rmatch r1 s cap (fun s' _ => k s' (Some (take (length s - length s') s)))
  end.

(** [s.match(r)] for a pattern without the [g] flag: the leftmost match;
    the result is group 1 of the match ([match[1]]), [None] for [null]. *)
Fixpoint String_match (r : regex) (s : jsstring) : option (option jsstring) :=
  match rmatch r s None (fun _ cap => Some cap) with
  | Some cap => Some cap
  | None =>
      match s with
      | _ :: s' => String_match r s'
      | [] => None
      end
  end.

(** [r.test(s)] *)
Definition RegExp_test (r : regex) (s : jsstring) : bool :=
  match String_match r s with Some _ => true | None => false end.

(** ** [Map]: keys in insertion order *)

Section MapOps.
Context {K V : Type} `{EqDecision K}.

Definition Map := list (K * V).

Fixpoint Map_get (k : K) (m : Map) : option V :=
  match m with
  | (k', v) :: m' => if decide (k' = k) then Some v else Map_get k m'
  | [] => None
  end.

Definition Map_has (k : K) (m : Map) : bool :=
  match Map_get k m with Some _ => true | None => false end.

(** [m.set(k, v)]: the value of an existing key is replaced where the key
    stands; a new key goes to the end. *)
Fixpoint Map_set (k : K) (v : V) (m : Map) : Map :=
  match m with
  | (k', v') :: m' => if decide (k' = k) then (k, v) :: m' else (k', v') :: Map_set k v m'
  | [] => [(k, v)]
  end.

(** [new Map(entries)] *)
Definition Map_of (entries : list (K * V)) : Map :=
  foldl (fun m kv => Map_set kv.1 kv.2 m) [] entries.

(** [m.values()] *)
Definition Map_values (m : Map) : list V := snd <$> m.
End MapOps.
Arguments Map : clear implicits.

End JS.

Import JS.

(* ===================================================================== *)
(** * The data model ([upwind-portal/src/types/index.ts]) *)
(* ===================================================================== *)

Inductive TrainingLevel := StudentPilot | PrivatePilot | InstrumentRated.
Inductive Status := Scheduled | WeatherConflict | Rescheduled.
Inductive FlightCategory := VFR | MVFR | IFR.
Inductive TimeOfDay := Morning | Afternoon | Evening.

#[global] Instance TrainingLevel_eq_dec : EqDecision TrainingLevel.
Proof. solve_decision. Defined.
#[global] Instance Status_eq_dec : EqDecision Status.
Proof. solve_decision. Defined.
#[global] Instance FlightCategory_eq_dec : EqDecision FlightCategory.
Proof. solve_decision. Defined.

Module Student.
Record t := mk {
    id : jsstring;
    name : jsstring;
    email : jsstring;
    trainingLevel : TrainingLevel;
    hoursLogged : number;
    hoursToNextMilestone : number;
    nextMilestone : jsstring;
    skillsNeeded : list jsstring;
    recentCancellations : number;
    typicalAvailability : list jsstring;
    preferredTimeOfDay : TimeOfDay;
    trainingFrequency : jsstring;
    lastLessonDate : Date;
  }.
End Student.

Module Location.
Record t := mk { lat : number; lon : number; name : jsstring }.
End Location.

Module FlightBooking.
(** [scheduledDate] is a valid date: the dashboard renders
    [scheduledDate.toISOString()] of every lesson (the lesson signature)
    before a scan can start. *)
Record t := mk {
    id : jsstring;
    studentId : jsstring;
    scheduledDate : Z;
    aircraft : jsstring;
    instructor : jsstring;
    departureLocation : Location.t;
    status : Status;
  }.

(** [{ ...lesson, status: s }] *)
Definition withStatus (lesson : t) (s : Status) : t :=
  mk (id lesson) (studentId lesson) (scheduledDate lesson) (aircraft lesson)
     (instructor lesson) (departureLocation lesson) s.
End FlightBooking.

Module WeatherData.
Record t := mk {
    temperature : number;
    winds : jsstring;
    visibility : jsstring;
    sky : jsstring;
    conditions : FlightCategory;
    timestamp : Date;
  }.
End WeatherData.

(** The provider's records ([OpenWeatherEntry] and its parts); an absent or
    [null] member is [None]. *)
Module OpenWeather.
Record Condition := mkCondition { description : option jsstring }.
Record Wind := mkWind { deg : option number; speed : option number }.
Record Main := mkMain { temp : option number }.
Record Clouds := mkClouds { all : option number }.
Record Entry := mkEntry {
    dt : number;
    main : option Main;
    wind : option Wind;
    visibility : option number;
    clouds : option Clouds;
    weather : option (list (option Condition));
  }.
End OpenWeather.

(* ===================================================================== *)
(** * The weather normaliser

    [formatWinds], [formatVisibility], [determineFlightCategory],
    [buildSkySummary] and [mapCurrentWeather] stand, with the same text, in
    the backend and in the portal's weather service; the two copies differ
    in the degree mark of [formatWinds] only. *)
(* ===================================================================== *)

Module Weather.
Section Normaliser.
(** The upper-casing of one code unit above 127 (the Unicode case table). *)
Variable unicodeUpper : N -> jsstring.
(** The text between the heading and [" at "] in [formatWinds]. *)
Variable degreeMark : jsstring.

Definition formatWinds (deg speedMph : option number) : jsstring :=
  match deg, speedMph with
  | Some deg, Some speedMph =>
      let normalizedHeading := Math_round deg in
      let knots := Math_round (speedMph * 0.868976)%float in
      Number_toString normalizedHeading ++ degreeMark ++ js " at "
        ++ Number_toString knots ++ js " kts"
  | _, _ => js "Calm"
  end.

Definition formatVisibility (visibilityMeters : option number) : jsstring :=
  match visibilityMeters with
  | None => js "N/A"
  | Some visibilityMeters =>
      let statuteMiles := (visibilityMeters / 1609.34)%float in
      toFixed statuteMiles 1 ++ js " sm"
  end.

Definition determineFlightCategory (visibilityMeters cloudCoveragePercent : option number)
    : FlightCategory :=
  match visibilityMeters with
  | None => VFR
  | Some visibilityMeters =>
      let visibilitySm := (visibilityMeters / 1609.34)%float in
      let coverage := default 0%float cloudCoveragePercent in
      if lt visibilitySm 3 || ge coverage 85 then IFR
      else if lt visibilitySm 5 || ge coverage 60 then MVFR
      else VFR
  end.

(** [ch.toUpperCase()] for a string [ch] of one code unit. *)
Definition toUpperCase1 (c : N) : jsstring :=
  if (c <? 128)%N then [upperAscii c] else unicodeUpper c.

(** [description[0].toUpperCase() + description.slice(1)]; on the empty
    string [description[0]] is [undefined] and the call throws. *)
Definition capitalize (description : jsstring) : Result jsstring :=
  match description with
  | c :: _ => Ok (toUpperCase1 c ++ slice1 description)
  | [] => Throw (TypeError (js "Cannot read properties of undefined (reading 'toUpperCase')"))
  end.

Definition buildSkySummary (weatherDescriptions : list jsstring) : Result jsstring :=
  if bool_decide (length weatherDescriptions = 0%nat) then Ok (js "Clear")
  else
    parts <-! mapM capitalize weatherDescriptions;
    Ok (join (js ", ") parts).

(** [(payload.weather ?? []).map((item) => item?.description ?? 'conditions')] *)
Definition descriptionList (payload : OpenWeather.Entry) : list jsstring :=
  (fun item => default (js "conditions") (item ≫= OpenWeather.description))
    <$> default [] (OpenWeather.weather payload).

(** [mapCurrentWeather]; [mapForecastEntry] of the weather service and the
    body of [mapForecastWeather] of the backend have the same text. *)
Definition mapCurrentWeather (payload : OpenWeather.Entry) : Result WeatherData.t :=
  let temperature := default 0%float (OpenWeather.main payload ≫= OpenWeather.temp) in
  let winds := formatWinds (OpenWeather.wind payload ≫= OpenWeather.deg)
                           (OpenWeather.wind payload ≫= OpenWeather.speed) in
  let visibility := formatVisibility (OpenWeather.visibility payload) in
  sky <-! buildSkySummary (descriptionList payload);
  let conditions := determineFlightCategory (OpenWeather.visibility payload)
                      (OpenWeather.clouds payload ≫= OpenWeather.all) in
  let timestamp := newDate (OpenWeather.dt payload * 1000)%float in
  Ok (WeatherData.mk temperature winds visibility sky conditions timestamp).

Definition mapForecastEntry := mapCurrentWeather.

(** ** Forecast aggregation

    The loop bodies of [fetchWeatherForecast] (weather service) and of the
    [/api/weather/forecast] handler (backend), which have the same text. *)

(** [const dateKey = ...; if (!grouped.has(dateKey)) grouped.set(dateKey, []);
    grouped.get(dateKey)?.push(entry)] *)
Definition groupStep (grouped : Map DateKey (list OpenWeather.Entry))
    (entry : OpenWeather.Entry) : Result (Map DateKey (list OpenWeather.Entry)) :=
  dateKey <-! toISOString_slice10 (newDate (OpenWeather.dt entry * 1000)%float);
  let grouped := if Map_has dateKey grouped then grouped else Map_set dateKey [] grouped in
  match Map_get dateKey grouped with
  | Some dayEntries => Ok (Map_set dateKey (dayEntries ++ [entry]) grouped)
  | None => Ok grouped
  end.

Fixpoint groupByDate (grouped : Map DateKey (list OpenWeather.Entry))
    (entries : list OpenWeather.Entry) : Result (Map DateKey (list OpenWeather.Entry)) :=
  match entries with
  | [] => Ok grouped
  | entry :: rest => grouped' <-! groupStep grouped entry; groupByDate grouped' rest
  end.

(** [(item) => { const hour = new Date(item.dt * 1000).getUTCHours();
    return hour >= 15 && hour <= 21; }] *)
Definition inAfternoonWindow (item : OpenWeather.Entry) : bool :=
  match getUTCHours (newDate (OpenWeather.dt item * 1000)%float) with
  | Some hour => (15 <=? hour) && (hour <=? 21)
  | None => false
  end.

(** [dayEntries.find(...) ?? dayEntries[Math.floor(dayEntries.length / 2)]] *)
Definition middayEntry (dayEntries : list OpenWeather.Entry) : option OpenWeather.Entry :=
  match find inAfternoonWindow dayEntries with
  | Some item => Some item
  | None => dayEntries !! (length dayEntries / 2)%nat
  end.

(** The summarising loop: one reading per group, in the order of the
    groups, left once [maxDays] readings are collected.  An absent midday
    entry cannot be mapped ([entry.weather] of [undefined] throws). *)
Fixpoint summarize (maxDays : Z) (groups : list (list OpenWeather.Entry))
    (summaries : list WeatherData.t) : Result (list WeatherData.t) :=
  match groups with
  | [] => Ok summaries
  | dayEntries :: rest =>
      match middayEntry dayEntries with
      | None => Throw (TypeError (js "Cannot read properties of undefined (reading 'weather')"))
      | Some entry =>
          reading <-! mapForecastEntry entry;
          let summaries := summaries ++ [reading] in
          if Z.of_nat (length summaries) >=? maxDays then Ok summaries
          else summarize maxDays rest summaries
      end
  end.

Definition summarizeForecast (entries : list OpenWeather.Entry) (maxDays : Z)
    : Result (list WeatherData.t) :=
  grouped <-! groupByDate [] entries;
  summarize maxDays (Map_values grouped) [].
End Normaliser.
End Weather.

(** JSON values, as [JSON.parse] returns them. *)
Inductive JSON :=
| JNull
| JBool (b : bool)
| JNum (x : number)
| JStr (s : jsstring)
| JArr (items : list JSON)
| JObj (members : list (jsstring * JSON)).

(** [JSON.parse(JSON.stringify(value))] for a value that [JSON.parse]
    returned, which is what the reader of a response gets of the value the
    writer has put in: [JSON.stringify] writes the zeros as [0] and the
    infinite numbers as [null]; every other number is written with
    [Number::toString] and read back as it was, and texts, arrays and
    members keep their contents and their order. *)
Fixpoint JSON_roundTrip (value : JSON) : JSON :=
  match value with
  | JNum x =>
      match Prim2SF x with
      | S754_finite _ _ _ => JNum x
      | S754_zero _ => JNum 0
      | _ => JNull
      end
  | JArr items => JArr (JSON_roundTrip <$> items)
  | JObj members =>
      JObj ((fun member => match member with (key, v) => (key, JSON_roundTrip v) end)
              <$> members)
  | _ => value
  end.

(* ===================================================================== *)
(** * The portal's weather service ([unnamed/part_001]) *)
(* ===================================================================== *)

Module WeatherService.

(** What [fetch] of the provider's forecast URL comes to: the promise is
    rejected, the response is not [ok], or the body is read ([data.list],
    which may be absent). *)
Inductive ForecastFetch :=
  | FetchRejected (e : Error)
  | FetchNotOk (status : number)
  | FetchData (list : option (list OpenWeather.Entry)).

Section Service.
Variable unicodeUpper : N -> jsstring.
(** [import.meta.env.VITE_OPENWEATHER_API_KEY] *)
Variable apiKey : option jsstring.
(** The provider, by the latitude and the longitude as the request URL
    carries them ([`...forecast?lat=${lat}&lon=${lon}&appid=...`]). *)
Variable openWeather : jsstring -> jsstring -> ForecastFetch.

(** The two code units that stand before [" at "] in this copy of
    [formatWinds]. *)
Definition degreeMark : jsstring := [194; 176]%N.

Definition mapForecastEntry := Weather.mapForecastEntry unicodeUpper degreeMark.

Definition ensureApiKey : Result jsstring :=
  match apiKey with
  | Some key => if bool_decide (key = []) then Throw (ErrorMsg (js "OpenWeather API key is not configured"))
                else Ok key
  | None => Throw (ErrorMsg (js "OpenWeather API key is not configured"))
  end.

(** The [try] block of [fetchWeatherForecast]. *)
Definition fetchWeatherForecast_body (lat lon : number) (days : Z)
    : Result (list WeatherData.t) :=
  _ <-! ensureApiKey;
  match openWeather (Number_toString lat) (Number_toString lon) with
  | FetchRejected e => Throw e
  | FetchNotOk status =>
      Throw (ErrorMsg (js "OpenWeather responded with " ++ Number_toString status))
  | FetchData list =>
      let entries := default [] list in
      let maxDays := Z.min (Z.max days 1) 7 in
      Weather.summarizeForecast unicodeUpper degreeMark entries maxDays
  end.

(** [days] is a whole number of days (the callers pass the literal 7). *)
Definition fetchWeatherForecast (lat lon : number) (days : Z) : list WeatherData.t :=
  match fetchWeatherForecast_body lat lon days with
  | Ok summaries => summaries
  | Throw _ => []            (* [console.error(...); return []] *)
  end.
End Service.
End WeatherService.

(* ===================================================================== *)
(** * The backend ([unnamed/part_000]) *)
(* ===================================================================== *)

Module Backend.

Inductive Body :=
  | ForecastBody (dailySummaries : list WeatherData.t)
  | SuggestionsBody (suggestions : JSON)
  | ErrorBody (error : jsstring) (details : option JSON).

Record Response := mkResponse { status : Z; body : Body }.

(** [axios.get] of the provider: the data of the response, or the error
    thrown, with the provider's response data when it has one. *)
Inductive AxiosOutcome :=
  | AxiosData (list : option (list OpenWeather.Entry))
  | AxiosError (e : Error) (responseData : option JSON).

(** One block of the advisory provider's reply. *)
Record ContentBlock := mkBlock { type : option jsstring; text : jsstring }.

(** [anthropicClient.messages.create(...)]: the call throws (the provider
    cannot be reached, or refuses), or replies. *)
Inductive ProviderOutcome :=
  | ProviderThrows (e : Error)
  | ProviderReplies (content : list ContentBlock).

Record Conflict := mkConflict {
    conflictScheduledDate : jsstring;
    reason : option jsstring;
    notes : option jsstring;
  }.

(** The body of a reschedule request; [None] is an absent or [null]
    member. *)
Record ReschedulePayload := mkPayload {
    student : option Student.t;
    weather : option WeatherData.t;
    conflict : option Conflict;
  }.

Section Handlers.
Variable unicodeUpper : N -> jsstring.
(** [JSON.parse]; [None] when it throws a SyntaxError. *)
Variable JSON_parse : jsstring -> option JSON.
(** [process.env.OPENWEATHER_API_KEY] and whether the advisory client
    was built ([ANTHROPIC_API_KEY] set and not empty). *)
Variable openWeatherApiKey : option jsstring.
Variable anthropicConfigured : bool.

Definition degreeMark : jsstring := [176]%N.

Definition formatWinds := Weather.formatWinds degreeMark.
Definition formatVisibility := Weather.formatVisibility.
Definition determineFlightCategory := Weather.determineFlightCategory.
Definition buildSkySummary := Weather.buildSkySummary unicodeUpper.
Definition mapCurrentWeather := Weather.mapCurrentWeather unicodeUpper degreeMark.

(** [mapForecastWeather(payload)] *)
Definition mapForecastWeather (payload : list OpenWeather.Entry)
    : Result (list WeatherData.t) :=
  mapM mapCurrentWeather payload.

(** [parseInt(text, 10)]: the integer the longest signed run of digits
    after leading white space denotes; [None] for [NaN]. *)
Definition parseInt10 (text : jsstring) : option Z :=
  let s := trimStart text in
  let '(neg, s) :=
    match s with
    | c :: s' => if bool_decide (c = 45%N) then (true, s')
                 else if bool_decide (c = 43%N) then (false, s') else (false, s)
    | [] => (false, s)
    end in
  let '(ds, _) := takeDigits s in
  if bool_decide (ds = []) then None
  else Some (if neg then - digitsValue ds else digitsValue ds).

(** [Math.min(Math.max(parseInt(String(days), 10) || 3, 1), 7)], the
    query parameter defaulting to ['3']. *)
Definition daysInt (days : option jsstring) : Z :=
  let parsed := parseInt10 (default (js "3") days) in
  let n := match parsed with
           | Some n => if n =? 0 then 3 else n
           | None => 3
           end in
  Z.min (Z.max n 1) 7.

(** The [/api/weather/forecast] handler, from [daysInt] on; [lat] and
    [lon] are the query parameters and [axios] the provider's answer to
    the request for [daysInt * 8] entries. *)
Definition forecastHandler (lat lon days : option jsstring)
    (axios : Z -> AxiosOutcome) : Response :=
  if bool_decide (default [] lat = []) || bool_decide (default [] lon = []) then
    mkResponse 400 (ErrorBody (js "lat and lon are required query parameters") None)
  else
    let daysInt := daysInt days in
    let entriesPerDay := 8 in
    let failed (details : JSON) :=
      mkResponse 500 (ErrorBody (js "Unable to fetch forecast weather") (Some details)) in
    match openWeatherApiKey with
    | None => failed (JStr (js "OPENWEATHER_API_KEY is not configured"))
    | Some key =>
        if bool_decide (key = []) then failed (JStr (js "OPENWEATHER_API_KEY is not configured"))
        else
          match axios (daysInt * entriesPerDay) with
          | AxiosError e (Some data) => failed data
          | AxiosError e None => failed (JStr (message e))
          | AxiosData list =>
              match Weather.summarizeForecast unicodeUpper degreeMark (default [] list) daysInt with
              | Ok dailySummaries => mkResponse 200 (ForecastBody dailySummaries)
              | Throw e => failed (JStr (message e))
              end
          end
    end.

(** The pattern of [extractJson]: three backticks, an optional [json],
    white space, the lazily captured content, three backticks. *)
Definition fencePattern : regex :=
  RSeq (RLit (js "```") true)
    (RSeq (ROpt (RLit (js "json") true))
      (RSeq (RStar isWhiteSpace)
        (RSeq (RGroup (RLazyStar (fun _ => true)))
              (RLit (js "```") true)))).

Definition extractJson (payload : jsstring) : jsstring :=
  match String_match fencePattern payload with
  | Some (Some inner) => if bool_decide (inner = []) then trim payload else trim inner
  | _ => trim payload
  end.

(** The [try] block of the [/api/reschedule] handler, after the prompt
    is built. *)
Definition rescheduleBody (provider : ProviderOutcome) : Result JSON :=
  match provider with
  | ProviderThrows e => Throw e
  | ProviderReplies content =>
      match find (fun item => bool_decide (type item = Some (js "text"))) content with
      | None => Throw (ErrorMsg (js "Claude response did not include text content"))
      | Some textContent =>
          match JSON_parse (extractJson (text textContent)) with
          | Some suggestions => Ok suggestions
          | None =>
              Throw (ErrorMsg (js "Claude response was not valid JSON. Received: "
                                 ++ slice0 200 (text textContent) ++ js "..."))
          end
      end
  end.

Definition rescheduleHandler (payload : ReschedulePayload) (provider : ProviderOutcome)
    : Response :=
  if negb anthropicConfigured then
    mkResponse 500 (ErrorBody (js "Anthropic API is not configured") None)
  else
    match student payload, weather payload, conflict payload with
    | Some _, Some _, Some _ =>
        match rescheduleBody provider with
        | Ok suggestions => mkResponse 200 (SuggestionsBody suggestions)
        | Throw e =>
            mkResponse 500 (ErrorBody (js "Unable to generate rescheduling options")
                                      (Some (JStr (message e))))
        end
    | _, _, _ =>
        mkResponse 400
          (ErrorBody (js "student, weather, and conflict are required in the request body") None)
    end.
End Handlers.
End Backend.

(* ===================================================================== *)
(** * The advisory client ([upwind-portal/src/services/claudeService.ts]) *)
(* ===================================================================== *)

Module ClaudeService.

Record RescheduleContext := mkContext {
    student : Student.t;
    conflictedBooking : FlightBooking.t;
    conflictReason : jsstring;
    weatherForecast : list WeatherData.t;
    currentDate : Z;
  }.

(** What [fetch] of the backend comes to. *)
Inductive BackendFetch :=
  | BackendUnreachable (e : Error)
  | BackendResponds (r : Backend.Response).

Section Client.
(** The text of [date.toISOString()], which the request carries. *)
Variable toISOString : Z -> jsstring.
(** The backend, by the payload posted to it. *)
Variable backend : Backend.ReschedulePayload -> BackendFetch.

Definition payloadOf (context : RescheduleContext) : Backend.ReschedulePayload :=
  Backend.mkPayload
    (Some (student context))
    (head (weatherForecast context))           (* [weatherForecast[0] ?? null] *)
    (Some (Backend.mkConflict
             (toISOString (FlightBooking.scheduledDate (conflictedBooking context)))
             (Some (conflictReason context))
             (Some (js "Generated on " ++ toISOString (currentDate context))))).

(** The [try] block of [generateRescheduleSuggestions]. *)
Definition generateRescheduleSuggestions_body (context : RescheduleContext)
    : Result (list JSON) :=
  match backend (payloadOf context) with
  | BackendUnreachable e => Throw e
  | BackendResponds r =>
      if negb ((200 <=? Backend.status r) && (Backend.status r <=? 299)) then
        Throw (ErrorMsg (js "Backend responded with status "
                           ++ decimalDigits (Backend.status r)))
      else
        (* [data = await response.json()]: the body as [res.json] wrote it *)
        match Backend.body r with
        | Backend.SuggestionsBody suggestions =>
            match JSON_roundTrip suggestions with
            | JArr suggestions => Ok suggestions
            | _ => Ok []     (* [Array.isArray(data.suggestions) ? data.suggestions : []] *)
            end
        | _ => Ok []
        end
  end.

(** The promise [generateRescheduleSuggestions] returns: fulfilled with
    a list ([Ok]) or rejected ([Throw]). *)
Definition generateRescheduleSuggestions (context : RescheduleContext)
    : Result (list JSON) :=
  match generateRescheduleSuggestions_body context with
  | Ok suggestions => Ok suggestions
  | Throw _ => Ok []          (* [console.error(...); return []] *)
  end.
End Client.
End ClaudeService.

(* ===================================================================== *)
(** * Objects with identity

    The conflict scan builds new lesson objects and new arrays and hands
    untouched ones through; its callers compare them by reference.  An
    object is its address together with its (never mutated) contents, and
    an allocating computation threads the next free address; it may also
    throw. *)
(* ===================================================================== *)

Module Heap.
Record Obj (A : Type) := mkObj { addr : positive; val : A }.
Arguments mkObj {A} addr val.
Arguments addr {A} o.
Arguments val {A} o.

Definition M (A : Type) : Type := positive -> Result (A * positive).

Definition ret {A} (a : A) : M A := fun next => Ok (a, next).
Definition bind {A B} (m : M A) (f : A -> M B) : M B :=
  fun next => match m next with
              | Ok (a, next') => f a next'
              | Throw e => Throw e
              end.
Definition lift {A} (r : Result A) : M A :=
  fun next => match r with Ok a => Ok (a, next) | Throw e => Throw e end.
(** The address of a new object. *)
Definition fresh : M positive := fun next => Ok (next, Pos.succ next).
(** [{ ... }]: a new object with the given contents. *)
Definition new {A} (a : A) : M (Obj A) := bind fresh (fun p => ret (mkObj p a)).

(** [l === r] on objects. *)
Definition sameObject {A} (l r : Obj A) : bool := bool_decide (addr l = addr r).
End Heap.

Notation "x <-~ m ; k" := (Heap.bind m (fun x => k))
  (at level 100, m at next level, right associativity).

(* ===================================================================== *)
(** * The student dashboard

    The [StudentDashboard] component and its helpers, in
    [upwind-portal/src/components/TrainingStatusCard.tsx]. *)
(* ===================================================================== *)

Module Dashboard.
Import Heap.

Definition Lesson := Obj FlightBooking.t.
Definition LessonArray := Obj (list Lesson).

Definition LOCATION_KEY (location : Location.t) : jsstring :=
  Number_toString (Location.lat location) ++ js "," ++ Number_toString (Location.lon location).

Definition getDateKey (date : Date) : Result DateKey := toISOString_slice10 date.

Definition MS_PER_DAY : Z := 1000 * 60 * 60 * 24.

(** [[\d.]] *)
Definition isNumeric (c : N) : bool := isDigit c || (c =? 46)%N.

(** [/([\d.]+)/] *)
Definition visibilityPattern : regex := RGroup (RPlus isNumeric).
(** [/calm/i] *)
Definition calmPattern : regex := RLit (js "calm") true.
(** [/([\d.]+)\s*kts/i] *)
Definition ktsPattern : regex :=
  RSeq (RGroup (RPlus isNumeric)) (RSeq (RStar isWhiteSpace) (RLit (js "kts") true)).

(** [Number.parseFloat(match[1])]; a group that took no part in the match
    is [undefined], which parses to [NaN]. *)
Definition parseGroup (group : option jsstring) : number :=
  match group with Some token => parseFloat token | None => NaN end.

Definition parseVisibilityMiles (value : jsstring) : option number :=
  parseGroup <$> String_match visibilityPattern value.

Definition parseWindSpeedKts (value : jsstring) : option number :=
  if RegExp_test calmPattern value then Some 0%float
  else parseGroup <$> String_match ktsPattern value.

Record MinimumsRule := mkRule {
    minVisibility : number;
    maxWind : number;
    allowedConditions : list FlightCategory;
  }.

Definition trainingMinimumRules (level : TrainingLevel) : MinimumsRule :=
  match level with
  | StudentPilot => mkRule 5 15 [VFR]
  | PrivatePilot => mkRule 3 20 [VFR; MVFR]
  | InstrumentRated => mkRule 1 25 [VFR; MVFR; IFR]
  end.

Definition meetsStudentMinimums (student : Student.t) (weather : WeatherData.t) : bool :=
  let rules := trainingMinimumRules (Student.trainingLevel student) in
  let visibility := parseVisibilityMiles (WeatherData.visibility weather) in
  let windSpeed := parseWindSpeedKts (WeatherData.winds weather) in
  let visibilityOk :=
    match visibility with None => true | Some v => ge v (minVisibility rules) end in
  let windOk :=
    match windSpeed with None => true | Some w => le w (maxWind rules) end in
  let conditionsOk :=
    bool_decide (WeatherData.conditions weather ∈ allowedConditions rules) in
  visibilityOk && windOk && conditionsOk.

(** [x < n] and [x >= n] for a whole number or [NaN] ([None]) [x]: both
    are [false] on [NaN]. *)
Definition ltNumber (x : option Z) (n : Z) : bool :=
  match x with Some x => x <? n | None => false end.
Definition geNumber (x : option Z) (n : Z) : bool :=
  match x with Some x => x >=? n | None => false end.

Section Scan.
(** The local time zone adjustment at a time value, in milliseconds. *)
Variable LocalTZA : Z -> Z.
(** The environment of the weather service. *)
Variable unicodeUpper : N -> jsstring.
Variable apiKey : option jsstring.
Variable openWeather : jsstring -> jsstring -> WeatherService.ForecastFetch.

(** LocalTime(t), and the local year, month and day of the month of a
    date: [getFullYear()], [getMonth()] and [getDate()]. *)
Definition LocalTime (t : Z) : Z := t + LocalTZA t.
Definition getFullYear (t : Z) : Z := YearFromTime (LocalTime t).
Definition getMonth (t : Z) : Z := MonthFromTime (LocalTime t).
Definition getDate (t : Z) : Z := DateFromTime (LocalTime t).

(** [differenceInDays(from, to)]; [None] is [NaN].  The two values of
    [Date.UTC] are multiples of [MS_PER_DAY], so that the difference and
    the quotient are exact and [Math.floor] changes nothing. *)
Definition differenceInDays (from to : Z) : option Z :=
  fromUtc ← Date_UTC (getFullYear from) (getMonth from) (getDate from);
  toUtc ← Date_UTC (getFullYear to) (getMonth to) (getDate to);
  Some ((toUtc - fromUtc) / MS_PER_DAY).

Definition fetchWeatherForecast :=
  WeatherService.fetchWeatherForecast unicodeUpper apiKey openWeather.

(** [prev.map(callback)], the callback also telling whether it set the
    [changed] flag. *)
Fixpoint mapLessons (callback : Lesson -> M (Lesson * bool)) (lessons : list Lesson)
    (changed : bool) : M (list Lesson * bool) :=
  match lessons with
  | [] => ret ([], changed)
  | lesson :: rest =>
      r <-~ callback lesson;
      rs <-~ mapLessons callback rest (changed || r.2);
      ret (r.1 :: rs.1, rs.2)
  end.

(** [(prev) => { let changed = false; const next = prev.map(callback);
    return changed ? next : prev; }] *)
Definition updater (callback : Lesson -> M (Lesson * bool)) (prev : LessonArray)
    : M LessonArray :=
  a <-~ fresh;
  r <-~ mapLessons callback (val prev) false;
  ret (if r.2 then mkObj a r.1 else prev).

(** [changed = true; return { ...lesson, status }] when the status
    differs, the lesson itself otherwise. *)
Definition setStatus (lesson : Lesson) (nextStatus : Status) : M (Lesson * bool) :=
  if bool_decide (FlightBooking.status (val lesson) ≠ nextStatus) then
    o <-~ new (FlightBooking.withStatus (val lesson) nextStatus);
    ret (o, true)
  else ret (lesson, false).

(** The callback of the update made when no lesson is relevant. *)
Definition resetLesson (lesson : Lesson) : M (Lesson * bool) :=
  if bool_decide (FlightBooking.status (val lesson) = Rescheduled) then ret (lesson, false)
  else setStatus lesson Scheduled.

(** [dailyForecast.find((entry) => getDateKey(entry.timestamp) === targetDateKey) ?? null] *)
Definition forecastForDay (dailyForecast : list WeatherData.t) (targetDateKey : DateKey)
    : Result (option WeatherData.t) :=
  findM (fun entry =>
           key <-! getDateKey (WeatherData.timestamp entry);
           Ok (bool_decide (key = targetDateKey)))
        dailyForecast.

(** The callback of the update made by [evaluateConflicts]. *)
Definition evaluateLesson (student : Student.t)
    (forecastMap : gmap jsstring (list WeatherData.t)) (today : Z) (lesson : Lesson)
    : M (Lesson * bool) :=
  let booking := val lesson in
  if bool_decide (FlightBooking.status booking = Rescheduled) then ret (lesson, false)
  else
    let diffDays := differenceInDays today (FlightBooking.scheduledDate booking) in
    if ltNumber diffDays 0 || geNumber diffDays 7 then setStatus lesson Scheduled
    else
      let locationKey := LOCATION_KEY (FlightBooking.departureLocation booking) in
      let dailyForecast := default [] (forecastMap !! locationKey) in
      let targetDateKey := isoDate (FlightBooking.scheduledDate booking) in
      found <-~ lift (forecastForDay dailyForecast targetDateKey);
      let nextStatus :=
        match found with
        | Some forecast =>
            if negb (meetsStudentMinimums student forecast) then WeatherConflict
            else Scheduled
        | None => Scheduled
        end in
      setStatus lesson nextStatus.

(** [lessons.filter(...)] of the effect. *)
Definition relevantLessons (now : Z) (lessons : list Lesson) : list Lesson :=
  List.filter
    (fun lesson =>
       if bool_decide (FlightBooking.status (val lesson) = Rescheduled) then false
       else
         let diffDays := differenceInDays now (FlightBooking.scheduledDate (val lesson)) in
         geNumber diffDays 0 && ltNumber diffDays 7)
    lessons.

(** [Array.from(new Map(relevantLessons.map(...)).values())] *)
Definition uniqueLocations (relevant : list Lesson) : list Location.t :=
  Map_values
    (Map_of ((fun lesson =>
                (LOCATION_KEY (FlightBooking.departureLocation (val lesson)),
                 FlightBooking.departureLocation (val lesson))) <$> relevant)).

(** [new Map(forecastEntries)] of [evaluateConflicts]. *)
Definition forecastMapOf (locations : list Location.t) : gmap jsstring (list WeatherData.t) :=
  foldl (fun m location =>
           <[LOCATION_KEY location :=
               fetchWeatherForecast (Location.lat location) (Location.lon location) 7]> m)
        ∅ locations.

(** The conflict-scan effect.  [lessons] is the lesson state the effect
    was started for and [now] the time of its start; [prev] is the
    lesson state, [today] the time and [cancelled] the flag when the
    forecasts have arrived.  The result is the new lesson state. *)
Definition conflictScan (student : option Student.t) (lessons : LessonArray) (now : Z)
    (cancelled : bool) (today : Z) (prev : LessonArray) : M LessonArray :=
  match student with
  | None => ret prev
  | Some student =>
      if bool_decide (length (val lessons) = 0%nat) then ret prev
      else
        let relevant := relevantLessons now (val lessons) in
        if bool_decide (length relevant = 0%nat) then updater resetLesson prev
        else
          let locations := uniqueLocations relevant in
          let forecastMap := forecastMapOf locations in
          if cancelled then ret prev
          else updater (evaluateLesson student forecastMap today) prev
  end.
End Scan.
End Dashboard.


(* ===================================================================== *)
(** * The current-weather requests

    [fetchCurrentWeather] of the portal's weather service
    ([unnamed/part_001]) and the [/api/weather/current] handler of the
    backend ([unnamed/part_000]). *)
(* ===================================================================== *)

Module CurrentWeather.

(** What [fetch] of the provider's current-weather URL comes to: the
    promise is rejected (also when the body is no JSON), the response is
    not [ok], or the body is read as a provider record. *)
Inductive CurrentFetch :=
| FetchRejected (e : Error)
| FetchNotOk (status : number)
| FetchData (data : OpenWeather.Entry).

(** [axios.get] of the provider: the data of the response, or the error
    thrown, with the provider's response data when it has one. *)
Inductive AxiosOutcome :=
| AxiosData (data : OpenWeather.Entry)
| AxiosError (e : Error) (responseData : option JSON).

(** The answers of the handler: [res.json(weather)] and
    [res.status(code).json({ error, details })]. *)
Inductive Response :=
| WeatherResponse (weather : WeatherData.t)
| ErrorResponse (status : Z) (error : jsstring) (details : option JSON).

Definition status (response : Response) : Z :=
  match response with
  | WeatherResponse _ => 200
  | ErrorResponse status _ _ => status
  end.

Section Service.
Variable unicodeUpper : N -> jsstring.
(** [import.meta.env.VITE_OPENWEATHER_API_KEY] *)
Variable apiKey : option jsstring.
(** The provider, by the latitude and the longitude as the request URL
    carries them. *)
Variable openWeather : jsstring -> jsstring -> CurrentFetch.

(** The [try] block of [fetchCurrentWeather]. *)
Definition fetchCurrentWeather_body (lat lon : number) : Result WeatherData.t :=
  _ <-! WeatherService.ensureApiKey apiKey;
  match openWeather (Number_toString lat) (Number_toString lon) with
  | FetchRejected e => Throw e
  | FetchNotOk status =>
      Throw (ErrorMsg (js "OpenWeather responded with " ++ Number_toString status))
  | FetchData data =>
      Weather.mapCurrentWeather unicodeUpper WeatherService.degreeMark data
  end.

(** [None] is [null]. *)
Definition fetchCurrentWeather (lat lon : number) : option WeatherData.t :=
  match fetchCurrentWeather_body lat lon with
  | Ok weather => Some weather
  | Throw _ => None              (* [console.error(...); return null] *)
  end.
End Service.

Section Handler.
Variable unicodeUpper : N -> jsstring.
(** [process.env.OPENWEATHER_API_KEY] *)
Variable openWeatherApiKey : option jsstring.

(** The [/api/weather/current] handler; [lat] and [lon] are the query
    parameters and [axios] the provider's answer. *)
Definition currentHandler (lat lon : option jsstring) (axios : AxiosOutcome) : Response :=
  if bool_decide (default [] lat = []) || bool_decide (default [] lon = []) then
    ErrorResponse 400 (js "lat and lon are required query parameters") None
  else
    let failed (details : JSON) :=
      ErrorResponse 500 (js "Unable to fetch current weather") (Some details) in
    match openWeatherApiKey with
    | None => failed (JStr (js "OPENWEATHER_API_KEY is not configured"))
    | Some key =>
        if bool_decide (key = []) then
          failed (JStr (js "OPENWEATHER_API_KEY is not configured"))
        else
          match axios with
          | AxiosError e (Some data) => failed data
          | AxiosError e None => failed (JStr (message e))
          | AxiosData data =>
              match Backend.mapCurrentWeather unicodeUpper data with
              | Ok weather => WeatherResponse weather
              | Throw e => failed (JStr (message e))
              end
          end
    end.
End Handler.
End CurrentWeather.

(* ===================================================================== *)
(** * The lesson list of the dashboard

    [upcomingLessons] and the [onReschedule] update of the lesson state
    ([upwind-portal/src/components/TrainingStatusCard.tsx]). *)
(* ===================================================================== *)

Module Lessons.
Import Heap.

(** [array.sort((a, b) => key(a) - key(b))] for integer keys.  The
    comparator is consistent, so the language fixes the result: the
    elements in ascending order of their keys, those with equal keys in
    the order they had (the sort is stable).  It is written here as the
    insertion, from left to right, of each element behind the elements
    that are not greater. *)
Fixpoint insertByKey {A} (key : A -> Z) (x : A) (sorted : list A) : list A :=
  match sorted with
  | [] => [x]
  | y :: rest => if key x <? key y then x :: y :: rest else y :: insertByKey key x rest
  end.

Definition Array_sort {A} (key : A -> Z) (items : list A) : list A :=
  foldl (fun sorted x => insertByKey key x sorted) [] items.

(** [scheduledDate.getTime()] of a lesson. *)
Definition getTime (lesson : Dashboard.Lesson) : Z :=
  FlightBooking.scheduledDate (val lesson).

Section Data.
(** [bookings] of the mock data. *)
Variable bookings : list Dashboard.Lesson.

(** [bookings.filter(...).sort(...)]: a new array of the student's
    booking objects. *)
Definition upcomingLessons (studentId : jsstring) : M Dashboard.LessonArray :=
  a <-~ fresh;
  ret (mkObj a
         (Array_sort getTime
            (List.filter
               (fun booking => bool_decide (FlightBooking.studentId (val booking) = studentId))
               bookings))).
End Data.

(** [{ ...item, status: 'rescheduled', scheduledDate: new Date(newDateTime) }],
    for a [newDateTime] that is read as a valid date, with time value
    [newDate]. *)
Definition rescheduled (item : FlightBooking.t) (newDate : Z) : FlightBooking.t :=
  FlightBooking.mk (FlightBooking.id item) (FlightBooking.studentId item) newDate
    (FlightBooking.aircraft item) (FlightBooking.instructor item)
    (FlightBooking.departureLocation item) Rescheduled.

(** The callback of [prev.map(...)] in [onReschedule]; the flag tells
    whether the item was replaced. *)
Definition rescheduleItem (bookingId : jsstring) (newDate : Z) (item : Dashboard.Lesson)
    : M (Dashboard.Lesson * bool) :=
  if bool_decide (FlightBooking.id (val item) = bookingId) then
    o <-~ new (rescheduled (val item) newDate);
    ret (o, true)
  else ret (item, false).

(** The update of the lesson state made by [onReschedule]:
    [prev.map(...).sort(...)], a new array in every case. *)
Definition onReschedule (bookingId : jsstring) (newDate : Z) (prev : Dashboard.LessonArray)
    : M Dashboard.LessonArray :=
  a <-~ fresh;
  r <-~ Dashboard.mapLessons (rescheduleItem bookingId newDate) (val prev) false;
  ret (mkObj a (Array_sort getTime r.1)).

End Lessons.
(* ===================================================================== *)
(** * The vocabulary of the properties

    Notions of the design document that the properties are stated with;
    none of them is part of the program. *)
(* ===================================================================== *)

(** ** The sky summary *)




(** ** Calendar dates and representative entries *)

(** The distinct elements of a list, in the order of their first
    occurrence. *)
Fixpoint firstOccurrences {A} `{EqDecision A} (l : list A) : list A :=
  match l with
  | [] => []
  | x :: l' => x :: filter (fun y => y ≠ x) (firstOccurrences l')
  end.

(** A time lies in one of the years 100 to 9999: years that [Date.UTC]
    takes as they are and that the ISO text writes with four digits. *)
Definition ordinaryTime (t : Z) : Prop := 100 <= YearFromTime t <= 9999.

(** The time of a forecast entry, [new Date(entry.dt * 1000)], and its
    date key and UTC hour when that is a valid date. *)
Definition entryTime (entry : OpenWeather.Entry) : Date :=
  newDate (OpenWeather.dt entry * 1000)%float.
Definition validEntry (entry : OpenWeather.Entry) : Prop := is_Some (entryTime entry).
#[global] Instance validEntry_dec (entry : OpenWeather.Entry) : Decision (validEntry entry).
Proof. unfold validEntry. apply _. Defined.
Definition entryDate (entry : OpenWeather.Entry) : DateKey :=
  isoDate (default 0 (entryTime entry)).
Definition entryHour (entry : OpenWeather.Entry) : Z :=
  HourFromTime (default 0 (entryTime entry)).

(** The entries of one date key, in the order of the input. *)
Definition entriesOn (date : DateKey) (entries : list OpenWeather.Entry)
    : list OpenWeather.Entry :=
  filter (fun entry => entryDate entry = date) entries.

(** The groups of the aggregation: one per date key, the keys in the
    order of their first occurrence. *)
Definition groupsByDate (entries : list OpenWeather.Entry)
    : Map DateKey (list OpenWeather.Entry) :=
  (fun date => (date, entriesOn date entries)) <$> firstOccurrences (entryDate <$> entries).



(** An entry with a time in one of the years 0 to 9999, for which the
    date key is the text of the UTC calendar day. *)
Definition datedEntry (entry : OpenWeather.Entry) : Prop :=
  exists t, entryTime entry = Some t /\ 0 <= YearFromTime t <= 9999.
#[global] Instance datedEntry_dec (entry : OpenWeather.Entry) : Decision (datedEntry entry).
Proof.
  unfold datedEntry. destruct (entryTime entry) as [t|].
  - destruct (decide (0 <= YearFromTime t <= 9999)) as [H|H].
    + left. by exists t.
    + right. intros (t' & [= <-] & H'). done.
  - right. by intros (t' & [=] & _).
Defined.


(** The effect of one round of the grouping loop on the map. *)
Fixpoint pushGroup (date : DateKey) (entry : OpenWeather.Entry)
    (grouped : Map DateKey (list OpenWeather.Entry)) : Map DateKey (list OpenWeather.Entry) :=
  match grouped with
  | [] => [(date, [entry])]
  | (date', dayEntries) :: rest =>
      if decide (date' = date) then (date', dayEntries ++ [entry]) :: rest
      else (date', dayEntries) :: pushGroup date entry rest
  end.

(** An entry lies in the afternoon window when its UTC hour is one of 15
    to 21. *)
Definition inWindow (entry : OpenWeather.Entry) : Prop :=
  exists t, entryTime entry = Some t /\ 15 <= HourFromTime t <= 21.

(** The representative entry of a day: the first entry in the afternoon
    window, or, when there is none, the entry at the midpoint index,
    rounded down. *)
Inductive Representative (dayEntries : list OpenWeather.Entry) (entry : OpenWeather.Entry)
  : Prop :=
| representative_afternoon (before after : list OpenWeather.Entry) :
  dayEntries = before ++ entry :: after ->
  Forall (fun e => ¬ inWindow e) before ->
  inWindow entry ->
  Representative dayEntries entry
| representative_midpoint :
  Forall (fun e => ¬ inWindow e) dayEntries ->
  dayEntries !! (length dayEntries / 2)%nat = Some entry ->
  Representative dayEntries entry.

(** The reading of one group of the summarising loop. *)
Definition summaryOf (unicodeUpper : N -> jsstring) (degreeMark : jsstring)
    (dayEntries : list OpenWeather.Entry) : Result WeatherData.t :=
  match Weather.middayEntry dayEntries with
  | Some entry => Weather.mapForecastEntry unicodeUpper degreeMark entry
  | None => Throw (TypeError (js "Cannot read properties of undefined (reading 'weather')"))
  end.

Definition readingDate (reading : WeatherData.t) : option DateKey :=
  isoDate <$> WeatherData.timestamp reading.
Definition readingDay (reading : WeatherData.t) : option Z :=
  Day <$> WeatherData.timestamp reading.








(** ** The advisory request *)

(** The backend as the portal reaches it: up, with the advisory client
    configured, and the advisory provider answering [provider]. *)
Definition served (JSON_parse : jsstring -> option JSON) (provider : Backend.ProviderOutcome)
    : Backend.ReschedulePayload -> ClaudeService.BackendFetch :=
  fun payload =>
    ClaudeService.BackendResponds (Backend.rescheduleHandler JSON_parse true payload provider).

(** ** The minimums check *)

(** The longest prefix of code units of a class, and the text after it. *)
Fixpoint runOf (p : N -> bool) (s : jsstring) : jsstring :=
  match s with
  | c :: s' => if p c then c :: runOf p s' else []
  | [] => []
  end.

Fixpoint afterRun (p : N -> bool) (s : jsstring) : jsstring :=
  match s with
  | c :: s' => if p c then afterRun p s' else s
  | [] => []
  end.

(** The maximal runs of digits and dots of a text, from left to right,
    each with the text that follows it.  [inRun] tells that the text is
    preceded by a digit or a dot, so that it starts inside a run. *)
Fixpoint numericRuns (inRun : bool) (s : jsstring) : list (jsstring * jsstring) :=
  match s with
  | c :: s' =>
      if Dashboard.isNumeric c then
        if inRun then numericRuns true s'
        else (c :: runOf Dashboard.isNumeric s', afterRun Dashboard.isNumeric s')
               :: numericRuns true s'
      else numericRuns false s'
  | [] => []
  end.

(** A text starts with a word, letter case ignored. *)
Definition startsWithIgnoringCase (word s : jsstring) : bool :=
  bool_decide (upperAscii <$> take (length word) s = upperAscii <$> word).

(** A text mentions a word, letter case ignored. *)
Fixpoint mentions (word s : jsstring) : bool :=
  startsWithIgnoringCase word s
  || match s with
     | _ :: s' => mentions word s'
     | [] => false
     end.

(** The first run of digits and dots of a text, and the first one that is
    followed, after white space if any, by the marker [kts], letter case
    ignored. *)
Definition firstNumericRun (value : jsstring) : option jsstring :=
  fst <$> head (numericRuns false value).

Definition followedByKts (run : jsstring * jsstring) : bool :=
  startsWithIgnoringCase (js "kts") (afterRun isWhiteSpace run.2).

Definition runBeforeKts (value : jsstring) : option jsstring :=
  fst <$> find followedByKts (numericRuns false value).

(** A run of digits and dots reads as a number: it has a digit before a
    second dot. *)
Definition numeral (token : jsstring) : Prop := isNaN (parseFloat token) = false.

(** The number parsed from a token, when there is a token and it reads as
    a number. *)
Definition parsedNumber (token : option jsstring) : option number :=
  token ≫= fun t => if isNaN (parseFloat t) then None else Some (parseFloat t).

(** The visibility of a visibility summary: the number of its first run
    of digits and dots. *)
Definition visibilityOf (value : jsstring) : option number :=
  parsedNumber (firstNumericRun value).

(** The wind speed of a wind summary, in two wordings: 0 when the summary
    is ["Calm"], and 0 when the summary mentions [calm] in any letter
    case; otherwise the number of the run before a [kts] marker. *)
Definition windSpeedOfCalmSummary (value : jsstring) : option number :=
  if bool_decide (value = js "Calm") then Some 0%float
  else parsedNumber (runBeforeKts value).

Definition windSpeedOf (value : jsstring) : option number :=
  if mentions (js "calm") value then Some 0%float
  else parsedNumber (runBeforeKts value).

(** A reading passes the minimums of a training level, for a wording
    [windSpeed] of the wind speed: the visibility, when there is one, is
    at least the minimum; the wind speed, when there is one, is at most
    the maximum; the flight category is one of those allowed. *)
Definition passes (windSpeed : jsstring -> option number) (level : TrainingLevel)
    (weather : WeatherData.t) : Prop :=
  let rules := Dashboard.trainingMinimumRules level in
  (forall v, visibilityOf (WeatherData.visibility weather) = Some v ->
             ge v (Dashboard.minVisibility rules) = true)
  /\ (forall w, windSpeed (WeatherData.winds weather) = Some w ->
                le w (Dashboard.maxWind rules) = true)
  /\ WeatherData.conditions weather ∈ Dashboard.allowedConditions rules.

(** ** The conflict scan *)

(** No comma occurs in a text. *)
Definition noComma (s : jsstring) : Prop := Forall (fun c => c ≠ 44%N) s.

(** The readings have valid timestamps. *)
Definition validReadings (readings : list WeatherData.t) : Prop :=
  Forall (fun reading => is_Some (WeatherData.timestamp reading)) readings.

(** The daily forecast of a location, as the scan fetches it. *)
Definition forecastAt (unicodeUpper : N -> jsstring) (apiKey : option jsstring)
    (openWeather : jsstring -> jsstring -> WeatherService.ForecastFetch)
    (location : Location.t) : list WeatherData.t :=
  WeatherService.fetchWeatherForecast unicodeUpper apiKey openWeather
    (Location.lat location) (Location.lon location) 7.

(** The status the scan decides for a booking from the forecasts it holds:
    a rescheduled booking keeps its status; a booking outside the window of
    seven local calendar days from [today] is scheduled; a booking inside
    it is in conflict when the first reading of its location for its UTC
    date fails the student's minimums, and scheduled otherwise. *)
Definition firstMatch (dailyForecast : list WeatherData.t) (date : DateKey)
    : option WeatherData.t :=
  find (fun reading => bool_decide (readingDate reading = Some date)) dailyForecast.

Definition decidedStatus (LocalTZA : Z -> Z) (student : Student.t)
    (forecastMap : gmap jsstring (list WeatherData.t)) (today : Z)
    (booking : FlightBooking.t) : Status :=
  if bool_decide (FlightBooking.status booking = Rescheduled) then Rescheduled
  else
    let diffDays :=
      Dashboard.differenceInDays LocalTZA today (FlightBooking.scheduledDate booking) in
    if Dashboard.ltNumber diffDays 0 || Dashboard.geNumber diffDays 7 then Scheduled
    else
      let dailyForecast :=
        default [] (forecastMap !! Dashboard.LOCATION_KEY (FlightBooking.departureLocation booking)) in
      match firstMatch dailyForecast (isoDate (FlightBooking.scheduledDate booking)) with
      | Some forecast =>
          if Dashboard.meetsStudentMinimums student forecast then Scheduled else WeatherConflict
      | None => Scheduled
      end.

(** The status of the update made when no lesson is relevant. *)
Definition resetStatus (booking : FlightBooking.t) : Status :=
  if bool_decide (FlightBooking.status booking = Rescheduled) then Rescheduled else Scheduled.

(** The lessons an update returns when it sets the status [verdict] says:
    a lesson whose status stands is handed through, another one is
    replaced by a new object at the next free address. *)
Fixpoint assign (verdict : FlightBooking.t -> Status) (lessons : list Dashboard.Lesson)
    (next : positive) : list Dashboard.Lesson * positive :=
  match lessons with
  | [] => ([], next)
  | lesson :: rest =>
      if bool_decide (FlightBooking.status (Heap.val lesson) ≠ verdict (Heap.val lesson)) then
        let r := assign verdict rest (Pos.succ next) in
        (Heap.mkObj next (FlightBooking.withStatus (Heap.val lesson) (verdict (Heap.val lesson)))
           :: r.1, r.2)
      else
        let r := assign verdict rest next in
        (lesson :: r.1, r.2)
  end.

(** The callback of an update that sets the status [verdict] says. *)
Definition setStatusTo (verdict : FlightBooking.t -> Status) (lesson : Dashboard.Lesson)
    : Heap.M (Dashboard.Lesson * bool) :=
  Dashboard.setStatus lesson (verdict (Heap.val lesson)).

(** Whether some lesson has another status than [verdict] says. *)
Definition anyChange (verdict : FlightBooking.t -> Status) (lessons : list Dashboard.Lesson)
    : bool :=
  bool_decide (Exists (fun lesson =>
                         FlightBooking.status (Heap.val lesson) ≠ verdict (Heap.val lesson))
                      lessons).

(** The forecasts a scan started at [now] for the lessons [lessons] holds. *)
Definition scanForecasts (LocalTZA : Z -> Z) (unicodeUpper : N -> jsstring)
    (apiKey : option jsstring)
    (openWeather : jsstring -> jsstring -> WeatherService.ForecastFetch)
    (now : Z) (lessons : list Dashboard.Lesson) : gmap jsstring (list WeatherData.t) :=
  Dashboard.forecastMapOf unicodeUpper apiKey openWeather
    (Dashboard.uniqueLocations (Dashboard.relevantLessons LocalTZA now lessons)).

(** The status a scan gives a booking: the status of the reset when no
    lesson is relevant, the status decided from the forecasts otherwise. *)
Definition scanVerdict (LocalTZA : Z -> Z) (unicodeUpper : N -> jsstring)
    (apiKey : option jsstring)
    (openWeather : jsstring -> jsstring -> WeatherService.ForecastFetch)
    (student : Student.t) (now today : Z) (lessons : list Dashboard.Lesson)
    : FlightBooking.t -> Status :=
  if bool_decide (Dashboard.relevantLessons LocalTZA now lessons = []) then resetStatus
  else decidedStatus LocalTZA student
         (scanForecasts LocalTZA unicodeUpper apiKey openWeather now lessons) today.

(** The lesson state and the next free address after an update that sets
    the status [verdict] says. *)
Definition updated (verdict : FlightBooking.t -> Status) (prev : Dashboard.LessonArray)
    (next : positive) : Dashboard.LessonArray * positive :=
  (if anyChange verdict (Heap.val prev)
   then Heap.mkObj next (assign verdict (Heap.val prev) (Pos.succ next)).1
   else prev,
   (assign verdict (Heap.val prev) (Pos.succ next)).2).

(** The forecast request for a location fails: the [try] block of
    [fetchWeatherForecast] throws (no key, a rejected request, a response
    that is not ok, or a record the normaliser throws on). *)
Definition fetchFails (unicodeUpper : N -> jsstring) (apiKey : option jsstring)
    (openWeather : jsstring -> jsstring -> WeatherService.ForecastFetch)
    (location : Location.t) : Prop :=
  match WeatherService.fetchWeatherForecast_body unicodeUpper apiKey openWeather
          (Location.lat location) (Location.lon location) 7 with
  | Throw _ => True
  | Ok _ => False
  end.

(** Two providers answer every request alike but the one for [location]. *)
Definition agreeAwayFrom (location : Location.t)
    (openWeather openWeather' : jsstring -> jsstring -> WeatherService.ForecastFetch) : Prop :=
  forall lat lon : jsstring,
    (lat, lon) ≠ (Number_toString (Location.lat location),
                  Number_toString (Location.lon location)) ->
    openWeather lat lon = openWeather' lat lon.

(** A time of the years 100 to 9999, in UTC and in the local zone. *)
Definition ordinaryDate (LocalTZA : Z -> Z) (t : Z) : Prop :=
  ordinaryTime t /\ ordinaryTime (t + LocalTZA t).
#[global] Instance ordinaryDate_dec (LocalTZA : Z -> Z) (t : Z) :
  Decision (ordinaryDate LocalTZA t).
Proof. unfold ordinaryDate, ordinaryTime. apply _. Defined.

(** The local calendar day of a time, as the number of the day. *)
Definition localDay (LocalTZA : Z -> Z) (t : Z) : Z := Day (t + LocalTZA t).

(** A booking lies in the scan's window at [time]: its local calendar day
    is the day of [time] or one of the six that follow. *)
Definition inScanWindow (LocalTZA : Z -> Z) (time : Z) (booking : FlightBooking.t) : Prop :=
  0 <= localDay LocalTZA (FlightBooking.scheduledDate booking) - localDay LocalTZA time < 7.

(** A scan started at [now] for the lessons [lessons] asks the forecast
    of a location: one of the lessons is not rescheduled, lies in the
    window at [now] and departs from the location (a location being told
    by its latitude and longitude, as [LOCATION_KEY] writes them). *)
Definition scanned (LocalTZA : Z -> Z) (now : Z) (lessons : list Dashboard.Lesson)
    (location : Location.t) : Prop :=
  Exists (fun lesson =>
            FlightBooking.status (Heap.val lesson) ≠ Rescheduled
            /\ inScanWindow LocalTZA now (Heap.val lesson)
            /\ Dashboard.LOCATION_KEY (FlightBooking.departureLocation (Heap.val lesson))
                = Dashboard.LOCATION_KEY location)
         lessons.

(** A reading of the daily forecast is for the UTC calendar day of the
    booking and fails the student's minimums. *)
Definition failingMatch (student : Student.t) (booking : FlightBooking.t)
    (reading : WeatherData.t) : Prop :=
  readingDay reading = Some (Day (FlightBooking.scheduledDate booking))
  /\ Dashboard.meetsStudentMinimums student reading = false.

(** The scheduled dates of lessons. *)
Definition scheduledDates (lessons : list Dashboard.Lesson) : list Z :=
  (fun lesson => FlightBooking.scheduledDate (Heap.val lesson)) <$> lessons.

(** ** Ratings *)

(** The rank of a training level: student pilot, private pilot,
    instrument-rated. *)
Definition rating (level : TrainingLevel) : nat :=
  match level with
  | StudentPilot => 0
  | PrivatePilot => 1
  | InstrumentRated => 2
  end.

(** ** The text of numbers *)

(** The code units of the texts of numbers: the digits and those of
    ["."], ["-"], ["e+"], ["NaN"] and ["Infinity"]. *)
Definition numberChar (c : N) : Prop := c ∈ js "0123456789.-+eNaInfity".

(** A code unit that ends a run of digits and dots and a run of white
    space. *)
Definition stopsRuns (c : N) : Prop :=
  Dashboard.isNumeric c = false /\ isWhiteSpace c = false.

(** No letter [k] in either case. *)
Definition notK (c : N) : Prop := upperAscii c ≠ 75%N.

#[global] Instance spec_float_eq_dec : EqDecision SpecFloat.spec_float.
Proof. solve_decision. Defined.

(** The whole numbers the round trips are computed for. *)
Definition roundTrips (n : Z) : bool :=
  bool_decide (Number_toString (ofZ n) = decimalDigits n)
  && bool_decide (Prim2SF (parseFloat (decimalDigits n)) = Prim2SF (ofZ n))
  && forallb isDigit (decimalDigits n)
  && negb (bool_decide (decimalDigits n = [])).

(** The number of tenths nearest to a finite number that is not negative,
    a tie going up. *)
Definition nearestTenths (x : number) : option Z :=
  match Prim2SF x with
  | S754_zero _ => Some 0
  | S754_finite false m e =>
      Some (if 0 <=? e then Zpos m * 2 ^ e * 10
            else (2 * Zpos m * 10 + 2 ^ (- e)) / (2 * 2 ^ (- e)))
  | _ => None
  end.

(** ** Fenced blocks *)

(** The fence of a code block: three backticks. *)
Definition fence : jsstring := js "```".

(** The text before the first fence of a text; [None] without a fence. *)
Fixpoint untilFence (s : jsstring) : option jsstring :=
  if startsWithIgnoringCase fence s then Some []
  else match s with
       | c :: s' => cons c <$> untilFence s'
       | [] => None
       end.

(** ** The lesson list *)

(** A list of lessons is in ascending order of the scheduled dates. *)
Definition byDate (lessons : list Dashboard.Lesson) : Prop :=
  StronglySorted (fun a b => Lessons.getTime a <= Lessons.getTime b) lessons.

(** The lessons of a list that are scheduled at a time, in their order. *)
Definition lessonsAt (t : Z) (lessons : list Dashboard.Lesson) : list Dashboard.Lesson :=
  filter (fun lesson => Lessons.getTime lesson = t) lessons.

(** The change a scan makes to one lesson: none, or a new object (at an
    address from [next] on) with another status, neither status being
    Rescheduled. *)
Definition statusChange (next : positive) (lesson lesson' : Dashboard.Lesson) : Prop :=
  lesson' = lesson
  \/ exists status,
       Heap.val lesson' = FlightBooking.withStatus (Heap.val lesson) status
       /\ status ≠ FlightBooking.status (Heap.val lesson)
       /\ status ≠ Rescheduled
       /\ FlightBooking.status (Heap.val lesson) ≠ Rescheduled
       /\ (next < Heap.addr lesson')%positive.

(* ===================================================================== *)
(** * Sample data *)
(* ===================================================================== *)

Module Samples.

(** A case table that leaves the code units above 127 as they are; the
    samples are ASCII text and never consult it. *)
Definition noUnicodeUpper (c : N) : jsstring := [c].

(** Flying Cloud Airport, the dashboard's default coordinates. *)
Definition flyingCloud : Location.t :=
  Location.mk 44.827 (-93.457) (js "Flying Cloud Airport (FCM)").

Definition student (level : TrainingLevel) : Student.t :=
  Student.mk (js "s1") (js "Alex Johnson") (js "alex@example.com") level 24 16
    (js "First solo") [js "crosswind landings"] 1 [js "weekday-mornings"] Morning
    (js "2x per week") (Some 1762300800000).

(** A lesson on 2025-11-09 at 15:00 UTC. *)
Definition booking (status : Status) : FlightBooking.t :=
  FlightBooking.mk (js "b1") (js "s1") 1762700400000 (js "C172 N12345") (js "Sam Lee")
    flyingCloud status.

Definition reading (winds visibility : string) (conditions : FlightCategory) : WeatherData.t :=
  WeatherData.mk 52 (js winds) (js visibility) (js "Clear") conditions (Some 1762700400000).

(** A provider record with a wind, a visibility and two conditions. *)
Definition rawRecord : OpenWeather.Entry :=
  OpenWeather.mkEntry 1762700400
    (Some (OpenWeather.mkMain (Some 52%float)))
    (Some (OpenWeather.mkWind (Some 272.4%float) (Some 10.0%float)))
    (Some 8046.7%float)
    (Some (OpenWeather.mkClouds (Some 40%float)))
    (Some [Some (OpenWeather.mkCondition (Some (js "broken clouds")));
           Some (OpenWeather.mkCondition (Some (js "light rain")))]).

Definition context : ClaudeService.RescheduleContext :=
  ClaudeService.mkContext (student PrivatePilot) (booking WeatherConflict)
    (js "Forecast shows IFR conditions, which violates private pilot minimums.")
    [reading "270° at 22 kts" "2.5 sm" IFR] 1762560000000.

(** A rendering of dates for the request text, and a JSON parser that
    knows the empty list only; they stand for the runtime's. *)
Definition isoText (t : Z) : jsstring := js "t" ++ decimalDigits t.
Definition parseEmptyList (text : jsstring) : option JSON :=
  if bool_decide (text = js "[]") then Some (JArr []) else None.

(** A week of forecast entries: seven days from 2025-11-09, eight entries
    a day, at 00:00, 03:00, ..., 21:00 UTC, with the wind at [speedMph]. *)
Definition forecastEntry (speedMph : number) (day slot : Z) : OpenWeather.Entry :=
  OpenWeather.mkEntry (ofZ (1762646400 + 86400 * day + 10800 * slot))
    (Some (OpenWeather.mkMain (Some 50%float)))
    (Some (OpenWeather.mkWind (Some 270%float) (Some speedMph)))
    (Some 16093%float)
    (Some (OpenWeather.mkClouds (Some 20%float)))
    (Some [Some (OpenWeather.mkCondition (Some (js "few clouds")))]).

(** An entry at [seconds] after the epoch, with no other member. *)
Definition entryAt (seconds : Z) : OpenWeather.Entry :=
  OpenWeather.mkEntry (ofZ seconds) None None None None None.

Definition weekAt (speedMph : number) : list OpenWeather.Entry :=
  day ← seqZ 0 7; slot ← seqZ 0 8; [forecastEntry speedMph day slot].

Definition windyWeek : list OpenWeather.Entry := weekAt 30.

(** The scan's surroundings: the UTC time zone, noon of 2025-11-09, a
    provider that answers every request with the windy week and one that
    cannot be reached. *)
Definition utc (t : Z) : Z := 0.
(** The zone six hours behind UTC (the airports' winter time). *)
Definition central (t : Z) : Z := -21600000.
Definition noon : Z := 1762689600000.
Definition windyProvider (lat lon : jsstring) : WeatherService.ForecastFetch :=
  WeatherService.FetchData (Some windyWeek).
Definition unreachableProvider (lat lon : jsstring) : WeatherService.ForecastFetch :=
  WeatherService.FetchRejected (TypeError (js "Failed to fetch")).

(** A provider that cannot be reached for [location] and answers as
    [provider] otherwise. *)
Definition downAt (location : Location.t)
    (provider : jsstring -> jsstring -> WeatherService.ForecastFetch)
    (lat lon : jsstring) : WeatherService.ForecastFetch :=
  if bool_decide ((lat, lon) = (Number_toString (Location.lat location),
                                Number_toString (Location.lon location)))
  then WeatherService.FetchRejected (TypeError (js "Failed to fetch"))
  else provider lat lon.

(** A lesson state of one lesson, on 2025-11-09 at 15:00 UTC. *)
Definition lessonState (status : Status) : Dashboard.LessonArray :=
  Heap.mkObj 1%positive [Heap.mkObj 2%positive (booking status)].

(** Crystal Airport, and a lesson state of two lessons that afternoon:
    one at Flying Cloud, in conflict, and one at Crystal, scheduled. *)
Definition crystal : Location.t :=
  Location.mk 45.062 (-93.354) (js "Crystal Airport (MIC)").

Definition twoLessons : Dashboard.LessonArray :=
  Heap.mkObj 1%positive
    [Heap.mkObj 2%positive (booking WeatherConflict);
     Heap.mkObj 3%positive
       (FlightBooking.mk (js "b2") (js "s1") 1762700400000 (js "C172 N12345") (js "Sam Lee")
          crystal Scheduled)].

(** A scan in the zone six hours behind UTC, at noon of 2025-11-09 there:
    a lesson at Flying Cloud on 2025-11-15 at 20:00 there, which is
    2025-11-16 at 02:00 UTC, and a provider that forecasts 10 kts of wind
    for 2025-11-15 and 26 kts for 2025-11-16 (both at 15:00 UTC). *)
Definition noonCentral : Z := 1762711200000.

Definition lateBooking (status : Status) : FlightBooking.t :=
  FlightBooking.mk (js "b3") (js "s1") 1763258400000 (js "C172 N12345") (js "Sam Lee")
    flyingCloud status.

Definition lateLessonState (status : Status) : Dashboard.LessonArray :=
  Heap.mkObj 1%positive [Heap.mkObj 2%positive (lateBooking status)].

Definition twoDayProvider (lat lon : jsstring) : WeatherService.ForecastFetch :=
  WeatherService.FetchData (Some [forecastEntry 12 6 5; forecastEntry 30 7 5]).

End Samples.

(* ===================================================================== *)
(** * The calendar and the ISO text of dates *)
(* ===================================================================== *)

Section CalendarFacts.
Implicit Types (t d y : Z).

Lemma DayFromYear_succ y : DayFromYear (y + 1) = DayFromYear y + DaysInYear y.
Proof.
  unfold DayFromYear, DaysInYear.
  repeat match goal with |- context [?a =? ?b] => destruct (Z.eqb_spec a b) end; cbn [negb];
    Z.div_mod_to_equations; lia.
Qed.

Lemma DayFromYear_monotone y1 y2 : y1 <= y2 -> DayFromYear y1 <= DayFromYear y2.
Proof. unfold DayFromYear. intros H. Z.div_mod_to_equations. lia. Qed.

(** The year of a day number is the largest year that starts on or before
    that day. *)
Lemma YearFromDay_spec d :
  DayFromYear (YearFromDay d) <= d < DayFromYear (YearFromDay d + 1).
Proof.
  unfold YearFromDay. set (y := 1970 + 400 * d / 146097).
  destruct (Z.ltb_spec d (DayFromYear y)) as [H1|H1].
  - replace (y - 1 + 1) with y by lia. split; [|done].
    unfold DayFromYear in *. subst y. Z.div_mod_to_equations. lia.
  - destruct (Z.leb_spec (DayFromYear (y + 1)) d) as [H2|H2]; [|lia].
    split; [done|]. unfold DayFromYear in *. subst y. Z.div_mod_to_equations. lia.
Qed.

Lemma YearFromDay_unique d y : DayFromYear y <= d < DayFromYear (y + 1) -> YearFromDay d = y.
Proof.
  intros Hy. pose proof (YearFromDay_spec d) as Hd.
  destruct (Z.lt_trichotomy (YearFromDay d) y) as [Hlt | [Heq | Hgt]]; [|done|].
  - pose proof (DayFromYear_monotone (YearFromDay d + 1) y). lia.
  - pose proof (DayFromYear_monotone (y + 1) (YearFromDay d)). lia.
Qed.

Lemma DaysInYear_cases y : DaysInYear y = 365 \/ DaysInYear y = 366.
Proof.
  unfold DaysInYear.
  repeat match goal with |- context [?a =? ?b] => destruct (Z.eqb_spec a b) end; cbn [negb];
    auto.
Qed.

Lemma DayWithinYear_range t : 0 <= DayWithinYear t < DaysInYear (YearFromTime t).
Proof.
  unfold DayWithinYear, YearFromTime. pose proof (YearFromDay_spec (Day t)) as H.
  rewrite DayFromYear_succ in H. lia.
Qed.

Lemma MonthFromTime_range t : 0 <= MonthFromTime t <= 11.
Proof.
  unfold MonthFromTime.
  repeat match goal with |- context [?a <? ?b] => destruct (Z.ltb_spec a b) end; lia.
Qed.

Lemma DateFromTime_range t : 1 <= DateFromTime t <= 31.
Proof.
  pose proof (DayWithinYear_range t) as Hd. unfold DateFromTime, MonthFromTime, InLeapYear in *.
  destruct (DaysInYear_cases (YearFromTime t)) as [Hy|Hy]; rewrite Hy in *; cbn in *;
    repeat match goal with |- context [?a <? ?b] => destruct (Z.ltb_spec a b) end; lia.
Qed.

(** A day is the day [MakeDay] makes of its year, month and day of the
    month. *)
Lemma MakeDay_of_time t : MakeDay (YearFromTime t) (MonthFromTime t) (DateFromTime t) = Day t.
Proof.
  pose proof (MonthFromTime_range t) as Hm. unfold MakeDay.
  rewrite Z.div_small, Z.mod_small, Z.add_0_r by lia.
  fold (InLeapYear t). unfold DateFromTime.
  assert (DayWithinYear t = Day t - DayFromYear (YearFromTime t)) as Hd by done.
  clear Hm. unfold MonthFromTime.
  repeat match goal with |- context [?a <? ?b] => destruct (Z.ltb_spec a b) end;
    cbn [monthStart]; lia.
Qed.

(** Year, month and day of the month are told from the day number. *)
Lemma calendar_same_day t1 t2 :
  Day t1 = Day t2 ->
  YearFromTime t1 = YearFromTime t2 /\ MonthFromTime t1 = MonthFromTime t2
  /\ DateFromTime t1 = DateFromTime t2.
Proof.
  intros H. unfold DateFromTime, MonthFromTime, InLeapYear, DayWithinYear, YearFromTime.
  by rewrite H.
Qed.

Lemma same_calendar_day t1 t2 :
  YearFromTime t1 = YearFromTime t2 -> MonthFromTime t1 = MonthFromTime t2 ->
  DateFromTime t1 = DateFromTime t2 -> Day t1 = Day t2.
Proof. intros Hy Hm Hd. rewrite <- (MakeDay_of_time t1), <- (MakeDay_of_time t2). congruence. Qed.

(** The days of the years 100 to 9999 are within the range of the time
    values. *)
Lemma ordinaryTime_Day t : ordinaryTime t -> Z.abs (Day t * msPerDay) <= 8640000000000000.
Proof.
  unfold ordinaryTime, YearFromTime. intros [Hlo Hhi].
  pose proof (YearFromDay_spec (Day t)) as [H1 H2].
  pose proof (DayFromYear_monotone 100 _ Hlo) as H3.
  pose proof (DayFromYear_monotone (YearFromDay (Day t) + 1) 10000 ltac:(lia)) as H4.
  change (DayFromYear 100) with (-683003) in H3.
  change (DayFromYear 10000) with 2932897 in H4.
  unfold msPerDay. lia.
Qed.

(** [Date.UTC] of the year, month and day of the month of a time of an
    ordinary year is the midnight that day starts with. *)
Lemma Date_UTC_of_time t :
  ordinaryTime t ->
  Date_UTC (YearFromTime t) (MonthFromTime t) (DateFromTime t) = Some (Day t * msPerDay).
Proof.
  intros Ht. pose proof (ordinaryTime_Day t Ht) as Hclip. destruct Ht as [Hlo Hhi].
  unfold Date_UTC, TimeClip.
  destruct (Z.leb_spec 0 (YearFromTime t)); destruct (Z.leb_spec (YearFromTime t) 99);
    cbn [andb]; try lia; rewrite MakeDay_of_time;
    by destruct (Z.leb_spec (Z.abs (Day t * msPerDay)) 8640000000000000); [|lia].
Qed.

End CalendarFacts.

Section IsoTextFacts.
Implicit Types (t n : Z) (width : nat).

Lemma zeroPad_length width n : length (zeroPad width n) = width.
Proof.
  revert n. induction width as [|width IH]; intros n; cbn; [done|].
  rewrite length_app, IH. cbn. lia.
Qed.

Lemma zeroPad_inj width n1 n2 :
  0 <= n1 < 10 ^ Z.of_nat width -> 0 <= n2 < 10 ^ Z.of_nat width ->
  zeroPad width n1 = zeroPad width n2 -> n1 = n2.
Proof.
  revert n1 n2. induction width as [|width IH]; intros n1 n2 H1 H2 Heq.
  - change (10 ^ Z.of_nat 0) with 1 in *. lia.
  - rewrite Nat2Z.inj_succ, Z.pow_succ_r in H1, H2 by lia.
    cbn in Heq. apply app_inj_tail in Heq as [Hhigh Hlow].
    assert (n1 / 10 = n2 / 10) as Hdiv
      by (apply IH; [| |done]; Z.div_mod_to_equations; lia).
    assert (n1 mod 10 = n2 mod 10) as Hmod.
    { pose proof (Z.mod_pos_bound n1 10). pose proof (Z.mod_pos_bound n2 10).
      lia. }
    rewrite (Z.div_mod n1 10), (Z.div_mod n2 10) by lia. congruence.
Qed.

Lemma zeroPad_digit width n : Forall (fun c => (48 <= c <= 57)%N) (zeroPad width n).
Proof.
  revert n. induction width as [|width IH]; intros n; cbn; [constructor|].
  apply Forall_app. split; [apply IH|]. constructor; [|constructor].
  pose proof (Z.mod_pos_bound n 10). lia.
Qed.

(** The date key of a time of a year from 0 to 9999 is the text
    ["YYYY-MM-DD"]; that of another year is the sign, six digits of the
    year and the month. *)
Lemma isoDate_four_digits t :
  0 <= YearFromTime t <= 9999 ->
  isoDate t = zeroPad 4 (YearFromTime t) ++ [45%N] ++ zeroPad 2 (MonthFromTime t + 1)
                ++ [45%N] ++ zeroPad 2 (DateFromTime t).
Proof.
  intros [Hlo Hhi]. unfold isoDate, toISOString, yearText, slice0.
  destruct (Z.leb_spec 0 (YearFromTime t)); [|lia].
  destruct (Z.leb_spec (YearFromTime t) 9999); [|lia]. cbn [andb].
  change (js "-") with [45%N].
  set (date := zeroPad 4 (YearFromTime t) ++ [45%N] ++ zeroPad 2 (MonthFromTime t + 1)
                 ++ [45%N] ++ zeroPad 2 (DateFromTime t)).
  set (rest := js "T" ++ _).
  transitivity (take 10 (date ++ rest)).
  - reflexivity.
  - apply take_app_length'. subst date. rewrite !length_app, !zeroPad_length. done.
Qed.

Lemma isoDate_expanded_year t :
  ¬ 0 <= YearFromTime t <= 9999 ->
  isoDate t = (if YearFromTime t <? 0 then 45%N else 43%N)
                :: zeroPad 6 (Z.abs (YearFromTime t)) ++ [45%N]
                ++ zeroPad 2 (MonthFromTime t + 1).
Proof.
  intros Hy. unfold isoDate, toISOString, yearText, slice0.
  assert ((0 <=? YearFromTime t) && (YearFromTime t <=? 9999) = false) as ->.
  { apply andb_false_iff. rewrite Z.leb_gt, Z.leb_gt. lia. }
  change (js "-") with [45%N]. change (js "+") with [43%N].
  set (month := [if YearFromTime t <? 0 then 45%N else 43%N]
                  ++ zeroPad 6 (Z.abs (YearFromTime t)) ++ [45%N]
                  ++ zeroPad 2 (MonthFromTime t + 1)).
  set (rest := [45%N] ++ zeroPad 2 (DateFromTime t) ++ _).
  transitivity (take 10 (month ++ rest)).
  - subst month rest. by destruct (_ <? _).
  - apply take_app_length'. cbn [length]. rewrite !length_app, !zeroPad_length. done.
Qed.

(** Within the years 0 to 9999 the date key stands for the UTC calendar
    day: a time has the key of a time of such a year exactly when both lie
    on one day. *)
Lemma isoDate_same_day t1 t2 :
  0 <= YearFromTime t2 <= 9999 ->
  isoDate t1 = isoDate t2 <-> Day t1 = Day t2.
Proof.
  intros Hy2. split.
  - intros Hkey. rewrite (isoDate_four_digits t2 Hy2) in Hkey.
    destruct (decide (0 <= YearFromTime t1 <= 9999)) as [Hy1|Hy1].
    + rewrite (isoDate_four_digits t1 Hy1) in Hkey.
      apply app_inj_1 in Hkey as [Hyear Hkey]; [|by rewrite !zeroPad_length].
      apply app_inj_1 in Hkey as [_ Hkey]; [|done].
      apply app_inj_1 in Hkey as [Hmonth Hkey]; [|by rewrite !zeroPad_length].
      apply app_inj_1 in Hkey as [_ Hdate]; [|done].
      pose proof (MonthFromTime_range t1). pose proof (MonthFromTime_range t2).
      pose proof (DateFromTime_range t1). pose proof (DateFromTime_range t2).
      apply zeroPad_inj in Hyear; [|change (10 ^ Z.of_nat 4) with 10000; lia..].
      apply zeroPad_inj in Hmonth; [|change (10 ^ Z.of_nat 2) with 100; lia..].
      apply zeroPad_inj in Hdate; [|change (10 ^ Z.of_nat 2) with 100; lia..].
      apply same_calendar_day; [done|lia|done].
    + exfalso. rewrite (isoDate_expanded_year t1 Hy1) in Hkey.
      pose proof (zeroPad_digit 4 (YearFromTime t2)) as Hdigits.
      change 4%nat with (S 3) in Hkey, Hdigits. cbn [zeroPad] in Hkey, Hdigits.
      destruct (zeroPad 3 (YearFromTime t2 / 10)) as [|c cs] eqn:Hpad.
      { apply (f_equal length) in Hpad. by rewrite zeroPad_length in Hpad. }
      apply Forall_app in Hdigits as [Hc _]. apply Forall_cons in Hc as [Hc _].
      cbn in Hkey. injection Hkey as Hsign _. destruct (_ <? _); lia.
  - intros Hday. destruct (calendar_same_day t1 t2 Hday) as (Hy & Hm & Hd).
    assert (0 <= YearFromTime t1 <= 9999) as Hy1 by lia.
    by rewrite (isoDate_four_digits t1 Hy1), (isoDate_four_digits t2 Hy2), Hy, Hm, Hd.
Qed.

End IsoTextFacts.

(** Beyond the year 9999 the date key ends with the month: the first and
    the second of January 10000 have one key. *)
Lemma isoDate_expanded_years :
  isoDate 253402300800000 = js "+010000-01"
  /\ isoDate 253402387200000 = js "+010000-01"
  /\ Day 253402387200000 = Day 253402300800000 + 1.
Proof. split_and!; by vm_compute. Qed.
(* ===================================================================== *)
(** * Properties *)
(* ===================================================================== *)

(** ** Order facts on numbers *)

Module NumberFacts.

(** One comparison of an arbitrary number with a constant decides
    another: both are read off the sign, exponent and mantissa. *)
Ltac order_contradiction :=
  exfalso;
  first
    [ match goal with
      | H1 : ?a = ?b, H2 : Pos.lt ?b ?a |- _ => rewrite H1 in H2; exact (Pos.lt_irrefl _ H2)
      | H1 : ?a = ?b, H2 : Pos.lt ?a ?b |- _ => rewrite H1 in H2; exact (Pos.lt_irrefl _ H2)
      | H1 : Pos.lt ?a ?b, H2 : Pos.lt ?b ?a |- _ =>
          exact (Pos.lt_irrefl _ (Pos.lt_trans _ _ _ H1 H2))
      end
    | repeat match goal with
             | H : @eq positive _ _ |- _ => clear H
             | H : Pos.lt _ _ |- _ => clear H
             end;
      lia ].

Ltac by_representation x :=
  unfold ge, gt, le, lt;
  rewrite ?FloatAxioms.leb_spec, ?FloatAxioms.ltb_spec;
  repeat match goal with
         | |- context [Prim2SF ?c] =>
             lazymatch c with
             | x => fail
             | _ => let v := eval vm_compute in (Prim2SF c) in change (Prim2SF c) with v
             end
         end;
  destruct (Prim2SF x) as [[]|[]| |[] m e];
  try (intros; discriminate); try reflexivity;
  unfold SpecFloat.SFleb, SpecFloat.SFltb, SpecFloat.SFcompare;
  rewrite ?Pos.compare_cont_spec;
  repeat match goal with
         | |- context [(?a ?= ?b)%Z] => destruct (Z.compare_spec a b)
         end;
  repeat match goal with
         | |- context [Pos.compare ?a ?b] => destruct (Pos.compare_spec a b)
         end;
  cbv beta iota delta [Pos.switch_Eq]; intros;
  try discriminate; try reflexivity; order_contradiction.

Lemma ge_5_not_lt_3 (x : number) : ge x 5 = true -> lt x 3 = false.
Proof. by_representation x. Qed.

Lemma ge_5_not_lt_5 (x : number) : ge x 5 = true -> lt x 5 = false.
Proof. by_representation x. Qed.

Lemma lt_85_not_ge_85 (x : number) : lt x 85 = true -> ge x 85 = false.
Proof. by_representation x. Qed.

End NumberFacts.

(** ** The minimums table *)

(** C10: the flight categories a training level may fly in grow with the
    rating: those of the student pilot are among those of the private
    pilot, which are among those of the instrument-rated pilot. *)
Theorem allowedConditions_inclusion_chain :
  Dashboard.allowedConditions (Dashboard.trainingMinimumRules StudentPilot)
    ⊆ Dashboard.allowedConditions (Dashboard.trainingMinimumRules PrivatePilot)
  /\ Dashboard.allowedConditions (Dashboard.trainingMinimumRules PrivatePilot)
    ⊆ Dashboard.allowedConditions (Dashboard.trainingMinimumRules InstrumentRated).
Proof.
  split; intros c; cbn; rewrite !elem_of_cons; tauto.
Qed.

(** ** The flight-category classifier *)

(** C2: [determineFlightCategory] answers VFR whatever the cloud coverage
    when the visibility is unknown; otherwise, with the visibility in
    statute miles (metres divided by 1609.34) and the coverage defaulting
    to 0, it answers IFR when the visibility is below 3 or the coverage at
    least 85, else MVFR when the visibility is below 5 or the coverage at
    least 60, else VFR.  On the boundaries: exactly 3 miles with coverage
    below 85 is MVFR, and exactly 60 percent with visibility at least 5 is
    MVFR. *)
Theorem determineFlightCategory_rules
    (visibilityMeters : number) (cloudCoveragePercent : option number) :
  let visibilitySm := (visibilityMeters / 1609.34)%float in
  let coverage := default 0%float cloudCoveragePercent in
  let category := Weather.determineFlightCategory (Some visibilityMeters) cloudCoveragePercent in
  Weather.determineFlightCategory None cloudCoveragePercent = VFR
  /\ (lt visibilitySm 3 = true \/ ge coverage 85 = true -> category = IFR)
  /\ (lt visibilitySm 3 = false -> ge coverage 85 = false ->
      lt visibilitySm 5 = true \/ ge coverage 60 = true -> category = MVFR)
  /\ (lt visibilitySm 3 = false -> ge coverage 85 = false ->
      lt visibilitySm 5 = false -> ge coverage 60 = false -> category = VFR)
  /\ (visibilitySm = 3%float -> lt coverage 85 = true -> category = MVFR)
  /\ (coverage = 60%float -> ge visibilitySm 5 = true -> category = MVFR).
Proof.
  intros visibilitySm coverage category.
  subst category. unfold Weather.determineFlightCategory.
  fold visibilitySm. fold coverage.
  repeat split.
  - intros [-> | ->]; [reflexivity | by rewrite orb_true_r].
  - intros -> -> [-> | ->]; [reflexivity | by rewrite orb_true_r].
  - by intros -> -> -> ->.
  - intros -> Hc. by rewrite (NumberFacts.lt_85_not_ge_85 _ Hc).
  - intros -> Hv.
    by rewrite (NumberFacts.ge_5_not_lt_3 _ Hv), (NumberFacts.ge_5_not_lt_5 _ Hv).
Qed.

(** The hypotheses of the two boundary rules are met: 4828.0199999999995 m
    is exactly 3 miles, and 60 percent coverage at 10000 m. *)
Lemma determineFlightCategory_rules_witness :
  Weather.determineFlightCategory (Some 4828.0199999999995%float) (Some 84%float) = MVFR
  /\ Weather.determineFlightCategory (Some 10000%float) (Some 60%float) = MVFR.
Proof.
  split.
  - destruct (determineFlightCategory_rules 4828.0199999999995%float (Some 84%float))
      as (_ & _ & _ & _ & exactly3 & _).
    apply exactly3; reflexivity.
  - destruct (determineFlightCategory_rules 10000%float (Some 60%float))
      as (_ & _ & _ & _ & _ & exactly60).
    apply exactly60; reflexivity.
Defined.

(** ** The weather normaliser *)

(** C8 (the normaliser is not total): a record whose only condition has
    the empty description makes [mapCurrentWeather] throw a TypeError,
    whatever the case table; [""[0]] is [undefined]. *)
Theorem mapCurrentWeather_empty_description_throws (unicodeUpper : N -> jsstring) :
  Backend.mapCurrentWeather unicodeUpper
    (OpenWeather.mkEntry 1700000000 None None None None
       (Some [Some (OpenWeather.mkCondition (Some []))]))
  = Throw (TypeError (js "Cannot read properties of undefined (reading 'toUpperCase')")).
Proof. reflexivity. Qed.

Section NormaliserFacts.
Variable unicodeUpper : N -> jsstring.

Lemma mapM_capitalize_ok (descriptions : list jsstring) :
  [] ∉ descriptions ->
  mapM (Weather.capitalize unicodeUpper) descriptions
  = Ok ((fun d => Weather.toUpperCase1 unicodeUpper (default 0%N (head d)) ++ slice1 d)
          <$> descriptions).
Proof.
  induction descriptions as [|d ds IH]; intros Hne; [reflexivity|].
  apply not_elem_of_cons in Hne as [Hd Hds].
  cbn. destruct d as [|c d]; [done|]. cbn. by rewrite (IH Hds).
Qed.

Lemma mapM_capitalize_throws (descriptions : list jsstring) :
  [] ∈ descriptions ->
  exists e, mapM (Weather.capitalize unicodeUpper) descriptions = Throw e.
Proof.
  induction descriptions as [|d ds IH]; intros Hin; [by apply elem_of_nil in Hin|].
  destruct d as [|c d]; cbn; [by eexists|].
  apply elem_of_cons in Hin as [Hd | Hds]; [done|].
  destruct (IH Hds) as [e ->]. by eexists.
Qed.

(** [mapCurrentWeather] throws exactly on the records that carry an empty
    condition description. *)
Lemma mapCurrentWeather_throws_iff (degreeMark : jsstring) (payload : OpenWeather.Entry) :
  (exists e, Weather.mapCurrentWeather unicodeUpper degreeMark payload = Throw e)
  <-> [] ∈ Weather.descriptionList payload.
Proof.
  unfold Weather.mapCurrentWeather, Weather.buildSkySummary.
  destruct (decide ([] ∈ Weather.descriptionList payload)) as [Hin | Hnin].
  - split; [done|]. intros _.
    case_bool_decide as Hlen.
    + apply nil_length_inv in Hlen. rewrite Hlen in Hin. by apply elem_of_nil in Hin.
    + destruct (mapM_capitalize_throws _ Hin) as [e ->]. by eexists.
  - split; [|done]. intros [e He]. exfalso.
    case_bool_decide; [done|].
    by rewrite (mapM_capitalize_ok _ Hnin) in He.
Qed.

End NormaliserFacts.




(** ** The advisory request *)

Section AdvisoryFacts.
Variable JSON_parse : jsstring -> option JSON.
Variable toISOString : Z -> jsstring.

(** [generateRescheduleSuggestions] never rejects. *)
Lemma generateRescheduleSuggestions_fulfils
    (backend : Backend.ReschedulePayload -> ClaudeService.BackendFetch)
    (context : ClaudeService.RescheduleContext) :
  exists suggestions,
    ClaudeService.generateRescheduleSuggestions toISOString backend context = Ok suggestions.
Proof.
  unfold ClaudeService.generateRescheduleSuggestions.
  destruct (ClaudeService.generateRescheduleSuggestions_body _ _ _); by eexists.
Qed.

(** A response that is not [ok] becomes the empty list. *)
Lemma generateRescheduleSuggestions_not_ok
    (backend : Backend.ReschedulePayload -> ClaudeService.BackendFetch)
    (context : ClaudeService.RescheduleContext) (body : Backend.Body) (status : Z) :
  backend (ClaudeService.payloadOf toISOString context)
    = ClaudeService.BackendResponds (Backend.mkResponse status body) ->
  (200 <=? status) && (status <=? 299) = false ->
  ClaudeService.generateRescheduleSuggestions toISOString backend context = Ok [].
Proof.
  intros Hb Hs.
  unfold ClaudeService.generateRescheduleSuggestions,
    ClaudeService.generateRescheduleSuggestions_body.
  rewrite Hb. cbn [Backend.status]. by rewrite Hs.
Qed.

(** C6 (amended): when the advisory provider cannot be reached, or the
    text of its reply (the content of a fenced block when there is one,
    the trimmed reply otherwise) is not JSON, the backend's reschedule
    handler answers a complete request with status 500 and a descriptive
    error: the provider's message, or, for a reply that does not parse, a
    message that carries the first 200 characters at most of the reply.
    [generateRescheduleSuggestions] then logs the failure and returns the
    empty list; it never rejects. *)
Theorem advisory_failure_is_reported_by_backend_and_swallowed_by_client
    (context : ClaudeService.RescheduleContext) (provider : Backend.ProviderOutcome)
    (payload : Backend.ReschedulePayload) :
  is_Some (Backend.student payload) ->
  is_Some (Backend.weather payload) ->
  is_Some (Backend.conflict payload) ->
  (forall e,
     provider = Backend.ProviderThrows e ->
     Backend.rescheduleHandler JSON_parse true payload provider
     = Backend.mkResponse 500
         (Backend.ErrorBody (js "Unable to generate rescheduling options")
            (Some (JStr (message e)))))
  /\ (forall content block,
        provider = Backend.ProviderReplies content ->
        find (fun item => bool_decide (Backend.type item = Some (js "text"))) content
          = Some block ->
        JSON_parse (Backend.extractJson (Backend.text block)) = None ->
        exists excerpt,
          Backend.rescheduleHandler JSON_parse true payload provider
          = Backend.mkResponse 500
              (Backend.ErrorBody (js "Unable to generate rescheduling options")
                 (Some (JStr (js "Claude response was not valid JSON. Received: "
                                ++ excerpt ++ js "..."))))
          /\ (length excerpt <= 200)%nat
          /\ excerpt `prefix_of` Backend.text block)
  /\ ((exists e, provider = Backend.ProviderThrows e) \/
      (exists content block,
           provider = Backend.ProviderReplies content
           /\ find (fun item => bool_decide (Backend.type item = Some (js "text"))) content
              = Some block
           /\ JSON_parse (Backend.extractJson (Backend.text block)) = None) ->
        ClaudeService.generateRescheduleSuggestions toISOString (served JSON_parse provider) context
        = Ok []).
Proof.
  intros [s Hs] [w Hw] [c Hc].
  assert (Hhandler :
    Backend.rescheduleHandler JSON_parse true payload provider
    = match Backend.rescheduleBody JSON_parse provider with
      | Ok suggestions => Backend.mkResponse 200 (Backend.SuggestionsBody suggestions)
      | Throw e => Backend.mkResponse 500
                     (Backend.ErrorBody (js "Unable to generate rescheduling options")
                        (Some (JStr (message e))))
      end) by (unfold Backend.rescheduleHandler; by rewrite Hs, Hw, Hc).
  split_and!.
  - intros e ->. by rewrite Hhandler.
  - intros content block -> Hfind Hparse.
    exists (slice0 200 (Backend.text block)).
    rewrite Hhandler. unfold Backend.rescheduleBody. rewrite Hfind, Hparse.
    split_and!; [reflexivity | | apply prefix_take].
    unfold slice0. rewrite length_take. lia.
  - intros Hfail.
    assert (Hthrows : exists e', Backend.rescheduleBody JSON_parse provider = Throw e').
    { unfold Backend.rescheduleBody.
      destruct Hfail as [[e ->] | (content & block & -> & Hfind & Hparse)].
      - by eexists.
      - rewrite Hfind, Hparse. by eexists. }
    destruct Hthrows as [e' He'].
    unfold ClaudeService.generateRescheduleSuggestions,
      ClaudeService.generateRescheduleSuggestions_body, served.
    set (p := ClaudeService.payloadOf toISOString context).
    unfold Backend.rescheduleHandler. cbn [negb].
    destruct (Backend.student p), (Backend.weather p), (Backend.conflict p);
      try reflexivity.
    by rewrite He'.
Qed.

End AdvisoryFacts.

(** C6, as stated, fails: with the advisory provider unreachable, the
    promise of [generateRescheduleSuggestions] is fulfilled with the empty
    list; no error reaches the caller. *)
Lemma generateRescheduleSuggestions_returns_empty_list_on_failure :
  ClaudeService.generateRescheduleSuggestions Samples.isoText
    (served Samples.parseEmptyList (Backend.ProviderThrows (ErrorMsg (js "Connection error."))))
    Samples.context
  = Ok [].
Proof. reflexivity. Qed.

(** The hypotheses are met by the sample request and a reply that is not
    JSON. *)
Lemma advisory_failure_witness :
  ClaudeService.generateRescheduleSuggestions Samples.isoText
    (served Samples.parseEmptyList
       (Backend.ProviderReplies
          [Backend.mkBlock (Some (js "text")) (js "Sorry, I cannot help with that.")]))
    Samples.context
  = Ok [].
Proof.
  destruct (advisory_failure_is_reported_by_backend_and_swallowed_by_client
              Samples.parseEmptyList Samples.isoText Samples.context
              (Backend.ProviderReplies
                 [Backend.mkBlock (Some (js "text")) (js "Sorry, I cannot help with that.")])
              (ClaudeService.payloadOf Samples.isoText Samples.context))
    as (_ & _ & Hclient); [by eexists | by eexists | by eexists |].
  apply Hclient. right. do 2 eexists. split_and!; reflexivity.
Defined.
(** ** Insertion-ordered maps *)

Section MapFacts.
Context {K V : Type} `{EqDecision K}.
Implicit Types (m : Map K V) (k : K) (v : V).

Lemma Map_get_None k m : Map_get k m = None <-> k ∉ m.*1.
Proof.
  induction m as [|[k' v'] m IH]; cbn.
  - split; [intros _; apply not_elem_of_nil | done].
  - case_decide as Hk; subst.
    + split; [done|]. intros H. exfalso. apply H. left.
    + rewrite IH, not_elem_of_cons. naive_solver.
Qed.

Lemma Map_has_true k m : Map_has k m = true <-> k ∈ m.*1.
Proof.
  unfold Map_has. destruct (Map_get k m) eqn:E.
  - split; [|done]. intros _. destruct (decide (k ∈ m.*1)) as [|Hn]; [done|].
    apply Map_get_None in Hn. congruence.
  - split; [done|]. intros Hin. apply Map_get_None in E. done.
Qed.

Lemma Map_set_absent k v m : k ∉ m.*1 -> Map_set k v m = m ++ [(k, v)].
Proof.
  induction m as [|[k' v'] m IH]; cbn; [done|].
  intros [Hne Hnin]%not_elem_of_cons.
  case_decide; [congruence|]. by rewrite IH.
Qed.

Lemma Map_get_app_absent k v m : k ∉ m.*1 -> Map_get k (m ++ [(k, v)]) = Some v.
Proof.
  induction m as [|[k' v'] m IH]; cbn.
  - intros _. by case_decide.
  - intros [Hne Hnin]%not_elem_of_cons. case_decide; [congruence|]. by apply IH.
Qed.

End MapFacts.

(** ** Forecast aggregation *)

Section FirstOccurrences.
Context {A : Type} `{EqDecision A}.
Implicit Types (l : list A) (x : A).

Lemma elem_of_firstOccurrences x l : x ∈ firstOccurrences l <-> x ∈ l.
Proof.
  induction l as [|y l IH]; cbn; [done|].
  rewrite !elem_of_cons, list_elem_of_filter, IH.
  destruct (decide (x = y)); naive_solver.
Qed.

Lemma NoDup_firstOccurrences l : NoDup (firstOccurrences l).
Proof.
  induction l as [|y l IH]; cbn; [constructor|].
  constructor.
  - rewrite list_elem_of_filter. naive_solver.
  - by apply NoDup_filter.
Qed.

Lemma firstOccurrences_snoc l x :
  firstOccurrences (l ++ [x])
  = if decide (x ∈ l) then firstOccurrences l else firstOccurrences l ++ [x].
Proof.
  induction l as [|y l IH]; cbn.
  - rewrite decide_False by apply not_elem_of_nil. done.
  - rewrite IH. destruct (decide (x = y)) as [->|Hne].
    + rewrite (decide_True (P := y ∈ y :: l)) by left.
      case_decide; [done|].
      rewrite filter_app, filter_cons_False, filter_nil, app_nil_r by naive_solver. done.
    + case_decide as Hin.
      * rewrite decide_True by (by right). done.
      * rewrite decide_False by (rewrite elem_of_cons; naive_solver).
        rewrite filter_app, filter_cons_True, filter_nil by done. done.
Qed.

Lemma firstOccurrences_length_le l : (length (firstOccurrences l) <= length l)%nat.
Proof.
  induction l as [|y l IH]; cbn; [lia|].
  pose proof (length_filter (fun z => z ≠ y) (firstOccurrences l)). lia.
Qed.

End FirstOccurrences.

Section GroupingFacts.
Implicit Types (entry : OpenWeather.Entry) (entries : list OpenWeather.Entry).
Implicit Types (grouped : Map DateKey (list OpenWeather.Entry)).

Lemma groupStep_push (date : DateKey) entry grouped :
  (let grouped' := if Map_has date grouped then grouped else Map_set date [] grouped in
   match Map_get date grouped' with
   | Some dayEntries => Ok (Map_set date (dayEntries ++ [entry]) grouped')
   | None => Ok grouped'
   end) = Ok (pushGroup date entry grouped).
Proof.
  cbv zeta. unfold Map_has.
  induction grouped as [|[d es] g IH]; cbn [Map_get Map_set pushGroup].
  - rewrite decide_True by done. cbn [Map_set]. by rewrite decide_True.
  - destruct (decide (d = date)) as [->|Hne].
    + cbn [Map_get Map_set]. by rewrite !decide_True.
    + destruct (Map_get date g) as [es'|] eqn:Hget.
      * cbn [Map_get Map_set]. rewrite ?decide_False by done. rewrite Hget in *.
        cbn [Map_set]. rewrite ?decide_False by done. by injection IH as ->.
      * cbn [Map_get Map_set]. rewrite ?decide_False by done.
        destruct (Map_get date (Map_set date [] g)) as [es''|];
          cbn [Map_set]; rewrite ?decide_False by done; by injection IH as ->.
Qed.

Lemma groupStep_valid grouped entry :
  validEntry entry ->
  Weather.groupStep grouped entry = Ok (pushGroup (entryDate entry) entry grouped).
Proof.
  intros [t Ht]. unfold Weather.groupStep, entryDate. unfold entryTime in *.
  rewrite Ht. cbn [toISOString_slice10 JS.bind default]. apply groupStep_push.
Qed.

Lemma groupStep_invalid grouped entry :
  ¬ validEntry entry ->
  Weather.groupStep grouped entry = Throw (RangeError (js "Invalid time value")).
Proof.
  intros Hinv. unfold Weather.groupStep. unfold validEntry, entryTime in Hinv.
  destruct (newDate _); [|done]. exfalso. by apply Hinv.
Qed.

Lemma groupByDate_valid grouped entries :
  Forall validEntry entries ->
  Weather.groupByDate grouped entries
  = Ok (foldl (fun g entry => pushGroup (entryDate entry) entry g) grouped entries).
Proof.
  intros Hvalid. revert grouped.
  induction Hvalid as [|entry entries Hentry _ IH]; intros grouped; [done|].
  cbn. rewrite (groupStep_valid _ _ Hentry). cbn. apply IH.
Qed.

Lemma groupByDate_invalid grouped entries :
  ¬ Forall validEntry entries ->
  Weather.groupByDate grouped entries = Throw (RangeError (js "Invalid time value")).
Proof.
  revert grouped. induction entries as [|entry entries IH]; intros grouped Hinv.
  - exfalso. apply Hinv. constructor.
  - cbn. destruct (decide (validEntry entry)) as [Hv|Hnv].
    + rewrite (groupStep_valid _ _ Hv). cbn. apply IH.
      intros Hall. apply Hinv. by constructor.
    + by rewrite (groupStep_invalid _ _ Hnv).
Qed.

Lemma pushGroup_present (date : DateKey) entry (dates : list DateKey)
    (group : DateKey -> list OpenWeather.Entry) :
  NoDup dates -> date ∈ dates ->
  pushGroup date entry ((fun d => (d, group d)) <$> dates)
  = (fun d => (d, if decide (d = date) then group d ++ [entry] else group d)) <$> dates.
Proof.
  induction 1 as [|d ds Hd Hnd IH]; intros Hin; [by apply elem_of_nil in Hin|].
  cbn. destruct (decide (d = date)) as [->|Hne].
  - f_equal. apply list_fmap_ext. intros i d' Hd'.
    rewrite decide_False; [done|]. intros ->. apply Hd. eapply list_elem_of_lookup_2, Hd'.
  - f_equal. apply IH. apply elem_of_cons in Hin as [->|]; done.
Qed.

Lemma pushGroup_absent (date : DateKey) entry (dates : list DateKey)
    (group : DateKey -> list OpenWeather.Entry) :
  date ∉ dates ->
  pushGroup date entry ((fun d => (d, group d)) <$> dates)
  = ((fun d => (d, group d)) <$> dates) ++ [(date, [entry])].
Proof.
  induction dates as [|d ds IH]; intros Hnin; [done|].
  apply not_elem_of_cons in Hnin as [Hne Hnin]. cbn.
  rewrite decide_False by done. by rewrite IH.
Qed.

Lemma entriesOn_absent (date : DateKey) entries :
  date ∉ entryDate <$> entries -> entriesOn date entries = [].
Proof.
  intros Hnin. unfold entriesOn. induction entries as [|e es IH]; [done|].
  cbn in Hnin. apply not_elem_of_cons in Hnin as [Hne Hnin].
  rewrite filter_cons_False by done. by apply IH.
Qed.

Lemma foldl_pushGroup entries :
  foldl (fun g entry => pushGroup (entryDate entry) entry g) [] entries = groupsByDate entries.
Proof.
  induction entries as [|entry entries IH] using rev_ind; [done|].
  rewrite foldl_app. cbn [foldl]. rewrite IH. unfold groupsByDate.
  rewrite fmap_app. cbn [fmap list_fmap]. rewrite firstOccurrences_snoc.
  case_decide as Hin.
  - rewrite pushGroup_present;
      [|apply NoDup_firstOccurrences|by apply elem_of_firstOccurrences].
    apply list_fmap_ext. intros i d Hd. f_equal. unfold entriesOn.
    rewrite filter_app. case_decide as Hd'; subst.
    + by rewrite filter_cons_True, filter_nil.
    + rewrite filter_cons_False, filter_nil, app_nil_r by done. done.
  - rewrite pushGroup_absent by (by rewrite elem_of_firstOccurrences).
    rewrite fmap_app. cbn [fmap list_fmap]. f_equal.
    + apply list_fmap_ext. intros i d Hd. f_equal. unfold entriesOn.
      rewrite filter_app, filter_cons_False, filter_nil, app_nil_r; [done|].
      intros Heq. apply Hin. rewrite Heq.
      apply elem_of_firstOccurrences. eapply list_elem_of_lookup_2, Hd.
    + unfold entriesOn. rewrite filter_app, filter_cons_True, filter_nil by done.
      fold (entriesOn (entryDate entry) entries). by rewrite entriesOn_absent.
Qed.

(** The grouping loop: a RangeError when some entry has no valid date, the
    groups by date key otherwise. *)
Lemma groupByDate_spec entries :
  Weather.groupByDate [] entries
  = if decide (Forall validEntry entries) then Ok (groupsByDate entries)
    else Throw (RangeError (js "Invalid time value")).
Proof.
  case_decide.
  - by rewrite groupByDate_valid, foldl_pushGroup.
  - by apply groupByDate_invalid.
Qed.

End GroupingFacts.

Section SummaryFacts.
Variable unicodeUpper : N -> jsstring.
Variable degreeMark : jsstring.
Implicit Types (entry : OpenWeather.Entry) (entries dayEntries : list OpenWeather.Entry).

Lemma inAfternoonWindow_spec entry :
  Weather.inAfternoonWindow entry = true <-> inWindow entry.
Proof.
  unfold Weather.inAfternoonWindow, inWindow, entryTime, getUTCHours.
  destruct (newDate _) as [t|]; cbn.
  - rewrite andb_true_iff, !Z.leb_le. split.
    + intros H. by exists t.
    + intros (t' & [= <-] & H). done.
  - split; [done|]. by intros (t & ? & _).
Qed.

Lemma find_first {A} (p : A -> bool) (l : list A) :
  match find p l with
  | Some x => exists before after,
      l = before ++ x :: after /\ Forall (fun y => p y = false) before /\ p x = true
  | None => Forall (fun y => p y = false) l
  end.
Proof.
  induction l as [|a l IH]; cbn; [constructor|].
  destruct (p a) eqn:Hp.
  - exists [], l. by repeat split.
  - destruct (find p l) as [x|].
    + destruct IH as (before & after & -> & Hb & Hx).
      exists (a :: before), after. repeat split; [|done]. by constructor.
    + by constructor.
Qed.

Lemma find_app {A} (p : A -> bool) (l1 l2 : list A) :
  find p (l1 ++ l2) = match find p l1 with Some x => Some x | None => find p l2 end.
Proof. induction l1 as [|a l1 IH]; cbn; [done|]. by destruct (p a). Qed.

Lemma middayEntry_Representative dayEntries entry :
  Weather.middayEntry dayEntries = Some entry -> Representative dayEntries entry.
Proof.
  unfold Weather.middayEntry.
  pose proof (find_first Weather.inAfternoonWindow dayEntries) as Hfind.
  destruct (find Weather.inAfternoonWindow dayEntries) as [e|].
  - intros [= <-]. destruct Hfind as (before & after & -> & Hb & He).
    eapply representative_afternoon; [done| |by apply inAfternoonWindow_spec].
    eapply Forall_impl; [exact Hb|]. cbn. intros e' He' Hw.
    apply inAfternoonWindow_spec in Hw. congruence.
  - intros Hmid. apply representative_midpoint; [|done].
    eapply Forall_impl; [exact Hfind|]. cbn. intros e' He' Hw.
    apply inAfternoonWindow_spec in Hw. congruence.
Qed.

Lemma middayEntry_elem dayEntries entry :
  Weather.middayEntry dayEntries = Some entry -> entry ∈ dayEntries.
Proof.
  intros H. destruct (middayEntry_Representative _ _ H) as [before after -> _ _ | _ Hmid].
  - apply elem_of_app. right. left.
  - eapply list_elem_of_lookup_2, Hmid.
Qed.

Lemma middayEntry_is_Some dayEntries :
  dayEntries ≠ [] -> is_Some (Weather.middayEntry dayEntries).
Proof.
  intros Hne. unfold Weather.middayEntry.
  destruct (find _ _); [by eexists|].
  apply lookup_lt_is_Some. destruct dayEntries; [done|]. cbn [length].
  apply Nat.div_lt; lia.
Qed.

Lemma summarize_spec (maxDays : Z) (groups : list (list OpenWeather.Entry))
    (summaries : list WeatherData.t) :
  Z.of_nat (length summaries) < maxDays ->
  Weather.summarize unicodeUpper degreeMark maxDays groups summaries
  = (readings <-! mapM (summaryOf unicodeUpper degreeMark) (take (Z.to_nat maxDays - length summaries) groups);
     Ok (summaries ++ readings)).
Proof.
  revert summaries. induction groups as [|dayEntries groups IH]; intros summaries Hlt.
  - rewrite take_nil. cbn. by rewrite app_nil_r.
  - destruct (Z.to_nat maxDays - length summaries)%nat as [|n] eqn:Hn; [lia|].
    cbn [take mapM Weather.summarize]. unfold summaryOf at 1.
    destruct (Weather.middayEntry dayEntries) as [entry|]; [|done].
    destruct (Weather.mapForecastEntry _ _ entry) as [reading|e]; [|done].
    cbn [JS.bind]. rewrite length_app. cbn [length].
    destruct (Z.geb_spec (Z.of_nat (length summaries + 1)) maxDays) as [Hge|Hlt'].
    + assert (n = 0%nat) as -> by lia. rewrite take_0. done.
    + rewrite IH by (rewrite length_app; cbn; lia).
      rewrite length_app. cbn [length].
      replace (Z.to_nat maxDays - (length summaries + 1))%nat with n by lia.
      destruct (mapM (summaryOf unicodeUpper degreeMark) (take n groups)) as [rs|e]; [|done].
      cbn. by rewrite <- app_assoc.
Qed.

(** The aggregation on its inputs: a RangeError when an entry has no valid
    date; otherwise the readings of the first [maxDays] groups, or the
    first exception met while making them. *)
Lemma summarizeForecast_spec entries (maxDays : Z) :
  1 <= maxDays ->
  Weather.summarizeForecast unicodeUpper degreeMark entries maxDays
  = if decide (Forall validEntry entries)
    then mapM (summaryOf unicodeUpper degreeMark) (take (Z.to_nat maxDays) (groupsByDate entries).*2)
    else Throw (RangeError (js "Invalid time value")).
Proof.
  intros Hmax. unfold Weather.summarizeForecast. rewrite groupByDate_spec.
  case_decide; [|done]. cbn [JS.bind]. rewrite summarize_spec by (cbn; lia).
  cbn [length]. rewrite Nat.sub_0_r. unfold Map_values.
  by destruct (mapM _ _).
Qed.

End SummaryFacts.

Lemma mapM_Forall2 {A B} (f : A -> Result B) (l : list A) (rs : list B) :
  mapM f l = Ok rs <-> Forall2 (fun a b => f a = Ok b) l rs.
Proof.
  revert rs. induction l as [|a l IH]; intros rs; cbn.
  - split; [intros [= <-]; constructor | by inversion 1].
  - destruct (f a) as [b|e] eqn:Hf; cbn.
    + destruct (mapM f l) as [bs|e] eqn:Hm; cbn.
      * split.
        -- intros [= <-]. constructor; [done|]. by apply IH.
        -- inversion 1 as [|? b' ? bs' Hb Hbs]; subst.
           apply IH in Hbs. congruence.
      * split; [done|]. inversion 1 as [|? b' ? bs' Hb Hbs]; subst.
        apply IH in Hbs. done.
    + split; [done|]. inversion 1; subst. congruence.
Qed.





Section AggregatorFacts.
Variable unicodeUpper : N -> jsstring.
Variable degreeMark : jsstring.
Implicit Types (entry : OpenWeather.Entry) (entries dayEntries : list OpenWeather.Entry).

Lemma mapForecastEntry_timestamp entry reading :
  Weather.mapForecastEntry unicodeUpper degreeMark entry = Ok reading ->
  WeatherData.timestamp reading = entryTime entry.
Proof.
  unfold Weather.mapForecastEntry, Weather.mapCurrentWeather.
  destruct (Weather.buildSkySummary _ _); [|done]. by intros [= <-].
Qed.


Lemma entriesOn_nonempty (date : DateKey) entries :
  date ∈ firstOccurrences (entryDate <$> entries) -> entriesOn date entries ≠ [].
Proof.
  intros Hdate Hnil. rewrite elem_of_firstOccurrences in Hdate.
  apply list_elem_of_fmap in Hdate as (entry & -> & Hin).
  assert (entry ∈ entriesOn (entryDate entry) entries) as Hin'
    by (by apply list_elem_of_filter).
  rewrite Hnil in Hin'. by apply elem_of_nil in Hin'.
Qed.

(** What the summarising loop makes of one date. *)
Lemma summaryOf_date (date : DateKey) entries reading :
  summaryOf unicodeUpper degreeMark (entriesOn date entries) = Ok reading ->
  exists entry,
    Representative (entriesOn date entries) entry
    /\ Weather.mapForecastEntry unicodeUpper degreeMark entry = Ok reading
    /\ entry ∈ entries /\ entryDate entry = date.
Proof.
  unfold summaryOf.
  destruct (Weather.middayEntry _) as [entry|] eqn:Hmid; [|done].
  intros Hmap. exists entry.
  pose proof (middayEntry_elem _ _ Hmid) as [Hd Hin]%list_elem_of_filter.
  split_and!; [by apply middayEntry_Representative | done..].
Qed.

End AggregatorFacts.

Lemma mapM_fmap {A B C} (f : B -> Result C) (g : A -> B) (l : list A) :
  mapM f (g <$> l) = mapM (fun a => f (g a)) l.
Proof. induction l as [|a l IH]; cbn; [done|]. by rewrite IH. Qed.

Section AggregatorResults.
Variable unicodeUpper : N -> jsstring.
Variable degreeMark : jsstring.
Implicit Types (entries : list OpenWeather.Entry) (readings : list WeatherData.t).

(** The readings of a successful aggregation, date key by date key. *)
Lemma summarizeForecast_Ok entries (maxDays : Z) readings :
  1 <= maxDays ->
  Weather.summarizeForecast unicodeUpper degreeMark entries maxDays = Ok readings ->
  Forall validEntry entries
  /\ Forall2 (fun date reading =>
                exists entry,
                  Representative (entriesOn date entries) entry
                  /\ Weather.mapForecastEntry unicodeUpper degreeMark entry = Ok reading
                  /\ entry ∈ entries /\ entryDate entry = date)
             (take (Z.to_nat maxDays) (firstOccurrences (entryDate <$> entries))) readings.
Proof.
  intros Hmax. rewrite summarizeForecast_spec by done.
  case_decide as Hvalid; [|done]. intros Hreadings. split; [done|].
  unfold groupsByDate in Hreadings.
  rewrite <- list_fmap_compose, <- fmap_take, mapM_fmap in Hreadings.
  apply mapM_Forall2 in Hreadings.
  eapply Forall2_impl; [exact Hreadings|]. cbn. intros date reading Hsum.
  by apply summaryOf_date.
Qed.

(** Every reading of the aggregation carries the date key it was made
    for. *)
Lemma summarizeForecast_dates entries (maxDays : Z) readings :
  1 <= maxDays ->
  Weather.summarizeForecast unicodeUpper degreeMark entries maxDays = Ok readings ->
  readingDate <$> readings
  = Some <$> take (Z.to_nat maxDays) (firstOccurrences (entryDate <$> entries)).
Proof.
  intros Hmax Hok. destruct (summarizeForecast_Ok _ _ _ Hmax Hok) as [Hvalid Hall].
  apply list_eq_Forall2, Forall2_fmap, Forall2_flip.
  eapply Forall2_impl; [exact Hall|]. cbn.
  intros date reading (entry & _ & Hmap & Hin & <-).
  unfold readingDate. rewrite (mapForecastEntry_timestamp _ _ _ _ Hmap).
  rewrite Forall_forall in Hvalid. destruct (Hvalid entry Hin) as [t Ht].
  unfold entryDate. by rewrite Ht.
Qed.

End AggregatorResults.

(** ** The aggregation by calendar day *)


Section FirstBy.
Context {A B : Type} `{EqDecision B}.
Implicit Types (f : A -> B) (l : list A).




End FirstBy.


Section DayGroups.
Implicit Types (entry : OpenWeather.Entry) (entries : list OpenWeather.Entry).









End DayGroups.

Section Aggregation.
Variable unicodeUpper : N -> jsstring.
Implicit Types (entries : list OpenWeather.Entry) (readings : list WeatherData.t).





End Aggregation.


(** Left out of the amended claim: the date key of a year above 9999 ends
    with the month, so that the entries of two days of January 10000 make
    one group and one reading (of 2 January, 15:00, the first of them in
    the afternoon window). *)
Lemma fetchWeatherForecast_expanded_years :
  WeatherData.timestamp
    <$> WeatherService.fetchWeatherForecast Samples.noUnicodeUpper (Some (js "key"))
          (fun lat lon =>
             WeatherService.FetchData
               (Some [Samples.entryAt 253402300800; Samples.entryAt 253402441200]))
          44.827 (-93.457) 7
  = [Some 253402441200000].
Proof. by vm_compute. Qed.

(** ** The text of numbers and the location key *)

Section NumberText.

Lemma noComma_app (s1 s2 : jsstring) : noComma s1 -> noComma s2 -> noComma (s1 ++ s2).
Proof. intros H1 H2. apply Forall_app. done. Qed.

Lemma digitsAux_noComma (fuel : nat) (n : Z) (acc : jsstring) :
  noComma acc -> noComma (digitsAux fuel n acc).
Proof.
  revert n acc. induction fuel as [|fuel IH]; intros n acc Hacc; cbn; [done|].
  assert (noComma ((48 + Z.to_N (n mod 10))%N :: acc)) as Hacc'.
  { constructor; [|done]. pose proof (Z.mod_pos_bound n 10). lia. }
  destruct (n <? 10); [done|]. by apply IH.
Qed.

Lemma decimalDigits_noComma (n : Z) : noComma (decimalDigits n).
Proof. apply digitsAux_noComma. constructor. Qed.

Lemma zeros_noComma (n : Z) : noComma (zeros n).
Proof. apply Forall_replicate. done. Qed.

Lemma Number_toString_noComma (x : number) : noComma (Number_toString x).
Proof.
  unfold Number_toString.
  assert (Hlit : forall text : string,
            Forall (fun a => N_of_ascii a ≠ 44%N) (list_ascii_of_string text) ->
            noComma (js text)).
  { intros text H. unfold js, noComma. by rewrite Forall_fmap. }
  assert (noComma (js "NaN") /\ noComma (js "0") /\ noComma (js "-")
          /\ noComma (js "Infinity") /\ noComma (js ".") /\ noComma (js "0.")
          /\ noComma (js "e-") /\ noComma (js "e+"))
    as (? & ? & ? & ? & ? & ? & ? & ?)
    by (split_and!; apply Hlit; repeat constructor; done).
  assert (Hsign : forall b : bool, noComma (if b then js "-" else [])).
  { intros []; [done | constructor]. }
  destruct (Prim2SF x) as [s|s| |s m e]; [done | by apply noComma_app | done |].
  destruct (shortestDigits _ _ _ _ _) as [digits n].
  pose proof (decimalDigits_noComma digits) as Hd.
  assert (forall k, noComma (take k (decimalDigits digits))) by (intros; by apply Forall_take).
  assert (forall k, noComma (drop k (decimalDigits digits))) by (intros; by apply Forall_drop).
  cbv zeta. apply noComma_app; [done|].
  assert (forall ex : Z, noComma ((if ex <? 0 then js "e-" else js "e+")
                                    ++ decimalDigits (Z.abs ex))).
  { intros ex. apply noComma_app; [by destruct (ex <? 0) | apply decimalDigits_noComma]. }
  repeat match goal with
         | |- noComma (if ?b then _ else _) => destruct b
         | |- noComma (_ ++ _) => apply noComma_app
         end;
    first [done | apply zeros_noComma | apply decimalDigits_noComma | auto].
Qed.

Lemma app_comma_inj (a1 a2 b1 b2 : jsstring) :
  noComma a1 -> noComma a2 ->
  a1 ++ 44%N :: b1 = a2 ++ 44%N :: b2 -> a1 = a2 /\ b1 = b2.
Proof.
  revert a2. induction a1 as [|c a1 IH]; intros a2 H1 H2 Heq.
  - destruct a2 as [|c2 a2]; cbn in Heq; [by injection Heq|].
    injection Heq as <- _. by inversion H2.
  - apply Forall_cons in H1 as [Hc H1].
    destruct a2 as [|c2 a2]; cbn in Heq.
    + injection Heq as -> _. done.
    + injection Heq as -> Heq. apply Forall_cons in H2 as [_ H2].
      destruct (IH a2 H1 H2 Heq) as [-> ->]. done.
Qed.

(** Two locations with one key have the same latitude and longitude text. *)
Lemma LOCATION_KEY_inj (l1 l2 : Location.t) :
  Dashboard.LOCATION_KEY l1 = Dashboard.LOCATION_KEY l2 ->
  Number_toString (Location.lat l1) = Number_toString (Location.lat l2)
  /\ Number_toString (Location.lon l1) = Number_toString (Location.lon l2).
Proof.
  unfold Dashboard.LOCATION_KEY. change (js ",") with [44%N]. cbn [app].
  apply app_comma_inj; apply Number_toString_noComma.
Qed.

End NumberText.
(** ** The conflict scan *)

Section HeapFacts.
Import Heap.

Lemma bind_ret_l {A B} (a : A) (f : A -> M B) : Heap.bind (ret a) f = f a.
Proof. reflexivity. Qed.

Lemma bind_assoc {A B C} (m : M A) (f : A -> M B) (g : B -> M C) (next : positive) :
  Heap.bind (Heap.bind m f) g next = Heap.bind m (fun a => Heap.bind (f a) g) next.
Proof. unfold Heap.bind. by destruct (m next) as [[a n]|e]. Qed.

Lemma bind_lift_Ok {A B} (a : A) (f : A -> M B) : Heap.bind (lift (Ok a)) f = f a.
Proof. reflexivity. Qed.

End HeapFacts.

Section UpdaterFacts.
Import Heap.
Variable LocalTZA : Z -> Z.
Variable unicodeUpper : N -> jsstring.
Variable apiKey : option jsstring.
Variable openWeather : jsstring -> jsstring -> WeatherService.ForecastFetch.
Implicit Types (lesson : Dashboard.Lesson) (lessons : list Dashboard.Lesson).
Implicit Types (verdict : FlightBooking.t -> Status) (next : positive).


Lemma anyChange_cons verdict lesson lessons :
  anyChange verdict (lesson :: lessons)
  = bool_decide (FlightBooking.status (val lesson) ≠ verdict (val lesson))
    || anyChange verdict lessons.
Proof.
  unfold anyChange. apply eq_true_iff_eq.
  rewrite orb_true_iff, !bool_decide_eq_true, Exists_cons. done.
Qed.

(** The mapping of an update that sets the status [verdict] says. *)
Lemma mapLessons_setStatus verdict lessons (changed : bool) next :
  Dashboard.mapLessons (setStatusTo verdict) lessons changed next
  = Ok ((assign verdict lessons next).1, changed || anyChange verdict lessons,
        (assign verdict lessons next).2).
Proof.
  revert changed next. induction lessons as [|lesson lessons IH]; intros changed next.
  - cbn. by rewrite orb_false_r.
  - cbn [Dashboard.mapLessons assign]. rewrite anyChange_cons.
    unfold Heap.bind at 1. unfold setStatusTo at 1, Dashboard.setStatus.
    case_bool_decide as Hne.
    + cbn. unfold Heap.bind at 1. rewrite IH. cbn. by rewrite orb_true_r.
    + cbn. unfold Heap.bind at 1. rewrite IH. cbn. by rewrite orb_false_r.
Qed.

Lemma updater_setStatus verdict (prev : Dashboard.LessonArray) next :
  Dashboard.updater (setStatusTo verdict) prev next = Ok (updated verdict prev next).
Proof.
  unfold Dashboard.updater, Heap.bind, fresh. rewrite mapLessons_setStatus. done.
Qed.

(** When no status differs, the lessons are handed through and nothing is
    allocated. *)
Lemma assign_unchanged verdict lessons next :
  anyChange verdict lessons = false -> assign verdict lessons next = (lessons, next).
Proof.
  induction lessons as [|lesson lessons IH]; [done|].
  rewrite anyChange_cons, orb_false_iff. intros [Hl Hls]. cbn. rewrite Hl.
  rewrite (IH Hls). done.
Qed.

Lemma assign_next_le verdict lessons next : (next <= (assign verdict lessons next).2)%positive.
Proof.
  revert next. induction lessons as [|lesson lessons IH]; intros next; cbn; [lia|].
  case_bool_decide; cbn; [|apply IH]. specialize (IH (Pos.succ next)). lia.
Qed.

(** Lesson by lesson: the lesson itself when its status stands, a new
    object with the decided status otherwise. *)
Lemma assign_Forall2 verdict lessons next :
  Forall2 (fun lesson lesson' =>
             (FlightBooking.status (val lesson) = verdict (val lesson) /\ lesson' = lesson)
             \/ (FlightBooking.status (val lesson) ≠ verdict (val lesson)
                 /\ val lesson' = FlightBooking.withStatus (val lesson) (verdict (val lesson))
                 /\ (next <= addr lesson' < (assign verdict lessons next).2)%positive))
          lessons (assign verdict lessons next).1.
Proof.
  revert next. induction lessons as [|lesson lessons IH]; intros next; cbn; [constructor|].
  case_bool_decide as Hne; cbn.
  - constructor.
    + right. split_and!; [done..| cbn |]; [lia|].
      cbn. pose proof (assign_next_le verdict lessons (Pos.succ next)). lia.
    + eapply Forall2_impl; [apply IH|]. cbn. intros l l' [?|(? & ? & ?)]; [by left|].
      right. split_and!; [done..|lia|lia].
  - constructor.
    + by left.
    + apply IH.
Qed.

Lemma mapLessons_ext (f g : Dashboard.Lesson -> M (Dashboard.Lesson * bool)) lessons
    (changed : bool) next :
  (forall lesson, lesson ∈ lessons -> f lesson = g lesson) ->
  Dashboard.mapLessons f lessons changed next = Dashboard.mapLessons g lessons changed next.
Proof.
  revert changed next. induction lessons as [|lesson lessons IH]; intros changed next Hfg;
    [done|].
  cbn. unfold Heap.bind at 1 3. rewrite (Hfg lesson) by left.
  destruct (g lesson next) as [[r n]|e]; [|done].
  unfold Heap.bind. rewrite IH; [done|]. intros l Hl. apply Hfg. by right.
Qed.

Lemma updater_ext (f g : Dashboard.Lesson -> M (Dashboard.Lesson * bool))
    (prev : Dashboard.LessonArray) next :
  (forall lesson, lesson ∈ val prev -> f lesson = g lesson) ->
  Dashboard.updater f prev next = Dashboard.updater g prev next.
Proof.
  intros Hfg. unfold Dashboard.updater, Heap.bind, fresh.
  by rewrite (mapLessons_ext f g) by done.
Qed.

Lemma resetLesson_setStatus lesson :
  Dashboard.resetLesson lesson = setStatusTo resetStatus lesson.
Proof.
  unfold Dashboard.resetLesson, setStatusTo, resetStatus, Dashboard.setStatus.
  case_bool_decide as Hr; [|done].
  rewrite bool_decide_eq_false_2; [done|]. intros Hne. by apply Hne.
Qed.

Lemma forecastForDay_valid (dailyForecast : list WeatherData.t) (date : DateKey) :
  validReadings dailyForecast ->
  Dashboard.forecastForDay dailyForecast date = Ok (firstMatch dailyForecast date).
Proof.
  unfold Dashboard.forecastForDay, firstMatch.
  induction 1 as [|reading readings [t Ht] _ IH]; [done|].
  cbn [findM find]. unfold Dashboard.getDateKey at 1. rewrite Ht.
  cbn [toISOString_slice10 JS.bind]. rewrite IH.
  assert (bool_decide (readingDate reading = Some date) = bool_decide (isoDate t = date))
    as ->.
  { apply bool_decide_ext. unfold readingDate. rewrite Ht. cbn.
    split; [by intros [= ->] | by intros ->]. }
  by case_bool_decide.
Qed.

(** With valid timestamps in the forecasts, the callback of
    [evaluateConflicts] sets the decided status. *)
Lemma evaluateLesson_setStatus (student : Student.t)
    (forecastMap : gmap jsstring (list WeatherData.t)) (today : Z) lesson :
  map_Forall (fun _ readings => validReadings readings) forecastMap ->
  Dashboard.evaluateLesson LocalTZA student forecastMap today lesson
  = setStatusTo (decidedStatus LocalTZA student forecastMap today) lesson.
Proof.
  intros Hvalid.
  unfold Dashboard.evaluateLesson, setStatusTo, decidedStatus.
  case_bool_decide as Hr.
  - unfold Dashboard.setStatus. rewrite bool_decide_eq_false_2; [done|].
    intros Hne. by apply Hne.
  - destruct (_ || _); [done|].
    rewrite forecastForDay_valid.
    + rewrite bind_lift_Ok. destruct (firstMatch _ _) as [forecast|]; [|done].
      by destruct (Dashboard.meetsStudentMinimums student forecast).
    + destruct (forecastMap !! _) as [readings|] eqn:Hget; cbn; [|constructor].
      by apply (Hvalid _ _ Hget).
Qed.

End UpdaterFacts.

Section ForecastMapFacts.
Variable LocalTZA : Z -> Z.
Variable unicodeUpper : N -> jsstring.
Variable apiKey : option jsstring.
Variable openWeather : jsstring -> jsstring -> WeatherService.ForecastFetch.
Implicit Types (location : Location.t) (locations : list Location.t).

(** The forecast fetched for a location depends on its key only. *)
Lemma forecastAt_key (l1 l2 : Location.t) :
  Dashboard.LOCATION_KEY l1 = Dashboard.LOCATION_KEY l2 ->
  forecastAt unicodeUpper apiKey openWeather l1 = forecastAt unicodeUpper apiKey openWeather l2.
Proof.
  intros [Hlat Hlon]%LOCATION_KEY_inj.
  unfold forecastAt, WeatherService.fetchWeatherForecast,
    WeatherService.fetchWeatherForecast_body.
  by rewrite Hlat, Hlon.
Qed.

(** What [fetchWeatherForecast] returns: the readings of the aggregation
    of the provider's entries, or nothing. *)
Lemma fetchWeatherForecast_cases (lat lon : number) (days : Z) :
  WeatherService.fetchWeatherForecast unicodeUpper apiKey openWeather lat lon days = []
  \/ exists entries,
       Weather.summarizeForecast unicodeUpper WeatherService.degreeMark entries
         (Z.min (Z.max days 1) 7)
       = Ok (WeatherService.fetchWeatherForecast unicodeUpper apiKey openWeather lat lon days).
Proof.
  unfold WeatherService.fetchWeatherForecast, WeatherService.fetchWeatherForecast_body.
  destruct (WeatherService.ensureApiKey apiKey); cbn [JS.bind]; [|by left].
  destruct (openWeather _ _) as [e|status|list]; [by left..|].
  destruct (Weather.summarizeForecast _ _ _ _) as [readings|e] eqn:Hsum; [|by left].
  right. by eexists.
Qed.

Lemma fetchWeatherForecast_valid (lat lon : number) (days : Z) :
  validReadings
    (WeatherService.fetchWeatherForecast unicodeUpper apiKey openWeather lat lon days).
Proof.
  destruct (fetchWeatherForecast_cases lat lon days) as [-> | [entries Hsum]];
    [constructor|].
  apply summarizeForecast_dates in Hsum; [|lia].
  unfold validReadings. apply Forall_forall. intros reading Hin.
  assert (readingDate reading ∈ readingDate <$>
            WeatherService.fetchWeatherForecast unicodeUpper apiKey openWeather lat lon days)
    as Hdate by (apply list_elem_of_fmap; by exists reading).
  rewrite Hsum in Hdate. apply list_elem_of_fmap in Hdate as (date & Hdate & _).
  unfold readingDate in Hdate. by destruct (WeatherData.timestamp reading).
Qed.

(** The readings of a fetched forecast have distinct date keys. *)
Lemma fetchWeatherForecast_NoDup (lat lon : number) (days : Z) :
  NoDup (readingDate <$>
           WeatherService.fetchWeatherForecast unicodeUpper apiKey openWeather lat lon days).
Proof.
  destruct (fetchWeatherForecast_cases lat lon days) as [-> | [entries Hsum]];
    [constructor|].
  apply summarizeForecast_dates in Hsum; [|lia]. rewrite Hsum.
  apply (NoDup_fmap_2 Some).
  eapply sublist_NoDup; [apply NoDup_firstOccurrences | apply sublist_take].
Qed.

Lemma forecastMapOf_snoc locations location :
  Dashboard.forecastMapOf unicodeUpper apiKey openWeather (locations ++ [location])
  = <[Dashboard.LOCATION_KEY location := forecastAt unicodeUpper apiKey openWeather location]>
      (Dashboard.forecastMapOf unicodeUpper apiKey openWeather locations).
Proof. unfold Dashboard.forecastMapOf. by rewrite foldl_app. Qed.

(** The forecast map holds, under the key of each location fetched, the
    forecast of that location, and nothing under other keys. *)
Lemma forecastMapOf_lookup locations (key : jsstring) :
  Dashboard.forecastMapOf unicodeUpper apiKey openWeather locations !! key
  = match find (fun location => bool_decide (Dashboard.LOCATION_KEY location = key)) locations with
    | Some location => Some (forecastAt unicodeUpper apiKey openWeather location)
    | None => None
    end.
Proof.
  induction locations as [|location locations IH] using rev_ind; [done|].
  rewrite forecastMapOf_snoc, find_app.
  destruct (decide (Dashboard.LOCATION_KEY location = key)) as [<-|Hne].
  - rewrite lookup_insert_eq.
    destruct (find _ locations) as [l'|] eqn:Hfind.
    + apply find_some in Hfind as [_ Hkey%bool_decide_eq_true].
      f_equal. by apply forecastAt_key.
    + cbn. by rewrite bool_decide_eq_true_2.
  - rewrite lookup_insert_ne by done. rewrite IH.
    destruct (find _ locations); [done|]. cbn. by rewrite bool_decide_eq_false_2.
Qed.

Lemma forecastMapOf_valid locations :
  map_Forall (fun _ readings => validReadings readings)
    (Dashboard.forecastMapOf unicodeUpper apiKey openWeather locations).
Proof.
  intros key readings. rewrite forecastMapOf_lookup.
  destruct (find _ locations); [|done]. intros [= <-]. apply fetchWeatherForecast_valid.
Qed.

End ForecastMapFacts.

Section MapOfFacts.
Context {K V : Type} `{EqDecision K}.
Implicit Types (m : Map K V) (k : K) (v : V) (kv : K * V).

Lemma elem_of_Map_set k v m kv : kv ∈ Map_set k v m -> kv = (k, v) \/ kv ∈ m.
Proof.
  induction m as [|[k' v'] m IH]; cbn.
  - intros ->%list_elem_of_singleton. by left.
  - case_decide; subst.
    + intros [->|?]%elem_of_cons; [by left | right; by right].
    + intros [->|Hin]%elem_of_cons; [right; left|].
      destruct (IH Hin) as [->|?]; [by left | right; by right].
Qed.

Lemma Map_set_keys k v m k' : k' ∈ (Map_set k v m).*1 <-> k' = k \/ k' ∈ m.*1.
Proof.
  induction m as [|[k0 v0] m IH]; cbn.
  - rewrite list_elem_of_singleton. split; [by left|]. intros [|Hin]; [done|].
    by apply elem_of_nil in Hin.
  - case_decide; subst; cbn; rewrite !elem_of_cons; [naive_solver|].
    rewrite IH. naive_solver.
Qed.

Lemma foldl_Map_set_elem (entries : list (K * V)) m kv :
  kv ∈ foldl (fun m kv => Map_set kv.1 kv.2 m) m entries -> kv ∈ m \/ kv ∈ entries.
Proof.
  revert m. induction entries as [|[k v] entries IH]; intros m; cbn; [by left|].
  intros [Hin|Hin]%IH; [|right; by right].
  apply elem_of_Map_set in Hin as [->|?]; [right; left | by left].
Qed.

Lemma foldl_Map_set_keys (entries : list (K * V)) m k :
  k ∈ (foldl (fun m kv => Map_set kv.1 kv.2 m) m entries).*1 <-> k ∈ m.*1 \/ k ∈ entries.*1.
Proof.
  revert m. induction entries as [|[k' v'] entries IH]; intros m; cbn.
  - split; [by left|]. intros [|Hin]; [done|]. by apply elem_of_nil in Hin.
  - rewrite IH, Map_set_keys, elem_of_cons. naive_solver.
Qed.

Lemma Map_of_elem (entries : list (K * V)) kv : kv ∈ Map_of entries -> kv ∈ entries.
Proof.
  intros [Hin|Hin]%foldl_Map_set_elem; [|done]. by apply elem_of_nil in Hin.
Qed.

Lemma Map_of_keys (entries : list (K * V)) k : k ∈ (Map_of entries).*1 <-> k ∈ entries.*1.
Proof.
  unfold Map_of. rewrite foldl_Map_set_keys. split; [|by right].
  intros [Hin|]; [|done]. by apply elem_of_nil in Hin.
Qed.

End MapOfFacts.

Section ScanFacts.
Import Heap.
Variable LocalTZA : Z -> Z.
Variable unicodeUpper : N -> jsstring.
Variable apiKey : option jsstring.
Variable openWeather : jsstring -> jsstring -> WeatherService.ForecastFetch.
Implicit Types (lesson : Dashboard.Lesson) (lessons : list Dashboard.Lesson).
Implicit Types (student : Student.t) (next : positive).

(** Every lesson of the list has the key of one of the locations fetched. *)
Lemma uniqueLocations_key lessons lesson :
  lesson ∈ lessons ->
  exists location,
    location ∈ Dashboard.uniqueLocations lessons
    /\ Dashboard.LOCATION_KEY location
       = Dashboard.LOCATION_KEY (FlightBooking.departureLocation (val lesson)).
Proof.
  intros Hin. unfold Dashboard.uniqueLocations, Map_values.
  set (entries := (fun l => (Dashboard.LOCATION_KEY (FlightBooking.departureLocation (val l)),
                             FlightBooking.departureLocation (val l))) <$> lessons).
  assert (Dashboard.LOCATION_KEY (FlightBooking.departureLocation (val lesson))
            ∈ (Map_of entries).*1) as Hkey.
  { apply Map_of_keys. apply list_elem_of_fmap.
    eexists (_, _). split; [|apply list_elem_of_fmap; eexists; split; [done|exact Hin]].
    done. }
  apply list_elem_of_fmap in Hkey as ([k location] & Hk & Hkv). cbn in Hk. subst k.
  exists location. split.
  - apply list_elem_of_fmap. by exists (Dashboard.LOCATION_KEY
      (FlightBooking.departureLocation (val lesson)), location).
  - apply Map_of_elem in Hkv. apply list_elem_of_fmap in Hkv as (l' & [= Hk ->] & _).
    by rewrite Hk.
Qed.

(** The scan holds, for every relevant lesson, the forecast of the
    lesson's location. *)
Lemma scanForecasts_lookup (now : Z) lessons lesson :
  lesson ∈ Dashboard.relevantLessons LocalTZA now lessons ->
  scanForecasts LocalTZA unicodeUpper apiKey openWeather now lessons
    !! Dashboard.LOCATION_KEY (FlightBooking.departureLocation (val lesson))
  = Some (forecastAt unicodeUpper apiKey openWeather
            (FlightBooking.departureLocation (val lesson))).
Proof.
  intros Hin. unfold scanForecasts. rewrite forecastMapOf_lookup.
  destruct (uniqueLocations_key _ _ Hin) as (location & Hloc & Hkey).
  destruct (find _ _) as [location'|] eqn:Hfind.
  - apply find_some in Hfind as [_ Hkey'%bool_decide_eq_true].
    f_equal. by apply forecastAt_key.
  - exfalso. eapply find_none in Hfind; [|by apply list_elem_of_In].
    by apply bool_decide_eq_false in Hfind.
Qed.

(** Every location fetched is the departure location of one of the
    lessons. *)
Lemma uniqueLocations_elem lessons (location : Location.t) :
  location ∈ Dashboard.uniqueLocations lessons ->
  exists lesson, lesson ∈ lessons /\ FlightBooking.departureLocation (val lesson) = location.
Proof.
  unfold Dashboard.uniqueLocations, Map_values.
  intros ([key location'] & -> & Hin%Map_of_elem)%list_elem_of_fmap.
  apply list_elem_of_fmap in Hin as (lesson & [= _ ->] & Hin). by exists lesson.
Qed.

(** The forecast the scan holds under a key is the forecast of the
    location of a relevant lesson with that key. *)
Lemma scanForecasts_Some (now : Z) lessons (key : jsstring) (readings : list WeatherData.t) :
  scanForecasts LocalTZA unicodeUpper apiKey openWeather now lessons !! key = Some readings ->
  exists lesson,
    lesson ∈ Dashboard.relevantLessons LocalTZA now lessons
    /\ Dashboard.LOCATION_KEY (FlightBooking.departureLocation (val lesson)) = key
    /\ readings
       = forecastAt unicodeUpper apiKey openWeather (FlightBooking.departureLocation (val lesson)).
Proof.
  unfold scanForecasts. rewrite forecastMapOf_lookup.
  destruct (find _ _) as [location|] eqn:Hfind; [|done]. intros [= <-].
  apply find_some in Hfind as [Hin%list_elem_of_In Hkey%bool_decide_eq_true].
  apply uniqueLocations_elem in Hin as (lesson & Hin & <-). by exists lesson.
Qed.

(** The scan: nothing happens without lessons or once the effect is
    cancelled behind a fetch; otherwise the update sets the status of the
    scan's verdict. *)
Lemma conflictScan_run student (lessons prev : Dashboard.LessonArray) (now today : Z)
    (cancelled : bool) next :
  Dashboard.conflictScan LocalTZA unicodeUpper apiKey openWeather (Some student) lessons now
    cancelled today prev next
  = if bool_decide (val lessons = []) then Ok (prev, next)
    else if cancelled
              && negb (bool_decide (Dashboard.relevantLessons LocalTZA now (val lessons) = []))
         then Ok (prev, next)
         else Ok (updated (scanVerdict LocalTZA unicodeUpper apiKey openWeather student now
                             today (val lessons)) prev next).
Proof.
  unfold Dashboard.conflictScan, scanVerdict.
  destruct (val lessons) as [|l ls] eqn:Hls; [done|].
  rewrite (bool_decide_eq_false_2 (length (l :: ls) = 0%nat)) by done.
  rewrite (bool_decide_eq_false_2 (l :: ls = [])) by done.
  rewrite <- Hls.
  destruct (Dashboard.relevantLessons LocalTZA now (val lessons)) as [|r rs] eqn:Hrel.
  - rewrite bool_decide_eq_true_2 by done. rewrite andb_false_r.
    rewrite bool_decide_eq_true_2 by done.
    rewrite <- updater_setStatus. apply updater_ext. intros lesson _.
    apply resetLesson_setStatus.
  - rewrite (bool_decide_eq_false_2 (length (r :: rs) = 0%nat)) by done.
    rewrite (bool_decide_eq_false_2 (r :: rs = [])) by done. cbn [negb].
    rewrite andb_true_r. destruct cancelled; [done|].
    rewrite <- updater_setStatus. apply updater_ext. intros lesson _.
    rewrite <- Hrel. apply evaluateLesson_setStatus. apply forecastMapOf_valid.
Qed.

(** Between times of the years 100 to 9999, [differenceInDays] counts the
    local calendar days from the one to the other. *)
Lemma differenceInDays_ordinary (from to : Z) :
  ordinaryDate LocalTZA from -> ordinaryDate LocalTZA to ->
  Dashboard.differenceInDays LocalTZA from to
  = Some (localDay LocalTZA to - localDay LocalTZA from).
Proof.
  intros [_ Hfrom] [_ Hto].
  unfold Dashboard.differenceInDays, Dashboard.getFullYear, Dashboard.getMonth,
    Dashboard.getDate, Dashboard.LocalTime.
  rewrite !Date_UTC_of_time by done. cbn [mbind option_bind]. f_equal.
  unfold localDay, Dashboard.MS_PER_DAY, msPerDay.
  rewrite <- Z.mul_sub_distr_r. by apply Z.div_mul.
Qed.

Lemma elem_of_relevantLessons (now : Z) lessons lesson :
  ordinaryDate LocalTZA now ->
  ordinaryDate LocalTZA (FlightBooking.scheduledDate (val lesson)) ->
  lesson ∈ Dashboard.relevantLessons LocalTZA now lessons
  <-> lesson ∈ lessons
      /\ FlightBooking.status (val lesson) ≠ Rescheduled
      /\ inScanWindow LocalTZA now (val lesson).
Proof.
  intros Hnow Hdate. unfold Dashboard.relevantLessons, inScanWindow.
  rewrite list_elem_of_In, filter_In, <- list_elem_of_In.
  rewrite (differenceInDays_ordinary _ _ Hnow Hdate).
  cbn [Dashboard.geNumber Dashboard.ltNumber].
  case_bool_decide as Hr.
  - split; [by intros [_ ?] | by intros (_ & ? & _)].
  - rewrite andb_true_iff, Z.geb_le, Z.ltb_lt. tauto.
Qed.

(** With dates of the years 100 to 9999, the scan holds the forecast of
    the locations it asks for, and of them only. *)
Lemma scanForecasts_scanned (now : Z) lessons (location : Location.t) :
  ordinaryDate LocalTZA now ->
  Forall (ordinaryDate LocalTZA) (scheduledDates lessons) ->
  (scanned LocalTZA now lessons location ->
   scanForecasts LocalTZA unicodeUpper apiKey openWeather now lessons
     !! Dashboard.LOCATION_KEY location
   = Some (forecastAt unicodeUpper apiKey openWeather location))
  /\ (¬ scanned LocalTZA now lessons location ->
      scanForecasts LocalTZA unicodeUpper apiKey openWeather now lessons
        !! Dashboard.LOCATION_KEY location
      = None).
Proof.
  intros Hnow Hdates. unfold scheduledDates in Hdates.
  rewrite Forall_fmap, Forall_forall in Hdates. split.
  - intros (lesson & Hin & Hresch & Hwindow & Hkey)%Exists_exists.
    rewrite <- Hkey, (forecastAt_key _ _ _ _ _ (eq_sym Hkey)).
    apply scanForecasts_lookup. apply elem_of_relevantLessons; [done|by apply Hdates|done].
  - intros Hnot.
    destruct (scanForecasts _ _ _ _ _ _ !! _) as [readings|] eqn:Hget; [|done].
    exfalso. apply scanForecasts_Some in Hget as (lesson & Hrel & Hkey & _).
    pose proof Hrel as Hin. apply list_elem_of_In, filter_In in Hin as [Hin%list_elem_of_In _].
    apply elem_of_relevantLessons in Hrel as (_ & Hresch & Hwindow); [|done|by apply Hdates].
    apply Hnot, Exists_exists. by exists lesson.
Qed.

Lemma anyChange_ext (v1 v2 : FlightBooking.t -> Status) lessons :
  (forall lesson, lesson ∈ lessons -> v1 (val lesson) = v2 (val lesson)) ->
  anyChange v1 lessons = anyChange v2 lessons.
Proof.
  intros Hv. unfold anyChange. apply bool_decide_ext. rewrite !Exists_exists.
  split; intros (l & Hl & Hne); exists l; (split; [done|]);
    [rewrite <- (Hv l Hl) | rewrite (Hv l Hl)]; done.
Qed.

Lemma assign_ext (v1 v2 : FlightBooking.t -> Status) lessons next :
  (forall lesson, lesson ∈ lessons -> v1 (val lesson) = v2 (val lesson)) ->
  assign v1 lessons next = assign v2 lessons next.
Proof.
  revert next. induction lessons as [|l ls IH]; intros next Hv; [done|].
  cbn. rewrite (Hv l) by left.
  case_bool_decide; (rewrite IH; [done|]); intros l' Hl'; apply Hv; by right.
Qed.

Lemma updated_ext (v1 v2 : FlightBooking.t -> Status) (prev : Dashboard.LessonArray) next :
  (forall lesson, lesson ∈ val prev -> v1 (val lesson) = v2 (val lesson)) ->
  updated v1 prev next = updated v2 prev next.
Proof.
  intros Hv. unfold updated. by rewrite (anyChange_ext v1 v2), (assign_ext v1 v2).
Qed.

Lemma withStatus_same (booking : FlightBooking.t) :
  FlightBooking.withStatus booking (FlightBooking.status booking) = booking.
Proof. by destruct booking. Qed.

(** In a forecast with distinct date keys, the first reading of a key is the
    only one. *)
Lemma firstMatch_unique (dailyForecast : list WeatherData.t) (date : DateKey)
    (reading : WeatherData.t) :
  NoDup (readingDate <$> dailyForecast) ->
  reading ∈ dailyForecast -> readingDate reading = Some date ->
  firstMatch dailyForecast date = Some reading.
Proof.
  unfold firstMatch. induction dailyForecast as [|r rs IH]; intros Hnd Hin Hdate.
  - by apply elem_of_nil in Hin.
  - cbn in Hnd. apply NoDup_cons in Hnd as [Hr Hnd]. cbn.
    apply elem_of_cons in Hin as [<- | Hin].
    + by rewrite bool_decide_eq_true_2.
    + rewrite bool_decide_eq_false_2; [by apply IH|].
      intros Hr'. apply Hr. rewrite Hr', <- Hdate. apply list_elem_of_fmap. by exists reading.
Qed.

Lemma firstMatch_Some (dailyForecast : list WeatherData.t) (date : DateKey)
    (reading : WeatherData.t) :
  firstMatch dailyForecast date = Some reading ->
  reading ∈ dailyForecast /\ readingDate reading = Some date.
Proof.
  unfold firstMatch. intros [Hin Hd%bool_decide_eq_true]%find_some.
  split; [by apply list_elem_of_In | done].
Qed.

End ScanFacts.

Section ScanTheorems.
Import Heap.
Variable LocalTZA : Z -> Z.
Variable unicodeUpper : N -> jsstring.
Variable apiKey : option jsstring.
Variable openWeather : jsstring -> jsstring -> WeatherService.ForecastFetch.
Implicit Types (lesson : Dashboard.Lesson) (lessons : Dashboard.LessonArray).
Implicit Types (student : Student.t) (next : positive).

Lemma updated_val (verdict : FlightBooking.t -> Status) lessons next :
  val (updated verdict lessons next).1 = (assign verdict (val lessons) (Pos.succ next)).1.
Proof.
  unfold updated. cbn [fst]. destruct (anyChange verdict (val lessons)) eqn:Hany; [done|].
  by rewrite assign_unchanged.
Qed.

(** Lesson by lesson, an update leaves a lesson whose status stands and
    otherwise makes a new object with the status of the verdict. *)
Lemma updated_Forall2 (verdict : FlightBooking.t -> Status) lessons next :
  Forall2 (fun lesson lesson' =>
             val lesson' = FlightBooking.withStatus (val lesson) (verdict (val lesson))
             /\ (FlightBooking.status (val lesson) = verdict (val lesson) -> lesson' = lesson)
             /\ (FlightBooking.status (val lesson) ≠ verdict (val lesson) ->
                 (next < addr lesson')%positive))
          (val lessons) (val (updated verdict lessons next).1).
Proof.
  rewrite updated_val.
  eapply Forall2_impl; [apply assign_Forall2|]. cbn.
  intros lesson lesson' [[Hsame ->] | (Hne & Hval & Haddr)].
  - split_and!; [by rewrite <- Hsame, withStatus_same | done..].
  - split_and!; [done..|lia].
Qed.

(** Within the years 0 to 9999 a reading has the date key of a time
    exactly when it is of the UTC calendar day of that time. *)
Lemma readingDate_readingDay (reading : WeatherData.t) (date : Z) :
  0 <= YearFromTime date <= 9999 ->
  readingDate reading = Some (isoDate date) <-> readingDay reading = Some (Day date).
Proof.
  intros Hdate. unfold readingDate, readingDay.
  destruct (WeatherData.timestamp reading) as [t|]; cbn; [|done].
  pose proof (isoDate_same_day t date Hdate) as Hsame.
  split; intros [= H]; f_equal; by apply Hsame.
Qed.

(** The status decided for a booking from the forecasts held, case by
    case, for dates of the years 100 to 9999. *)
Lemma decidedStatus_cases student (forecastMap : gmap jsstring (list WeatherData.t))
    (today : Z) (booking : FlightBooking.t) :
  let dailyForecast :=
    default [] (forecastMap
                  !! Dashboard.LOCATION_KEY (FlightBooking.departureLocation booking)) in
  let decided := decidedStatus LocalTZA student forecastMap today booking in
  ordinaryDate LocalTZA today ->
  ordinaryDate LocalTZA (FlightBooking.scheduledDate booking) ->
  NoDup (readingDate <$> dailyForecast) ->
  (FlightBooking.status booking = Rescheduled -> decided = Rescheduled)
  /\ (FlightBooking.status booking ≠ Rescheduled ->
      ¬ inScanWindow LocalTZA today booking -> decided = Scheduled)
  /\ (FlightBooking.status booking ≠ Rescheduled ->
      inScanWindow LocalTZA today booking ->
      Exists (failingMatch student booking) dailyForecast -> decided = WeatherConflict)
  /\ (FlightBooking.status booking ≠ Rescheduled ->
      inScanWindow LocalTZA today booking ->
      ¬ Exists (failingMatch student booking) dailyForecast -> decided = Scheduled).
Proof.
  intros dailyForecast decided Htoday Hdate Hdistinct. subst decided.
  unfold decidedStatus, inScanWindow. fold dailyForecast.
  rewrite (differenceInDays_ordinary LocalTZA _ _ Htoday Hdate).
  cbn [Dashboard.ltNumber Dashboard.geNumber].
  set (diffDays := localDay LocalTZA (FlightBooking.scheduledDate booking)
                   - localDay LocalTZA today).
  assert (Hyear : 0 <= YearFromTime (FlightBooking.scheduledDate booking) <= 9999)
    by (destruct Hdate as [[? ?] _]; lia).
  destruct (bool_decide_reflect (FlightBooking.status booking = Rescheduled)) as [Hr|Hr].
  { split_and!; done. }
  assert (Hin : 0 <= diffDays < 7 -> (diffDays <? 0) || (diffDays >=? 7) = false).
  { intros H. apply orb_false_iff. rewrite Z.ltb_ge, Z.geb_leb, Z.leb_gt. lia. }
  assert (Hout : ¬ 0 <= diffDays < 7 -> (diffDays <? 0) || (diffDays >=? 7) = true).
  { intros H. apply orb_true_iff. rewrite Z.ltb_lt, Z.geb_leb, Z.leb_le. lia. }
  split_and!.
  - done.
  - intros _ Hw. by rewrite (Hout Hw).
  - intros _ Hw (reading & Hreading & Hday & Hfails)%Exists_exists. rewrite (Hin Hw).
    apply readingDate_readingDay in Hday; [|done].
    by rewrite (firstMatch_unique dailyForecast _ reading), Hfails.
  - intros _ Hw Hnone. rewrite (Hin Hw).
    destruct (firstMatch _ _) as [reading|] eqn:Hfirst; [|done].
    apply firstMatch_Some in Hfirst as [Hreading Hday].
    apply readingDate_readingDay in Hday; [|done].
    destruct (Dashboard.meetsStudentMinimums student reading) eqn:Hmeets; [done|].
    exfalso. apply Hnone, Exists_exists. by exists reading.
Qed.

(** The verdict of a scan on a booking, case by case, for dates of the
    years 100 to 9999. *)
Lemma scanVerdict_cases student (now today : Z) (ls : list Dashboard.Lesson)
    (booking : FlightBooking.t) :
  let location := FlightBooking.departureLocation booking in
  let failing :=
    scanned LocalTZA now ls location
    /\ Exists (failingMatch student booking)
         (forecastAt unicodeUpper apiKey openWeather location) in
  let verdict :=
    scanVerdict LocalTZA unicodeUpper apiKey openWeather student now today ls booking in
  ordinaryDate LocalTZA now -> ordinaryDate LocalTZA today ->
  Forall (ordinaryDate LocalTZA) (scheduledDates ls) ->
  ordinaryDate LocalTZA (FlightBooking.scheduledDate booking) ->
  (FlightBooking.status booking = Rescheduled -> verdict = Rescheduled)
  /\ (FlightBooking.status booking ≠ Rescheduled ->
      ¬ inScanWindow LocalTZA today booking -> verdict = Scheduled)
  /\ (FlightBooking.status booking ≠ Rescheduled ->
      inScanWindow LocalTZA today booking -> failing -> verdict = WeatherConflict)
  /\ (FlightBooking.status booking ≠ Rescheduled ->
      inScanWindow LocalTZA today booking -> ¬ failing -> verdict = Scheduled).
Proof.
  intros location failing verdict Hnow Htoday Hdates Hdate. subst failing verdict.
  unfold scanVerdict.
  destruct (scanForecasts_scanned LocalTZA unicodeUpper apiKey openWeather now ls location
              Hnow Hdates) as [Hscanned Hnot].
  case_bool_decide as Hnil.
  - unfold resetStatus.
    destruct (bool_decide_reflect (FlightBooking.status booking = Rescheduled)) as [Hr|Hr];
      [by split_and!|].
    split_and!; [done..| |done].
    intros _ _ [(lesson & Hin & Hresch & Hwindow & _)%Exists_exists _]. exfalso.
    assert (lesson ∈ Dashboard.relevantLessons LocalTZA now ls) as Hrel.
    { apply elem_of_relevantLessons; [done| |done].
      unfold scheduledDates in Hdates. rewrite Forall_fmap, Forall_forall in Hdates.
      by apply Hdates. }
    rewrite Hnil in Hrel. by apply elem_of_nil in Hrel.
  - pose proof (decidedStatus_cases student
                  (scanForecasts LocalTZA unicodeUpper apiKey openWeather now ls) today booking)
      as Hcases. cbv zeta in Hcases. fold location in Hcases.
    assert (Hdec : Decision (scanned LocalTZA now ls location))
      by (unfold scanned, inScanWindow; apply _).
    destruct Hdec as [Hyes|Hno].
    + rewrite (Hscanned Hyes) in Hcases. cbn [default] in Hcases.
      destruct Hcases as (Hr & Hout & Hfail & Hpass);
        [done | done | apply fetchWeatherForecast_NoDup |].
      split_and!; [done | done | intros ? ? [_ ?]; by apply Hfail |].
      intros ? ? Hnone. apply Hpass; [done..|]. intros Hex. by apply Hnone.
    + rewrite (Hnot Hno) in Hcases. cbn [default] in Hcases.
      destruct Hcases as (Hr & Hout & Hfail & Hpass); [done | done | constructor |].
      split_and!; [done | done | by intros ? ? [? _] |].
      intros ? ? _. apply Hpass; [done..|]. by intros ?%Exists_nil.
Qed.







(** C3 (amended): a scan that is started with a student and for a lesson
    state with some lesson, and that is not cancelled, returns a lesson
    state in which, booking by booking of the state it updates, with the
    dates in the years 100 to 9999,
    - a rescheduled booking is the very object it was;
    - a booking not rescheduled and outside the window of seven local
      calendar days from the day of the update has status Scheduled;
    - a booking not rescheduled and inside the window has status
      WeatherConflict when the scan has asked the forecast of its location
      and that daily forecast has a reading for the booking's UTC calendar
      day that fails the student's minimums, and status Scheduled
      otherwise.
    The scan asks the forecasts of the locations of the lessons that are
    not rescheduled and in the window when it starts: of every booking in
    the window when it updates the state it was started for on the local
    day of its start. *)
Theorem conflictScan_statuses student lessons (prev : Dashboard.LessonArray)
    (now today : Z) next :
  val lessons ≠ [] ->
  Forall (ordinaryDate LocalTZA)
    (now :: today :: scheduledDates (val lessons) ++ scheduledDates (val prev)) ->
  exists result next',
    Dashboard.conflictScan LocalTZA unicodeUpper apiKey openWeather (Some student) lessons
      now false today prev next
    = Ok (result, next')
    /\ Forall2
         (fun lesson lesson' =>
            let booking := val lesson in
            let location := FlightBooking.departureLocation booking in
            let failing :=
              scanned LocalTZA now (val lessons) location
              /\ Exists (failingMatch student booking)
                   (forecastAt unicodeUpper apiKey openWeather location) in
            (FlightBooking.status booking = Rescheduled -> lesson' = lesson)
            /\ (FlightBooking.status booking ≠ Rescheduled ->
                ¬ inScanWindow LocalTZA today booking ->
                val lesson' = FlightBooking.withStatus booking Scheduled)
            /\ (FlightBooking.status booking ≠ Rescheduled ->
                inScanWindow LocalTZA today booking -> failing ->
                val lesson' = FlightBooking.withStatus booking WeatherConflict)
            /\ (FlightBooking.status booking ≠ Rescheduled ->
                inScanWindow LocalTZA today booking -> ¬ failing ->
                val lesson' = FlightBooking.withStatus booking Scheduled))
         (val prev) (val result)
    /\ (prev = lessons -> localDay LocalTZA now = localDay LocalTZA today ->
        Forall (fun lesson =>
                  FlightBooking.status (val lesson) ≠ Rescheduled ->
                  inScanWindow LocalTZA today (val lesson) ->
                  scanned LocalTZA now (val lessons)
                    (FlightBooking.departureLocation (val lesson)))
               (val prev)).
Proof.
  intros Hlessons Hdates.
  apply Forall_cons in Hdates as [Hnow Hdates]. apply Forall_cons in Hdates as [Htoday Hdates].
  apply Forall_app in Hdates as [Hstarted Hupdated].
  rewrite conflictScan_run. rewrite bool_decide_eq_false_2 by done. cbn [andb].
  eexists _, _. split; [by rewrite <- surjective_pairing|]. split.
  - apply Forall2_same_length_lookup.
    pose proof (updated_Forall2
                  (scanVerdict LocalTZA unicodeUpper apiKey openWeather student now today
                     (val lessons)) prev next) as Hall.
    split; [by eapply Forall2_length|].
    intros i lesson lesson' Hi Hi'.
    destruct (Forall2_lookup_lr _ _ _ _ _ _ Hall Hi Hi') as (Hval & Hsame & _).
    assert (Hdate : ordinaryDate LocalTZA (FlightBooking.scheduledDate (val lesson))).
    { unfold scheduledDates in Hupdated. rewrite Forall_fmap, Forall_forall in Hupdated.
      eapply Hupdated, list_elem_of_lookup_2, Hi. }
    destruct (scanVerdict_cases student now today (val lessons) (val lesson)
                Hnow Htoday Hstarted Hdate) as (Hr & Hout & Hfail & Hpass).
    cbv zeta. split_and!.
    + intros Hresch. apply Hsame. by rewrite Hr.
    + intros Hresch Hw. by rewrite Hval, Hout.
    + intros Hresch Hw Hfailing. by rewrite Hval, Hfail.
    + intros Hresch Hw Hfailing. by rewrite Hval, Hpass.
  - intros -> Hday. apply Forall_forall. intros lesson Hin Hresch Hwindow.
    apply Exists_exists. exists lesson. split_and!; [done..| |done].
    unfold inScanWindow in *. by rewrite Hday.
Qed.



End ScanTheorems.

(** The hypotheses hold of a scan at noon of 2025-11-09, in the zone six
    hours behind UTC, of one lesson that afternoon: with 26 kts of wind
    forecast, the student pilot's lesson comes out in conflict. *)
Lemma conflictScan_statuses_witness :
  exists result next',
    Dashboard.conflictScan Samples.central Samples.noUnicodeUpper (Some (js "key"))
      Samples.windyProvider (Some (Samples.student StudentPilot))
      (Samples.lessonState Scheduled) Samples.noon false Samples.noon
      (Samples.lessonState Scheduled) 3%positive
    = Ok (result, next')
    /\ FlightBooking.status ∘ Heap.val <$> Heap.val result = [WeatherConflict].
Proof.
  destruct (conflictScan_statuses Samples.central Samples.noUnicodeUpper (Some (js "key"))
              Samples.windyProvider (Samples.student StudentPilot)
              (Samples.lessonState Scheduled) (Samples.lessonState Scheduled)
              Samples.noon Samples.noon 3%positive)
    as (result & next' & Hscan & _).
  - done.
  - apply (bool_decide_unpack _). vm_compute. exact I.
  - exists result, next'. split; [exact Hscan|].
    vm_compute in Hscan. injection Hscan as <- _. reflexivity.
Defined.

(** C3, the claim as stated fails, whichever calendar its dates are read
    in.  In the zone six hours behind UTC a lesson on 2025-11-15 at 20:00
    (2025-11-16, 02:00 UTC) is scanned at noon of 2025-11-09; the forecast
    has a reading of 2025-11-15 that meets the student pilot's minimums
    and one of 2025-11-16 that fails them.  The scan sets the lesson in
    conflict: it takes the window from the local days (the lesson is six
    days ahead) and the reading from the UTC day of the lesson.  With the
    dates of the claim read in local time the lesson is in the window and
    the reading of its day passes; with the dates read in UTC the lesson
    is seven days ahead, outside the window; either way the claim has the
    lesson scheduled. *)
Lemma conflictScan_mixes_local_and_UTC_days :
  Dashboard.conflictScan Samples.central Samples.noUnicodeUpper (Some (js "key"))
    Samples.twoDayProvider (Some (Samples.student StudentPilot))
    (Samples.lateLessonState Scheduled) Samples.noonCentral false Samples.noonCentral
    (Samples.lateLessonState Scheduled) 3%positive
  = Ok (Heap.mkObj 3%positive [Heap.mkObj 4%positive (Samples.lateBooking WeatherConflict)],
        5%positive)
  /\ localDay Samples.central (FlightBooking.scheduledDate (Samples.lateBooking Scheduled))
     - localDay Samples.central Samples.noonCentral = 6
  /\ Day (FlightBooking.scheduledDate (Samples.lateBooking Scheduled))
     - Day Samples.noonCentral = 7
  /\ (fun reading =>
        (localDay Samples.central <$> WeatherData.timestamp reading,
         readingDay reading,
         Dashboard.meetsStudentMinimums (Samples.student StudentPilot) reading))
       <$> forecastAt Samples.noUnicodeUpper (Some (js "key")) Samples.twoDayProvider
             Samples.flyingCloud
     = [(Some (localDay Samples.central
                 (FlightBooking.scheduledDate (Samples.lateBooking Scheduled))),
         Some (Day (FlightBooking.scheduledDate (Samples.lateBooking Scheduled)) - 1),
         true);
        (Some (localDay Samples.central
                 (FlightBooking.scheduledDate (Samples.lateBooking Scheduled)) + 1),
         Some (Day (FlightBooking.scheduledDate (Samples.lateBooking Scheduled))),
         false)].
Proof. split_and!; by vm_compute. Qed.

(** Left out of the amended claim: [Date.UTC] reads a year from 0 to 99 as
    a year of the twentieth century, so that from the last day of the
    year 99 to the first day of the year 100 [differenceInDays] counts
    693959 days back, not one day on. *)
Lemma differenceInDays_two_digit_year :
  Dashboard.differenceInDays Samples.utc (-59011545600000) (-59011459200000)
  = Some (-693959)
  /\ localDay Samples.utc (-59011459200000) - localDay Samples.utc (-59011545600000) = 1.
Proof. split; by vm_compute. Qed.

(* ===================================================================== *)
(** * The conflict scan when a forecast request fails *)
(* ===================================================================== *)

Section FailedFetch.
Import Heap.
Variable LocalTZA : Z -> Z.
Variable unicodeUpper : N -> jsstring.
Variable apiKey : option jsstring.
Implicit Types (openWeather : jsstring -> jsstring -> WeatherService.ForecastFetch).
Implicit Types (location failed : Location.t) (booking : FlightBooking.t).
Implicit Types (student : Student.t).

(** A failed request leaves the location with the empty forecast. *)
Lemma forecastAt_failed openWeather failed location :
  fetchFails unicodeUpper apiKey openWeather failed ->
  Dashboard.LOCATION_KEY location = Dashboard.LOCATION_KEY failed ->
  forecastAt unicodeUpper apiKey openWeather location = [].
Proof.
  intros Hfails Hkey. rewrite (forecastAt_key _ _ _ _ _ Hkey).
  unfold fetchFails in Hfails. unfold forecastAt, WeatherService.fetchWeatherForecast.
  by destruct (WeatherService.fetchWeatherForecast_body _ _ _ _ _ _).
Qed.

(** Providers that agree away from a location give the other locations
    the same forecast. *)
Lemma forecastAt_agree openWeather openWeather' failed location :
  agreeAwayFrom failed openWeather openWeather' ->
  Dashboard.LOCATION_KEY location ≠ Dashboard.LOCATION_KEY failed ->
  forecastAt unicodeUpper apiKey openWeather location
  = forecastAt unicodeUpper apiKey openWeather' location.
Proof.
  intros Hagree Hkey.
  unfold forecastAt, WeatherService.fetchWeatherForecast,
    WeatherService.fetchWeatherForecast_body.
  rewrite Hagree; [done|]. intros [= Hlat Hlon]. apply Hkey.
  unfold Dashboard.LOCATION_KEY. by rewrite Hlat, Hlon.
Qed.

(** The status decided for a booking looks at the forecast held for the
    booking's own location only. *)
Lemma decidedStatus_own_forecast student (forecastMap forecastMap' : gmap jsstring (list WeatherData.t))
    (today : Z) booking :
  default [] (forecastMap !! Dashboard.LOCATION_KEY (FlightBooking.departureLocation booking))
  = default [] (forecastMap' !! Dashboard.LOCATION_KEY (FlightBooking.departureLocation booking)) ->
  decidedStatus LocalTZA student forecastMap today booking
  = decidedStatus LocalTZA student forecastMap' today booking.
Proof. intros Hown. unfold decidedStatus. by rewrite Hown. Qed.

(** With no forecast held for its location a booking that is not
    rescheduled is decided scheduled. *)
Lemma decidedStatus_no_forecast student (forecastMap : gmap jsstring (list WeatherData.t))
    (today : Z) booking :
  default [] (forecastMap !! Dashboard.LOCATION_KEY (FlightBooking.departureLocation booking))
  = [] ->
  decidedStatus LocalTZA student forecastMap today booking = resetStatus booking.
Proof.
  intros Hnone. unfold decidedStatus, resetStatus. rewrite Hnone. cbn [firstMatch find].
  by destruct (_ || _).
Qed.

(** The forecasts a scan holds with two providers that agree away from a
    location, the first of which fails for it: alike for the other
    locations, none for the failed one. *)
Lemma scanForecasts_failed_fetch openWeather openWeather' failed (now : Z)
    (lessons : list Dashboard.Lesson) (key : jsstring) :
  fetchFails unicodeUpper apiKey openWeather failed ->
  agreeAwayFrom failed openWeather openWeather' ->
  (key ≠ Dashboard.LOCATION_KEY failed ->
   scanForecasts LocalTZA unicodeUpper apiKey openWeather now lessons !! key
   = scanForecasts LocalTZA unicodeUpper apiKey openWeather' now lessons !! key)
  /\ (key = Dashboard.LOCATION_KEY failed ->
      default [] (scanForecasts LocalTZA unicodeUpper apiKey openWeather now lessons !! key)
      = []).
Proof.
  intros Hfails Hagree. unfold scanForecasts. rewrite !forecastMapOf_lookup.
  destruct (find _ _) as [location|] eqn:Hfind; [|done].
  apply find_some in Hfind as [_ Hkey%bool_decide_eq_true]. split.
  - intros Hother. f_equal. apply forecastAt_agree with failed; [done|]. by rewrite Hkey.
  - intros Hfailed. cbn [default]. apply forecastAt_failed with failed; [done|].
    by rewrite Hkey.
Qed.

(** C7 (amended): a failed forecast request for one location does not
    abort the scan.  The scan (started with a student and for a lesson
    state with some lesson, and not cancelled) returns a lesson state; in
    it the bookings at the other locations have the status they have
    after a scan with any provider that answers the requests for the
    other locations alike, so with one that is reached for the failed
    location as well; a booking at the failed location is left as it is
    when rescheduled and is set to scheduled otherwise, as a booking with
    no forecast entry for its date. *)
Theorem conflictScan_failed_fetch_one_location openWeather openWeather' student
    (lessons prev : Dashboard.LessonArray) (now today : Z) next failed :
  val lessons ≠ [] ->
  fetchFails unicodeUpper apiKey openWeather failed ->
  agreeAwayFrom failed openWeather openWeather' ->
  exists result next1 result' next2,
    Dashboard.conflictScan LocalTZA unicodeUpper apiKey openWeather (Some student) lessons
      now false today prev next
    = Ok (result, next1)
    /\ Dashboard.conflictScan LocalTZA unicodeUpper apiKey openWeather' (Some student) lessons
         now false today prev next
       = Ok (result', next2)
    /\ forall (i : nat) lesson,
         val prev !! i = Some lesson ->
         exists lesson1 lesson2,
           val result !! i = Some lesson1
           /\ val result' !! i = Some lesson2
           /\ (Dashboard.LOCATION_KEY (FlightBooking.departureLocation (val lesson))
               ≠ Dashboard.LOCATION_KEY failed ->
               val lesson1 = val lesson2)
           /\ (Dashboard.LOCATION_KEY (FlightBooking.departureLocation (val lesson))
               = Dashboard.LOCATION_KEY failed ->
               (FlightBooking.status (val lesson) = Rescheduled -> lesson1 = lesson)
               /\ (FlightBooking.status (val lesson) ≠ Rescheduled ->
                   val lesson1 = FlightBooking.withStatus (val lesson) Scheduled)).
Proof.
  intros Hlessons Hfails Hagree. rewrite !conflictScan_run.
  rewrite !bool_decide_eq_false_2 by done. cbn [andb].
  set (verdict := scanVerdict LocalTZA unicodeUpper apiKey openWeather student now today
                    (val lessons)).
  set (verdict' := scanVerdict LocalTZA unicodeUpper apiKey openWeather' student now today
                     (val lessons)).
  eexists _, _, _, _. split; [by rewrite <- surjective_pairing|].
  split; [by rewrite <- surjective_pairing|].
  intros i lesson Hi.
  destruct (Forall2_lookup_l _ _ _ _ _ (updated_Forall2 verdict prev next) Hi)
    as (lesson1 & Hi1 & Hval1 & Hsame1 & _).
  destruct (Forall2_lookup_l _ _ _ _ _ (updated_Forall2 verdict' prev next) Hi)
    as (lesson2 & Hi2 & Hval2 & _).
  exists lesson1, lesson2. split; [exact Hi1|]. split; [exact Hi2|].
  destruct (scanForecasts_failed_fetch openWeather openWeather' failed now (val lessons)
              (Dashboard.LOCATION_KEY (FlightBooking.departureLocation (val lesson)))
              Hfails Hagree) as [Hother Hfailed].
  split.
  - intros Hkey. rewrite Hval1, Hval2. f_equal. unfold verdict, verdict', scanVerdict.
    destruct (bool_decide _); [done|].
    apply decidedStatus_own_forecast. by rewrite (Hother Hkey).
  - intros Hkey.
    assert (verdict (val lesson) = resetStatus (val lesson)) as Hverdict.
    { unfold verdict, scanVerdict. destruct (bool_decide _); [done|].
      apply decidedStatus_no_forecast. by apply Hfailed. }
    unfold resetStatus in Hverdict.
    split; intros Hresch.
    + apply Hsame1. rewrite Hverdict. by rewrite bool_decide_eq_true_2.
    + rewrite Hval1, Hverdict. by rewrite bool_decide_eq_false_2.
Qed.

End FailedFetch.

(** C7, the claim as stated fails: the forecast request for Flying Cloud
    is rejected, and the scan replaces the lesson there, which was in
    conflict, by a lesson that is scheduled. *)
Lemma conflictScan_failed_fetch_rewrites_status :
  fetchFails Samples.noUnicodeUpper (Some (js "key")) Samples.unreachableProvider
    Samples.flyingCloud
  /\ Dashboard.conflictScan Samples.utc Samples.noUnicodeUpper (Some (js "key"))
       Samples.unreachableProvider (Some (Samples.student StudentPilot))
       (Samples.lessonState WeatherConflict) Samples.noon false Samples.noon
       (Samples.lessonState WeatherConflict) 3%positive
     = Ok (Heap.mkObj 3%positive [Heap.mkObj 4%positive (Samples.booking Scheduled)],
           5%positive).
Proof. split; [exact I | by vm_compute]. Qed.

(** The hypotheses hold of a scan at noon of 2025-11-09 of two lessons
    that afternoon, with a provider that is down for Flying Cloud and
    forecasts 26 kts of wind for Crystal: the lesson at Crystal comes out
    in conflict, as with the provider that is reached for both, and the
    lesson at Flying Cloud comes out scheduled. *)
Lemma conflictScan_failed_fetch_one_location_witness :
  exists result next1 result' next2,
    Dashboard.conflictScan Samples.utc Samples.noUnicodeUpper (Some (js "key"))
      (Samples.downAt Samples.flyingCloud Samples.windyProvider)
      (Some (Samples.student StudentPilot)) Samples.twoLessons Samples.noon false
      Samples.noon Samples.twoLessons 4%positive
    = Ok (result, next1)
    /\ Dashboard.conflictScan Samples.utc Samples.noUnicodeUpper (Some (js "key"))
         Samples.windyProvider
         (Some (Samples.student StudentPilot)) Samples.twoLessons Samples.noon false
         Samples.noon Samples.twoLessons 4%positive
       = Ok (result', next2)
    /\ FlightBooking.status ∘ Heap.val <$> Heap.val result = [Scheduled; WeatherConflict]
    /\ FlightBooking.status ∘ Heap.val <$> Heap.val result'
       = [WeatherConflict; WeatherConflict].
Proof.
  destruct (conflictScan_failed_fetch_one_location Samples.utc Samples.noUnicodeUpper
              (Some (js "key")) (Samples.downAt Samples.flyingCloud Samples.windyProvider)
              Samples.windyProvider (Samples.student StudentPilot) Samples.twoLessons
              Samples.twoLessons Samples.noon Samples.noon 4%positive Samples.flyingCloud)
    as (result & next1 & result' & next2 & Hscan & Hscan' & _).
  - done.
  - exact I.
  - intros lat lon Hother. unfold Samples.downAt. by rewrite bool_decide_eq_false_2.
  - exists result, next1, result', next2. split; [exact Hscan|]. split; [exact Hscan'|].
    vm_compute in Hscan, Hscan'. injection Hscan as <- _. injection Hscan' as <- _.
    split; reflexivity.
Defined.

(* ===================================================================== *)
(** * The minimums check *)
(* ===================================================================== *)

Section PatternFacts.
Implicit Types (s value word : jsstring) (c : N) (p : N -> bool).

Lemma runOf_afterRun p s : runOf p s ++ afterRun p s = s.
Proof. induction s as [|c s IH]; [done|]. cbn. destruct (p c); [|done]. cbn. by rewrite IH. Qed.

Lemma afterRun_length p s : (length (afterRun p s) <= length s)%nat.
Proof. induction s as [|c s IH]; [done|]. cbn. destruct (p c); cbn; lia. Qed.

Lemma take_runOf p s : take (length s - length (afterRun p s)) s = runOf p s.
Proof.
  rewrite <- (runOf_afterRun p s) at 1 3. rewrite length_app.
  replace (length (runOf p s) + length (afterRun p s) - length (afterRun p s))%nat
    with (length (runOf p s)) by lia.
  by rewrite take_app_length.
Qed.

(** A greedy quantifier whose continuation fails after a shorter run
    whenever it fails after the whole run hands the continuation the text
    after the whole run. *)
Lemma starGreedy_run {R : Type} p (k : jsstring -> option R) s :
  (k (afterRun p s) = None -> forall c s', p c = true -> k (c :: s') = None) ->
  starGreedy p k s = k (afterRun p s).
Proof.
  intros Hk. induction s as [|c s IH]; [done|]. cbn in *.
  destruct (p c) eqn:Hc; [|done].
  rewrite (IH Hk). destruct (k (afterRun p s)) eqn:Hrest; [done|].
  by apply Hk.
Qed.

(** [litMatch] under the [i] flag. *)
Lemma litMatch_ignoreCase word s :
  litMatch true word s
  = if startsWithIgnoringCase word s then Some (drop (length word) s) else None.
Proof.
  unfold startsWithIgnoringCase. revert s.
  induction word as [|w word IH]; intros s; [done|].
  destruct s as [|c s]; [done|]. cbn [litMatch unitMatches length take drop fmap list_fmap].
  rewrite IH. destruct (N.eqb_spec (upperAscii w) (upperAscii c)) as [He|He].
  - destruct (bool_decide_reflect (upperAscii <$> take (length word) s = upperAscii <$> word))
      as [Hw|Hw].
    + by rewrite bool_decide_eq_true_2 by (by rewrite He, Hw).
    + by rewrite bool_decide_eq_false_2 by (intros [= _ ?]; done).
  - by rewrite bool_decide_eq_false_2 by (intros [= ? _]; done).
Qed.

(** The marker does not start with white space, a digit or a dot. *)
Lemma kts_not_at p c s :
  (p = isWhiteSpace \/ p = Dashboard.isNumeric) -> p c = true ->
  startsWithIgnoringCase (js "kts") (c :: s) = false.
Proof.
  intros Hp Hc. unfold startsWithIgnoringCase. apply bool_decide_eq_false_2.
  change (js "kts") with [107; 116; 115]%N. cbn [length take fmap list_fmap].
  change (upperAscii 107) with 75%N.
  intros [= Hk _]. revert Hk. unfold upperAscii, isLowerAscii.
  assert (c <> 75 /\ (c < 97 \/ 122 < c))%N as [Hne Hlow].
  { destruct Hp as [-> | ->].
    - unfold isWhiteSpace, inRange in Hc.
      rewrite !orb_true_iff, !andb_true_iff, !N.leb_le, bool_decide_eq_true in Hc.
      destruct Hc as [[Hc|Hc]|Hc]; [lia| |lia].
      set_unfold in Hc. lia.
    - unfold Dashboard.isNumeric, isDigit, inRange in Hc.
      rewrite orb_true_iff, andb_true_iff, !N.leb_le, N.eqb_eq in Hc. lia. }
  unfold inRange. destruct (N.leb_spec 97 c), (N.leb_spec c 122); cbn; lia.
Qed.

(** ** The three patterns *)

(** [/([\d.]+)/]: the match is the first run of digits and dots. *)
Lemma match_visibilityPattern value :
  String_match Dashboard.visibilityPattern value = Some <$> firstNumericRun value.
Proof.
  unfold firstNumericRun. induction value as [|c s IH]; [done|].
  cbn [String_match numericRuns]. unfold Dashboard.visibilityPattern.
  cbn [rmatch]. destruct (Dashboard.isNumeric c) eqn:Hc.
  - rewrite starGreedy_run by done. cbn [head fmap option_fmap option_map fst].
    do 2 f_equal. cbn [length].
    pose proof (afterRun_length Dashboard.isNumeric s).
    replace (S (length s) - length (afterRun Dashboard.isNumeric s))%nat
      with (S (length s - length (afterRun Dashboard.isNumeric s))) by lia.
    cbn [take]. by rewrite take_runOf.
  - exact IH.
Qed.

(** [/([\d.]+)\s*kts/i] at one position: the text starts with a digit or
    a dot, and its run of digits and dots is followed by the marker. *)
Lemma rmatch_ktsPattern s :
  rmatch Dashboard.ktsPattern s None (fun _ cap => Some cap)
  = match s with
    | c :: s' =>
        if Dashboard.isNumeric c
           && followedByKts (c :: runOf Dashboard.isNumeric s',
                             afterRun Dashboard.isNumeric s')
        then Some (Some (c :: runOf Dashboard.isNumeric s'))
        else None
    | [] => None
    end.
Proof.
  destruct s as [|c s]; [done|]. unfold Dashboard.ktsPattern. cbn [rmatch].
  destruct (Dashboard.isNumeric c) eqn:Hc; [|done]. cbn [andb].
  assert (Hspaces : forall (cap : option jsstring) rest,
            starGreedy isWhiteSpace
              (fun s'' => match litMatch true (js "kts") s'' with
                          | Some _ => Some cap
                          | None => None
                          end) rest
            = if startsWithIgnoringCase (js "kts") (afterRun isWhiteSpace rest)
              then Some cap else None).
  { intros cap rest. rewrite starGreedy_run.
    - rewrite litMatch_ignoreCase. by destruct (startsWithIgnoringCase _ _).
    - intros _ c' s' Hc'. rewrite litMatch_ignoreCase.
      by rewrite (kts_not_at isWhiteSpace) by auto. }
  rewrite starGreedy_run.
  - rewrite Hspaces. unfold followedByKts. cbn [snd].
    destruct (startsWithIgnoringCase _ _); [|done]. do 2 f_equal. cbn [length].
    pose proof (afterRun_length Dashboard.isNumeric s).
    replace (S (length s) - length (afterRun Dashboard.isNumeric s))%nat
      with (S (length s - length (afterRun Dashboard.isNumeric s))) by lia.
    cbn [take]. by rewrite take_runOf.
  - intros _ c' s' Hc'. rewrite Hspaces. cbn [afterRun].
    destruct (isWhiteSpace c') eqn:Hw.
    + exfalso. revert Hw Hc'.
      unfold isWhiteSpace, Dashboard.isNumeric, isDigit, inRange.
      rewrite !orb_true_iff, !andb_true_iff, !N.leb_le, bool_decide_eq_true, N.eqb_eq.
      intros [[Hw|Hw]|Hw] Hn; [lia| |lia]. set_unfold in Hw. lia.
    + by rewrite (kts_not_at Dashboard.isNumeric) by auto.
Qed.

(** [/([\d.]+)\s*kts/i]: the match is the first run of digits and dots
    that the marker follows. *)
Lemma match_ktsPattern_from (inRun : bool) value :
  (inRun = true ->
   startsWithIgnoringCase (js "kts")
     (afterRun isWhiteSpace (afterRun Dashboard.isNumeric value)) = false) ->
  String_match Dashboard.ktsPattern value
  = Some <$> (fst <$> find followedByKts (numericRuns inRun value)).
Proof.
  revert inRun. induction value as [|c s IH]; intros inRun Hrun; [done|].
  cbn [String_match numericRuns]. rewrite rmatch_ktsPattern.
  destruct (Dashboard.isNumeric c) eqn:Hc; cbn [andb].
  - cbn [afterRun] in Hrun. rewrite Hc in Hrun. destruct inRun.
    + unfold followedByKts at 1. cbn [snd]. rewrite Hrun by done. by apply IH.
    + cbn [find]. destruct (followedByKts _) eqn:Hkts; [done|]. by apply IH.
  - by apply IH.
Qed.

Lemma match_ktsPattern value :
  String_match Dashboard.ktsPattern value = Some <$> runBeforeKts value.
Proof. by apply match_ktsPattern_from. Qed.

(** [/calm/i] *)
Lemma test_calmPattern value :
  RegExp_test Dashboard.calmPattern value = mentions (js "calm") value.
Proof.
  unfold RegExp_test, Dashboard.calmPattern.
  induction value as [|c s IH]; cbn [String_match rmatch mentions];
    rewrite litMatch_ignoreCase; destruct (startsWithIgnoringCase _ _); try done.
Qed.

(** ** The two parsers *)

Lemma parseVisibilityMiles_run value :
  Dashboard.parseVisibilityMiles value = parseFloat <$> firstNumericRun value.
Proof.
  unfold Dashboard.parseVisibilityMiles. rewrite match_visibilityPattern.
  by destruct (firstNumericRun value).
Qed.

Lemma parseWindSpeedKts_run value :
  Dashboard.parseWindSpeedKts value
  = if mentions (js "calm") value then Some 0%float
    else parseFloat <$> runBeforeKts value.
Proof.
  unfold Dashboard.parseWindSpeedKts. rewrite test_calmPattern, match_ktsPattern.
  destruct (mentions _ _); [done|]. by destruct (runBeforeKts value).
Qed.
End PatternFacts.

Section MinimumsFacts.
Implicit Types (student : Student.t) (weather : WeatherData.t) (level : TrainingLevel).

(** No wind is within the maximum of every level. *)
Lemma calm_within_maxWind level :
  le 0 (Dashboard.maxWind (Dashboard.trainingMinimumRules level)) = true.
Proof. by destruct level. Qed.

(** The sub-checks of [meetsStudentMinimums], each with the number it is
    made on. *)
Lemma meetsStudentMinimums_checks student weather :
  let rules := Dashboard.trainingMinimumRules (Student.trainingLevel student) in
  Dashboard.meetsStudentMinimums student weather = true
  <-> (forall token, firstNumericRun (WeatherData.visibility weather) = Some token ->
                     ge (parseFloat token) (Dashboard.minVisibility rules) = true)
      /\ (mentions (js "calm") (WeatherData.winds weather) = false ->
          forall token, runBeforeKts (WeatherData.winds weather) = Some token ->
                        le (parseFloat token) (Dashboard.maxWind rules) = true)
      /\ WeatherData.conditions weather ∈ Dashboard.allowedConditions rules.
Proof.
  intros rules. unfold Dashboard.meetsStudentMinimums. fold rules.
  rewrite parseVisibilityMiles_run, parseWindSpeedKts_run.
  rewrite !andb_true_iff, bool_decide_eq_true, <- (assoc (∧)).
  f_equiv; [|f_equiv].
  - destruct (firstNumericRun _) as [token|]; cbn; [|done].
    split; [by intros ? ? [= <-] | by intros H; apply H].
  - destruct (mentions _ _).
    + split; [done|]. intros _. apply calm_within_maxWind.
    + destruct (runBeforeKts _) as [token|]; cbn; [|done].
      split; [by intros ? _ ? [= <-] | by intros H; apply H].
Qed.

(** C1 (amended): on a reading whose runs of digits and dots read as
    numbers, [meetsStudentMinimums] returns true exactly when the reading
    passes the minimums of the student's level, the wind speed being 0 for
    a wind summary that mentions [calm] in any letter case.  A summary
    without a run gives no number and its sub-check passes; the category
    check is made on every reading. *)
Theorem meetsStudentMinimums_passes student weather :
  (forall token, firstNumericRun (WeatherData.visibility weather) = Some token ->
                 numeral token) ->
  (forall token, runBeforeKts (WeatherData.winds weather) = Some token -> numeral token) ->
  Dashboard.meetsStudentMinimums student weather = true
  <-> passes windSpeedOf (Student.trainingLevel student) weather.
Proof.
  intros Hvisibility Hwind. rewrite meetsStudentMinimums_checks. unfold passes.
  f_equiv; [|f_equiv].
  - unfold visibilityOf. destruct (firstNumericRun _) as [token|]; cbn; [|done].
    rewrite (Hvisibility token eq_refl).
    split; [by intros H ? [= <-]; apply H | by intros H ? [= <-]; apply H].
  - unfold windSpeedOf. destruct (mentions _ _).
    + split; [|done]. intros _ w [= <-]. apply calm_within_maxWind.
    + destruct (runBeforeKts _) as [token|]; cbn; [|done].
      rewrite (Hwind token eq_refl).
      split; [by intros H ? [= <-]; apply H | by intros H _ ? [= <-]; apply H].
Qed.

End MinimumsFacts.

(** C1, the claim as stated fails: the wind summary mentions [calm] and
    is not ["Calm"]; by the claim's wording its wind speed is the 30 before
    the marker, above the maximum of every level, and the reading does not
    pass; [meetsStudentMinimums] takes the wind speed for 0 and returns
    true. *)
Lemma meetsStudentMinimums_calm_in_any_summary :
  Dashboard.meetsStudentMinimums (Samples.student InstrumentRated)
    (Samples.reading "Calm early, 30 kts later" "10.0 sm" VFR) = true
  /\ ¬ passes windSpeedOfCalmSummary InstrumentRated
        (Samples.reading "Calm early, 30 kts later" "10.0 sm" VFR).
Proof.
  split; [by vm_compute|]. intros (_ & Hwind & _).
  assert (le 30 25 = true) as Hle by (by apply (Hwind 30%float)). done.
Qed.

(** A run of dots is found by the patterns and reads as no number: the
    comparison with the minimum is false, and the reading does not meet
    the minimums of any level. *)
Lemma meetsStudentMinimums_run_of_dots (level : TrainingLevel) :
  Dashboard.meetsStudentMinimums (Samples.student level)
    (Samples.reading "Calm" "approx. 5 sm" VFR) = false.
Proof. by destruct level. Qed.

(** The hypotheses hold of a reading with 9 kts of wind and 10 statute
    miles of visibility in VFR: it passes the student pilot's minimums. *)
Lemma meetsStudentMinimums_passes_witness :
  passes windSpeedOf StudentPilot (Samples.reading "270 at 9 kts" "10.0 sm" VFR).
Proof.
  apply (meetsStudentMinimums_passes (Samples.student StudentPilot)
           (Samples.reading "270 at 9 kts" "10.0 sm" VFR)).
  - intros token Hrun. vm_compute in Hrun. injection Hrun as <-. reflexivity.
  - intros token Hrun. vm_compute in Hrun. injection Hrun as <-. reflexivity.
  - reflexivity.
Defined.

(* ===================================================================== *)
(** * Further properties of the minimums check *)
(* ===================================================================== *)

Module MinimumsOrder.

(** Comparisons of an arbitrary number with two constants, settled on
    the representation; the order of the constants is computed. *)
Ltac constants_contradiction :=
  exfalso;
  first
    [ repeat match goal with
             | H : @eq positive ?a ?b |- _ => first [subst a | subst b]
             end;
      match goal with
      | H : Pos.lt ?a ?a |- _ => exact (Pos.lt_irrefl _ H)
      | H1 : Pos.lt ?a ?b, H2 : Pos.lt ?b ?c |- _ =>
          let H := fresh in
          pose proof (Pos.lt_trans _ _ _ H1 H2) as H; vm_compute in H; discriminate H
      | H : Pos.lt ?a ?b |- _ =>
          lazymatch a with
          | context [xH] =>
              lazymatch b with context [xH] => vm_compute in H; discriminate H end
          end
      end
    | repeat match goal with
             | H : @eq positive _ _ |- _ => clear H
             | H : Pos.lt _ _ |- _ => clear H
             end;
      lia ].

Ltac by_constants x :=
  unfold ge, gt, le, lt;
  rewrite ?FloatAxioms.leb_spec, ?FloatAxioms.ltb_spec;
  repeat match goal with
         | |- context [Prim2SF ?c] =>
             lazymatch c with
             | x => fail
             | _ => let v := eval vm_compute in (Prim2SF c) in change (Prim2SF c) with v
             end
         end;
  destruct (Prim2SF x) as [[]|[]| |[] m e];
  try (intros; discriminate); try reflexivity;
  unfold SpecFloat.SFleb, SpecFloat.SFltb, SpecFloat.SFcompare;
  rewrite ?Pos.compare_cont_spec;
  repeat match goal with
         | |- context [(?a ?= ?b)%Z] => destruct (Z.compare_spec a b)
         end;
  repeat match goal with
         | |- context [Pos.compare ?a ?b] => destruct (Pos.compare_spec a b)
         end;
  cbv beta iota delta [Pos.switch_Eq]; intros;
  try discriminate; try reflexivity; constants_contradiction.

Lemma ge_5_ge_3 (x : number) : ge x 5 = true -> ge x 3 = true.
Proof. by_constants x. Qed.

Lemma ge_3_ge_1 (x : number) : ge x 3 = true -> ge x 1 = true.
Proof. by_constants x. Qed.

Lemma le_15_le_20 (x : number) : le x 15 = true -> le x 20 = true.
Proof. by_constants x. Qed.

Lemma le_20_le_25 (x : number) : le x 20 = true -> le x 25 = true.
Proof. by_constants x. Qed.

(** With the rating the minimum visibility falls, the maximum wind rises
    and the allowed categories grow. *)
Lemma rules_monotone (level level' : TrainingLevel) (v w : number) (c : FlightCategory) :
  (rating level <= rating level')%nat ->
  let rules := Dashboard.trainingMinimumRules level in
  let rules' := Dashboard.trainingMinimumRules level' in
  (ge v (Dashboard.minVisibility rules) = true -> ge v (Dashboard.minVisibility rules') = true)
  /\ (le w (Dashboard.maxWind rules) = true -> le w (Dashboard.maxWind rules') = true)
  /\ (c ∈ Dashboard.allowedConditions rules -> c ∈ Dashboard.allowedConditions rules').
Proof.
  destruct level, level'; cbn; intros Hle; try lia; try done.
  - split_and!; [apply ge_5_ge_3 | apply le_15_le_20 | set_solver].
  - split_and!; [by intros ?%ge_5_ge_3%ge_3_ge_1 | by intros ?%le_15_le_20%le_20_le_25
                 | set_solver].
  - split_and!; [apply ge_3_ge_1 | apply le_20_le_25 | set_solver].
Qed.

End MinimumsOrder.

(** X1: the minimums are monotone in the rating: a reading that meets the
    minimums of a student meets those of every student of the same or a
    higher training level. *)
Theorem meetsStudentMinimums_monotone (student student' : Student.t)
    (weather : WeatherData.t) :
  (rating (Student.trainingLevel student) <= rating (Student.trainingLevel student'))%nat ->
  Dashboard.meetsStudentMinimums student weather = true ->
  Dashboard.meetsStudentMinimums student' weather = true.
Proof.
  intros Hle. unfold Dashboard.meetsStudentMinimums.
  rewrite !andb_true_iff, !bool_decide_eq_true. intros [[Hv Hw] Hc].
  pose proof (fun v w => MinimumsOrder.rules_monotone _ _ v w
                           (WeatherData.conditions weather) Hle) as Hrules.
  cbv zeta in Hrules. split_and!.
  - destruct (Dashboard.parseVisibilityMiles _) as [v|]; [|done].
    by apply (Hrules v 0%float).
  - destruct (Dashboard.parseWindSpeedKts _) as [w|]; [|done].
    by apply (Hrules 0%float w).
  - by apply (Hrules 0%float 0%float).
Qed.

(** The hypotheses hold of a reading with 9 kts of wind and 10 miles of
    visibility in VFR, which meets the student pilot's minimums: it meets
    the instrument-rated pilot's. *)
Lemma meetsStudentMinimums_monotone_witness :
  Dashboard.meetsStudentMinimums (Samples.student InstrumentRated)
    (Samples.reading "270 at 9 kts" "10.0 sm" VFR) = true.
Proof.
  apply (meetsStudentMinimums_monotone (Samples.student StudentPilot)).
  - cbn. lia.
  - reflexivity.
Defined.

(** X2: a provider record without wind (no heading or no speed) and
    without visibility is normalised to a reading that meets the minimums
    of every student, whatever else the record carries: missing data never
    makes a conflict. *)
Theorem missing_wind_and_visibility_meet_minimums (unicodeUpper : N -> jsstring)
    (degreeMark : jsstring) (payload : OpenWeather.Entry) (reading : WeatherData.t)
    (student : Student.t) :
  OpenWeather.wind payload ≫= OpenWeather.deg = None
  \/ OpenWeather.wind payload ≫= OpenWeather.speed = None ->
  OpenWeather.visibility payload = None ->
  Weather.mapCurrentWeather unicodeUpper degreeMark payload = Ok reading ->
  WeatherData.winds reading = js "Calm"
  /\ WeatherData.visibility reading = js "N/A"
  /\ WeatherData.conditions reading = VFR
  /\ Dashboard.meetsStudentMinimums student reading = true.
Proof.
  intros Hwind Hvisibility. unfold Weather.mapCurrentWeather.
  destruct (Weather.buildSkySummary _ _) as [sky|e]; [|done]. cbn [JS.bind].
  rewrite Hvisibility. intros [= <-].
  assert (Weather.formatWinds degreeMark (OpenWeather.wind payload ≫= OpenWeather.deg)
            (OpenWeather.wind payload ≫= OpenWeather.speed) = js "Calm") as Hcalm.
  { destruct Hwind as [-> | ->]; [done|]. by destruct (_ ≫= _). }
  cbn [WeatherData.winds WeatherData.visibility WeatherData.conditions].
  split_and!; [done..|].
  unfold Dashboard.meetsStudentMinimums.
  cbn [WeatherData.winds WeatherData.visibility WeatherData.conditions].
  rewrite Hcalm. by destruct (Student.trainingLevel student).
Qed.

(** The hypotheses hold of a record that carries a time and a
    temperature only. *)
Lemma missing_wind_and_visibility_meet_minimums_witness :
  Dashboard.meetsStudentMinimums (Samples.student StudentPilot)
    (WeatherData.mk 52 (js "Calm") (js "N/A") (js "Clear") VFR (Some 1762700400000)) = true.
Proof.
  destruct (missing_wind_and_visibility_meet_minimums Samples.noUnicodeUpper
              Backend.degreeMark
              (OpenWeather.mkEntry 1762700400
                 (Some (OpenWeather.mkMain (Some 52%float))) None None None None)
              (WeatherData.mk 52 (js "Calm") (js "N/A") (js "Clear") VFR
                 (Some 1762700400000))
              (Samples.student StudentPilot))
    as (_ & _ & _ & Hmeets); [by left | reflexivity | reflexivity | exact Hmeets].
Defined.

(* ===================================================================== *)
(** * The normaliser's summaries read back by the minimums check *)
(* ===================================================================== *)

Section ReadBack.
Implicit Types (s prefix rest : jsstring) (c : N) (p : N -> bool).

Lemma afterRun_suffix p s : exists taken, s = taken ++ afterRun p s.
Proof. exists (runOf p s). by rewrite runOf_afterRun. Qed.

Lemma Forall_afterRun (Q : N -> Prop) p s : Forall Q s -> Forall Q (afterRun p s).
Proof.
  destruct (afterRun_suffix p s) as [taken Hs]. rewrite Hs at 1.
  by intros [_ ?]%Forall_app.
Qed.

(** A run stops inside a text that holds a code unit outside the class. *)
Lemma afterRun_app (Q : N -> Prop) p s rest :
  (forall c, Q c -> p c = false) -> Exists Q s ->
  afterRun p (s ++ rest) = afterRun p s ++ rest /\ Exists Q (afterRun p s).
Proof.
  intros HQ. induction s as [|c s IH]; intros Hex; [by apply Exists_nil in Hex|].
  cbn. destruct (p c) eqn:Hc; [|done].
  apply Exists_cons in Hex as [Hq|Hex]; [by rewrite (HQ c Hq) in Hc | by apply IH].
Qed.

(** A run takes the whole of a text of the class that is followed by a
    code unit outside it. *)
Lemma afterRun_whole p s c rest :
  Forall (fun c => p c = true) s -> p c = false ->
  runOf p (s ++ c :: rest) = s /\ afterRun p (s ++ c :: rest) = c :: rest.
Proof.
  intros Hs Hc. induction s as [|d s IH]; cbn; [by rewrite Hc|].
  apply Forall_cons in Hs as [-> Hs]. destruct (IH Hs) as [-> ->]. done.
Qed.

Lemma startsWith_kts_notK c s :
  notK c -> startsWithIgnoringCase (js "kts") (c :: s) = false.
Proof.
  intros Hc. unfold startsWithIgnoringCase. apply bool_decide_eq_false_2.
  change (js "kts") with [107; 116; 115]%N. cbn [length take fmap list_fmap].
  change (upperAscii 107) with 75%N. by intros [= ? _].
Qed.

(** The pattern for the wind speed does not match inside a text without
    the letter k that is followed by a code unit that stops the runs. *)
Lemma match_ktsPattern_skip prefix c rest :
  Forall notK (prefix ++ [c]) -> stopsRuns c ->
  String_match Dashboard.ktsPattern (prefix ++ c :: rest)
  = String_match Dashboard.ktsPattern rest.
Proof.
  intros HnotK [Hnum Hws].
  induction prefix as [|d prefix IH].
  - cbn [app String_match]. rewrite rmatch_ktsPattern. by rewrite Hnum.
  - cbn [app] in HnotK. apply Forall_cons in HnotK as [_ HnotK].
    cbn [app String_match]. rewrite rmatch_ktsPattern, (IH HnotK).
    destruct (Dashboard.isNumeric d); [|done]. cbn [andb].
    assert (followedByKts (d :: runOf Dashboard.isNumeric (prefix ++ c :: rest),
                           afterRun Dashboard.isNumeric (prefix ++ c :: rest)) = false)
      as ->; [|done].
    unfold followedByKts. cbn [snd].
    replace (prefix ++ c :: rest) with ((prefix ++ [c]) ++ rest)
      by (by rewrite <- app_assoc).
    assert (Hstop : Exists stopsRuns (prefix ++ [c]))
      by (apply Exists_app; right; by constructor).
    destruct (afterRun_app stopsRuns Dashboard.isNumeric (prefix ++ [c]) rest)
      as [-> Hstop']; [by intros ? [? ?] | done |].
    destruct (afterRun_app stopsRuns isWhiteSpace
                (afterRun Dashboard.isNumeric (prefix ++ [c])) rest)
      as [-> Hstop'']; [by intros ? [? ?] | done |].
    pose proof (Forall_afterRun notK isWhiteSpace _
                  (Forall_afterRun notK Dashboard.isNumeric _ HnotK)) as Hk.
    destruct (afterRun isWhiteSpace _) as [|h t]; [by apply Exists_nil in Hstop''|].
    apply Forall_cons in Hk as [Hh _]. cbn [app]. by apply startsWith_kts_notK.
Qed.

(** After a text without digits and dots the pattern matches as on the
    rest. *)
Lemma match_ktsPattern_skip_plain prefix rest :
  Forall (fun c => Dashboard.isNumeric c = false) prefix ->
  String_match Dashboard.ktsPattern (prefix ++ rest)
  = String_match Dashboard.ktsPattern rest.
Proof.
  induction 1 as [|c prefix Hc _ IH]; [done|].
  cbn [app String_match]. rewrite rmatch_ktsPattern. by rewrite Hc.
Qed.

(** A run of digits before [" kts"] is the match. *)
Lemma match_ktsPattern_digits (digits rest : jsstring) :
  digits ≠ [] -> Forall (fun c => isDigit c = true) digits ->
  String_match Dashboard.ktsPattern (digits ++ js " kts" ++ rest) = Some (Some digits).
Proof.
  intros Hne Hdigits. destruct digits as [|d digits]; [done|].
  apply Forall_cons in Hdigits as [Hd Hdigits].
  cbn [app String_match]. rewrite rmatch_ktsPattern.
  assert (Hnumeric : forall c, isDigit c = true -> Dashboard.isNumeric c = true)
    by (intros c Hc; unfold Dashboard.isNumeric; by rewrite Hc).
  rewrite (Hnumeric d Hd). cbn [andb].
  change (js " kts" ++ rest) with (32%N :: js "kts" ++ rest).
  destruct (afterRun_whole Dashboard.isNumeric digits 32%N (js "kts" ++ rest))
    as [-> Hafter]; [by eapply Forall_impl | done |].
  unfold followedByKts. cbn [snd]. rewrite Hafter. done.
Qed.

(** A text without the letter c does not mention [calm]. *)
Lemma mentions_calm_no_c s :
  Forall (fun c => upperAscii c ≠ 67%N) s -> mentions (js "calm") s = false.
Proof.
  assert (Hstart : forall s, Forall (fun c => upperAscii c ≠ 67%N) s ->
            startsWithIgnoringCase (js "calm") s = false).
  { intros [|c t] Ht; unfold startsWithIgnoringCase; apply bool_decide_eq_false_2;
      change (js "calm") with [99; 97; 108; 109]%N; cbn [length take fmap list_fmap];
      [done|]. apply Forall_cons in Ht as [Hc _].
    change (upperAscii 99) with 67%N. by intros [= ? _]. }
  induction 1 as [|c t Hc Ht IH]; cbn [mentions].
  - by rewrite Hstart.
  - rewrite Hstart by (by constructor). by rewrite IH.
Qed.

(** ** The alphabet of the texts of numbers *)

Lemma numberChar_digit c : isDigit c = true -> numberChar c.
Proof.
  unfold isDigit, inRange, numberChar. rewrite andb_true_iff, !N.leb_le. intros [Hlo Hhi].
  assert (c = 48 \/ c = 49 \/ c = 50 \/ c = 51 \/ c = 52 \/ c = 53 \/ c = 54 \/ c = 55
          \/ c = 56 \/ c = 57)%N as Hc by lia.
  vm_compute js. set_unfold. tauto.
Qed.

Lemma numberChar_facts c :
  numberChar c -> notK c /\ upperAscii c ≠ 67%N /\ isWhiteSpace c = false.
Proof.
  unfold numberChar, notK. vm_compute js. set_unfold.
  intros Hc. repeat (destruct Hc as [-> | Hc]; [by vm_compute|]). done.
Qed.

Lemma digitsAux_digits (fuel : nat) (n : Z) (acc : jsstring) :
  Forall (fun c => isDigit c = true) acc ->
  Forall (fun c => isDigit c = true) (digitsAux fuel n acc).
Proof.
  revert n acc. induction fuel as [|fuel IH]; intros n acc Hacc; cbn; [done|].
  assert (Forall (fun c => isDigit c = true) ((48 + Z.to_N (n mod 10))%N :: acc)) as Hacc'.
  { constructor; [|done]. pose proof (Z.mod_pos_bound n 10).
    unfold isDigit, inRange. rewrite andb_true_iff, !N.leb_le. lia. }
  destruct (n <? 10); [done|]. by apply IH.
Qed.

Lemma decimalDigits_digits (n : Z) : Forall (fun c => isDigit c = true) (decimalDigits n).
Proof. apply digitsAux_digits. constructor. Qed.

Lemma Number_toString_alphabet (x : number) : Forall numberChar (Number_toString x).
Proof.
  unfold Number_toString.
  assert (Hlit : forall text : string,
            Forall (fun a => numberChar (N_of_ascii a)) (list_ascii_of_string text) ->
            Forall numberChar (js text)).
  { intros text H. unfold js. by rewrite Forall_fmap. }
  assert (Hin : forall a : ascii,
            bool_decide (N_of_ascii a ∈ js "0123456789.-+eNaInfity") = true ->
            numberChar (N_of_ascii a)).
  { intros a. by rewrite bool_decide_eq_true. }
  assert (Forall numberChar (js "NaN") /\ Forall numberChar (js "0")
          /\ Forall numberChar (js "-") /\ Forall numberChar (js "Infinity")
          /\ Forall numberChar (js ".") /\ Forall numberChar (js "0.")
          /\ Forall numberChar (js "e-") /\ Forall numberChar (js "e+"))
    as (? & ? & ? & ? & ? & ? & ? & ?)
    by (split_and!; apply Hlit; repeat constructor; by apply Hin).
  assert (Hdigits : forall n, Forall numberChar (decimalDigits n)).
  { intros n. eapply Forall_impl; [apply decimalDigits_digits|]. apply numberChar_digit. }
  assert (Hzeros : forall n, Forall numberChar (zeros n)).
  { intros n. apply Forall_replicate. by apply numberChar_digit. }
  assert (Hsign : forall b : bool, Forall numberChar (if b then js "-" else [])).
  { intros []; [done | constructor]. }
  destruct (Prim2SF x) as [s|s| |s m e]; [done | by apply Forall_app | done |].
  destruct (shortestDigits _ _ _ _ _) as [digits n].
  assert (forall k, Forall numberChar (take k (decimalDigits digits)))
    by (intros; by apply Forall_take).
  assert (forall k, Forall numberChar (drop k (decimalDigits digits)))
    by (intros; by apply Forall_drop).
  cbv zeta. apply Forall_app; split; [done|].
  assert (forall ex : Z, Forall numberChar ((if ex <? 0 then js "e-" else js "e+")
                                              ++ decimalDigits (Z.abs ex))).
  { intros ex. apply Forall_app; split; [by destruct (ex <? 0) | apply Hdigits]. }
  repeat match goal with
         | |- Forall numberChar (if ?b then _ else _) => destruct b
         | |- Forall numberChar (_ ++ _) => apply Forall_app; split
         end;
    first [done | apply Hzeros | apply Hdigits | auto].
Qed.

(** ** Whole numbers up to 999 *)

(** The text of a whole number up to 999 is its decimal digits, and the
    digits are read back as the number. *)
Lemma roundTrips_small (n : Z) :
  0 <= n <= 999 ->
  Number_toString (ofZ n) = decimalDigits n
  /\ parseFloat (decimalDigits n) = ofZ n
  /\ Forall (fun c => isDigit c = true) (decimalDigits n)
  /\ decimalDigits n ≠ [].
Proof.
  intros Hn.
  assert (Hall : forallb roundTrips (seqZ 0 1000) = true) by (by vm_compute).
  rewrite forallb_forall in Hall.
  assert (Hin : In n (seqZ 0 1000)) by (apply list_elem_of_In, elem_of_seqZ; lia).
  specialize (Hall n Hin). unfold roundTrips in Hall.
  rewrite !andb_true_iff, !bool_decide_eq_true, negb_true_iff, bool_decide_eq_false in Hall.
  destruct Hall as [[[Htext Hparse] _] Hne].
  split_and!; [done | by apply FloatAxioms.Prim2SF_inj | apply decimalDigits_digits | done].
Qed.

(** X3: the wind speed the minimums check reads in a wind summary of the
    normaliser is the speed the normaliser wrote: when the speed in miles
    per hour times 0.868976 rounds to a whole number of knots from 0 to
    999, [parseWindSpeedKts] gives that number back, whatever the heading
    and in both copies of the normaliser. *)
Theorem parseWindSpeedKts_formatWinds (degreeMark : jsstring) (deg speedMph : number)
    (knots : Z) :
  degreeMark = Backend.degreeMark \/ degreeMark = WeatherService.degreeMark ->
  0 <= knots <= 999 ->
  Math_round (speedMph * 0.868976)%float = ofZ knots ->
  Dashboard.parseWindSpeedKts (Weather.formatWinds degreeMark (Some deg) (Some speedMph))
  = Some (ofZ knots).
Proof.
  intros Hmark Hrange Hknots. unfold Weather.formatWinds. cbv zeta. rewrite Hknots.
  destruct (roundTrips_small knots Hrange) as (-> & Hparse & Hdigits & Hne).
  set (heading := Number_toString (Math_round deg)).
  assert (Hheading : Forall numberChar heading) by apply Number_toString_alphabet.
  assert (Hmarks : Forall (fun c => notK c /\ upperAscii c ≠ 67%N) degreeMark).
  { destruct Hmark as [-> | ->]; repeat constructor; by vm_compute. }
  assert (Htext : Forall (fun c => notK c /\ upperAscii c ≠ 67%N) (heading ++ degreeMark)).
  { apply Forall_app. split; [|done]. eapply Forall_impl; [exact Hheading|].
    intros c Hc. destruct (numberChar_facts c Hc) as (? & ? & _). done. }
  unfold Dashboard.parseWindSpeedKts. rewrite test_calmPattern, mentions_calm_no_c.
  - change (js " at ") with ([32; 97]%N ++ [116; 32]%N).
    replace (heading ++ degreeMark ++ ([32; 97]%N ++ [116; 32]%N)
               ++ decimalDigits knots ++ js " kts")
      with (((heading ++ degreeMark) ++ [32%N])
              ++ 97%N :: ([116; 32]%N ++ decimalDigits knots ++ js " kts" ++ []))
      by (rewrite app_nil_r, <- !app_assoc; done).
    rewrite match_ktsPattern_skip, match_ktsPattern_skip_plain, match_ktsPattern_digits.
    + change (Some (parseFloat (decimalDigits knots)) = Some (ofZ knots)).
      by rewrite Hparse.
    + done.
    + done.
    + repeat constructor.
    + apply Forall_app. split; [apply Forall_app; split|].
      * eapply Forall_impl; [exact Htext|]. by intros c [? _].
      * repeat constructor; by vm_compute.
      * repeat constructor; by vm_compute.
    + by split.
  - rewrite !Forall_app. split_and!.
    + eapply Forall_impl; [exact Hheading|]. intros c Hc.
      by destruct (numberChar_facts c Hc) as (_ & ? & _).
    + eapply Forall_impl; [exact Hmarks|]. by intros c [_ ?].
    + repeat constructor; by vm_compute.
    + eapply Forall_impl; [exact Hdigits|]. intros c Hc.
      by destruct (numberChar_facts c (numberChar_digit c Hc)) as (_ & ? & _).
    + repeat constructor; by vm_compute.
Qed.

End ReadBack.

(** The hypotheses hold of a wind from 272.4 degrees at 10 miles per
    hour, which rounds to 9 knots. *)
Lemma parseWindSpeedKts_formatWinds_witness :
  Dashboard.parseWindSpeedKts (Backend.formatWinds (Some 272.4%float) (Some 10%float))
  = Some 9%float.
Proof.
  apply (parseWindSpeedKts_formatWinds Backend.degreeMark 272.4%float 10%float 9).
  - by left.
  - lia.
  - reflexivity.
Defined.

Section ReadBackVisibility.
Implicit Types (s rest digits : jsstring) (c : N).

Lemma takeDigits_all digits :
  Forall (fun c => isDigit c = true) digits -> takeDigits digits = (digits, []).
Proof. induction 1 as [|c ds Hc _ IH]; [done|]. cbn. by rewrite Hc, IH. Qed.

Lemma takeDigits_app digits c rest :
  Forall (fun c => isDigit c = true) digits -> isDigit c = false ->
  takeDigits (digits ++ c :: rest) = (digits, c :: rest).
Proof.
  intros Hds Hc. induction Hds as [|d ds Hd _ IH]; cbn; [by rewrite Hc|].
  by rewrite Hd, IH.
Qed.

Lemma foldl_digits (ds : jsstring) (a : Z) :
  foldl (fun acc c => 10 * acc + Z.of_N (c - 48)) a ds
  = a * 10 ^ Z.of_nat (length ds) + digitsValue ds.
Proof.
  unfold digitsValue. revert a. induction ds as [|d ds IH]; intros a; cbn [foldl length].
  - cbn. lia.
  - rewrite (IH (10 * a + _)), (IH (10 * 0 + _)).
    rewrite Nat2Z.inj_succ, Z.pow_succ_r by lia. lia.
Qed.

Lemma digitsValue_cons (d : N) (ds : jsstring) :
  digitsValue (d :: ds) = Z.of_N (d - 48) * 10 ^ Z.of_nat (length ds) + digitsValue ds.
Proof. unfold digitsValue at 1. cbn [foldl]. rewrite foldl_digits. lia. Qed.

Lemma digitsValue_app (ds1 ds2 : jsstring) :
  digitsValue (ds1 ++ ds2)
  = digitsValue ds1 * 10 ^ Z.of_nat (length ds2) + digitsValue ds2.
Proof. unfold digitsValue at 1. rewrite foldl_app, foldl_digits. done. Qed.

Lemma digitsValue_zeros (n : Z) : digitsValue (zeros n) = 0.
Proof.
  unfold zeros. induction (Z.to_nat n) as [|k IH]; [done|].
  cbn [replicate]. rewrite digitsValue_cons, IH. cbn. lia.
Qed.

(** The decimal digits of a number denote it. *)
Lemma digitsValue_digitsAux (fuel : nat) (n : Z) (acc : jsstring) :
  0 <= n < 2 ^ Z.of_nat fuel ->
  digitsValue (digitsAux fuel n acc) = n * 10 ^ Z.of_nat (length acc) + digitsValue acc.
Proof.
  revert n acc. induction fuel as [|fuel IH]; intros n acc Hn.
  - assert (n = 0) as -> by (cbn in Hn; lia). cbn [digitsAux]. by rewrite Z.mul_0_l.
  - cbn [digitsAux]. cbv zeta.
    assert (Hd : Z.of_N (48 + Z.to_N (n mod 10) - 48) = n mod 10)
      by (pose proof (Z.mod_pos_bound n 10); lia).
    destruct (Z.ltb_spec n 10) as [Hlt|Hge].
    + rewrite digitsValue_cons, Hd, Z.mod_small by lia. done.
    + rewrite IH.
      * rewrite digitsValue_cons, Hd. cbn [length].
        rewrite Nat2Z.inj_succ, Z.pow_succ_r by lia.
        pose proof (Z.div_mod n 10). lia.
      * rewrite Nat2Z.inj_succ, Z.pow_succ_r in Hn by lia.
        split; [apply Z.div_pos; lia|].
        apply Z.div_lt_upper_bound; lia.
Qed.

Lemma digitsValue_decimalDigits (n : Z) : 0 <= n -> digitsValue (decimalDigits n) = n.
Proof.
  intros Hn. unfold decimalDigits. rewrite digitsValue_digitsAux; [cbn; lia|].
  split; [done|]. destruct (decide (n = 0)) as [->|Hne]; [done|].
  rewrite Nat2Z.inj_succ, Z2Nat.id by apply Z.log2_nonneg.
  apply Z.log2_spec. lia.
Qed.

Lemma decimalDigits_nonempty (n : Z) : decimalDigits n ≠ [].
Proof.
  unfold decimalDigits. cbn [digitsAux]. cbv zeta.
  assert (forall fuel m acc, acc ≠ [] -> digitsAux fuel m acc ≠ []) as Hacc.
  { induction fuel as [|fuel IH]; intros m acc Hne; cbn; [done|].
    destruct (m <? 10); [done|]. by apply IH. }
  destruct (n <? 10); [done|]. by apply Hacc.
Qed.

(** A fixed-point text, digits, a dot and digits, is read as the number
    nearest to the digits over the power of ten. *)
Lemma parseFloat_fixedPoint (ip fp : jsstring) :
  ip ≠ [] -> fp ≠ [] ->
  Forall (fun c => isDigit c = true) ip -> Forall (fun c => isDigit c = true) fp ->
  parseFloat (ip ++ js "." ++ fp)
  = ofRatio (digitsValue (ip ++ fp)) (10 ^ Z.of_nat (length fp)).
Proof.
  intros Hip Hfp Hdi Hdf. destruct ip as [|d ip]; [done|].
  pose proof Hdi as Hdi'. apply Forall_cons in Hdi' as [Hd _].
  assert (Hrange : (48 <= d <= 57)%N)
    by (unfold isDigit, inRange in Hd; rewrite andb_true_iff, !N.leb_le in Hd; lia).
  unfold parseFloat. change (js ".") with [46%N].
  assert (trimStart ((d :: ip) ++ [46%N] ++ fp) = (d :: ip) ++ [46%N] ++ fp) as ->.
  { cbn. assert (isWhiteSpace d = false) as ->; [|done].
    unfold isWhiteSpace, inRange.
    rewrite !orb_false_iff, !andb_false_iff, !N.leb_gt, bool_decide_eq_false.
    split_and!; [lia | set_unfold; lia | lia]. }
  cbn [app]. rewrite !bool_decide_eq_false_2 by lia.
  rewrite bool_decide_eq_false_2.
  2: { change (js "Infinity") with (73%N :: js "nfinity"). cbn [take]. intros [= ->]. lia. }
  change (d :: ip ++ 46%N :: fp) with ((d :: ip) ++ 46%N :: fp).
  rewrite (takeDigits_app (d :: ip) 46%N fp Hdi eq_refl).
  rewrite bool_decide_eq_true_2 by done. rewrite (takeDigits_all fp Hdf).
  rewrite (bool_decide_eq_false_2 (d :: ip = [])) by done. cbn [andb].
  cbn [exponentPart].
  destruct fp as [|f fp]; [done|].
  destruct (Z.leb_spec 0 (0 - Z.of_nat (length (f :: fp)))) as [H|H];
    [cbn [length] in H; lia|].
  do 2 f_equal; lia.
Qed.

(** The first run of digits and dots of a text that starts with one. *)
Lemma firstNumericRun_prefix (token : jsstring) c rest :
  token ≠ [] -> Forall (fun c => Dashboard.isNumeric c = true) token ->
  Dashboard.isNumeric c = false ->
  firstNumericRun (token ++ c :: rest) = Some token.
Proof.
  intros Hne Htoken Hc. destruct token as [|d token]; [done|].
  apply Forall_cons in Htoken as [Hd Htoken].
  unfold firstNumericRun. cbn [app numericRuns]. rewrite Hd. cbn.
  by destruct (afterRun_whole Dashboard.isNumeric token c rest Htoken Hc) as [-> _].
Qed.

(** The text of a number in fixed notation with one decimal: digits, a
    dot and one digit, which denote the nearest number of tenths. *)
Lemma toFixed_one_decimal (x : number) (n : Z) :
  nearestTenths x = Some n -> n < 10 ^ 22 ->
  0 <= n
  /\ exists ip fp,
       toFixed x 1 = ip ++ js "." ++ fp
       /\ ip ≠ [] /\ length fp = 1%nat
       /\ Forall (fun c => isDigit c = true) ip /\ Forall (fun c => isDigit c = true) fp
       /\ digitsValue (ip ++ fp) = n.
Proof.
  intros Htenths Hbound.
  assert (Hfixed : 0 <= n -> 0 <= n /\ exists ip fp,
            (let ds := decimalDigits n in
             let ds := zeros (Z.of_nat 2 - Z.of_nat (length ds)) ++ ds in
             let k := length ds in
             take (k - 1) ds ++ js "." ++ drop (k - 1) ds) = ip ++ js "." ++ fp
            /\ ip ≠ [] /\ length fp = 1%nat
            /\ Forall (fun c => isDigit c = true) ip /\ Forall (fun c => isDigit c = true) fp
            /\ digitsValue (ip ++ fp) = n).
  { intros Hn. split; [done|]. cbv zeta.
    set (ds := zeros (Z.of_nat 2 - Z.of_nat (length (decimalDigits n))) ++ decimalDigits n).
    assert (Hlen : (2 <= length ds)%nat).
    { unfold ds, zeros. rewrite length_app, length_replicate. lia. }
    assert (Hds : Forall (fun c => isDigit c = true) ds).
    { apply Forall_app. split; [by apply Forall_replicate | apply decimalDigits_digits]. }
    exists (take (length ds - 1) ds), (drop (length ds - 1) ds). split_and!.
    - done.
    - intros Hnil. apply (f_equal length) in Hnil. rewrite length_take in Hnil.
      cbn in Hnil. lia.
    - rewrite length_drop. lia.
    - by apply Forall_take.
    - by apply Forall_drop.
    - rewrite take_drop. unfold ds.
      rewrite digitsValue_app, digitsValue_zeros, digitsValue_decimalDigits by done. lia. }
  unfold nearestTenths in Htenths. unfold toFixed.
  destruct (Prim2SF x) as [sg|sg| |sg m e]; try done.
  - injection Htenths as <-. by apply Hfixed.
  - destruct sg; [done|]. injection Htenths as Hn.
    destruct (Z.leb_spec 0 e) as [He|He]; cbn [andb].
    + rewrite (proj2 (Z.leb_gt (10 ^ 21) (Z.pos m * 2 ^ e))) by lia.
      cbn [app]. change (Z.of_nat 1) with 1. change (10 ^ 1) with 10. rewrite Hn.
      apply Hfixed. rewrite <- Hn. pose proof (Z.pow_pos_nonneg 2 e). lia.
    + cbn [app]. change (Z.of_nat 1) with 1. change (10 ^ 1) with 10. rewrite Hn.
      apply Hfixed. rewrite <- Hn. apply Z.div_pos; pose proof (Z.pow_pos_nonneg 2 (- e)); lia.
Qed.

(** X4: the visibility the minimums check reads in a visibility summary
    of the normaliser is the visibility rounded to tenths: for a number
    of statute miles that is finite, not negative and below 10^21,
    [parseVisibilityMiles] gives the number nearest to the nearest number
    of tenths over ten; the sub-check is not skipped. *)
Theorem parseVisibilityMiles_formatVisibility (visibilityMeters : number) (tenths : Z) :
  nearestTenths (visibilityMeters / 1609.34)%float = Some tenths ->
  tenths < 10 ^ 22 ->
  Dashboard.parseVisibilityMiles (Weather.formatVisibility (Some visibilityMeters))
  = Some (ofRatio tenths 10).
Proof.
  intros Htenths Hbound. unfold Weather.formatVisibility. cbv zeta.
  destruct (toFixed_one_decimal _ _ Htenths Hbound)
    as (_ & ip & fp & -> & Hip & Hfp & Hdi & Hdf & Hvalue).
  rewrite parseVisibilityMiles_run.
  change (js " sm") with (32%N :: js "sm").
  assert (Hnumeric : forall digits, Forall (fun c => isDigit c = true) digits ->
            Forall (fun c => Dashboard.isNumeric c = true) digits).
  { intros digits Hd. eapply Forall_impl; [exact Hd|]. intros c Hc.
    unfold Dashboard.isNumeric. by rewrite Hc. }
  rewrite firstNumericRun_prefix.
  - cbn [fmap option_fmap option_map]. rewrite parseFloat_fixedPoint; try done.
    + rewrite Hvalue, Hfp. done.
    + by destruct fp.
  - by destruct ip.
  - apply Forall_app. split; [by apply Hnumeric|].
    change (js ".") with [46%N]. constructor; [done | by apply Hnumeric].
  - done.
Qed.

End ReadBackVisibility.

(** The hypotheses hold of 8046.7 m, which are 5.0 statute miles: 50
    tenths. *)
Lemma parseVisibilityMiles_formatVisibility_witness :
  Dashboard.parseVisibilityMiles (Backend.formatVisibility (Some 8046.7%float))
  = Some 5%float.
Proof.
  apply (parseVisibilityMiles_formatVisibility 8046.7%float 50).
  - reflexivity.
  - reflexivity.
Defined.

(* ===================================================================== *)
(** * The two copies of the normaliser *)
(* ===================================================================== *)

Section NormaliserCopies.

(** Whatever the numbers, the wind speed read in a wind summary of the
    normaliser is what the pattern finds in the text of the knots and the
    marker: the heading and the degree mark play no part. *)
Lemma parseWindSpeedKts_formatWinds_text (degreeMark : jsstring) (deg speedMph : number) :
  degreeMark = Backend.degreeMark \/ degreeMark = WeatherService.degreeMark ->
  Dashboard.parseWindSpeedKts (Weather.formatWinds degreeMark (Some deg) (Some speedMph))
  = Dashboard.parseGroup
      <$> String_match Dashboard.ktsPattern
            (Number_toString (Math_round (speedMph * 0.868976)%float) ++ js " kts").
Proof.
  intros Hmark. unfold Weather.formatWinds. cbv zeta.
  set (heading := Number_toString (Math_round deg)).
  set (knots := Number_toString (Math_round (speedMph * 0.868976)%float)).
  assert (Hheading : Forall numberChar heading) by apply Number_toString_alphabet.
  assert (Hknots : Forall numberChar knots) by apply Number_toString_alphabet.
  assert (Hmarks : Forall (fun c => notK c /\ upperAscii c ≠ 67%N) degreeMark).
  { destruct Hmark as [-> | ->]; repeat constructor; by vm_compute. }
  unfold Dashboard.parseWindSpeedKts. rewrite test_calmPattern, mentions_calm_no_c.
  - change (js " at ") with ([32; 97]%N ++ [116; 32]%N).
    replace (heading ++ degreeMark ++ ([32; 97]%N ++ [116; 32]%N) ++ knots ++ js " kts")
      with (((heading ++ degreeMark) ++ [32%N])
              ++ 97%N :: ([116; 32]%N ++ knots ++ js " kts"))
      by (rewrite <- !app_assoc; done).
    rewrite match_ktsPattern_skip, match_ktsPattern_skip_plain.
    + done.
    + repeat constructor.
    + rewrite !Forall_app. split_and!.
      * eapply Forall_impl; [exact Hheading|]. intros c Hc.
        by destruct (numberChar_facts c Hc) as (? & _).
      * eapply Forall_impl; [exact Hmarks|]. by intros c [? _].
      * repeat constructor; by vm_compute.
      * repeat constructor; by vm_compute.
    + by split.
  - rewrite !Forall_app. split_and!.
    + eapply Forall_impl; [exact Hheading|]. intros c Hc.
      by destruct (numberChar_facts c Hc) as (_ & ? & _).
    + eapply Forall_impl; [exact Hmarks|]. by intros c [_ ?].
    + repeat constructor; by vm_compute.
    + eapply Forall_impl; [exact Hknots|]. intros c Hc.
      by destruct (numberChar_facts c Hc) as (_ & ? & _).
    + repeat constructor; by vm_compute.
Qed.

(** X7: the minimums check does not depend on the copy of the normaliser
    that made the reading.  Of a provider record with a wind (a heading
    and a speed) the backend and the portal's weather service make
    readings with different wind summaries, the one with the degree sign
    and the other with two code units in its place; every student meets
    the minimums on the one reading exactly when on the other. *)
Theorem minimums_verdict_ignores_degree_mark (unicodeUpper : N -> jsstring)
    (payload : OpenWeather.Entry) (reading reading' : WeatherData.t) (student : Student.t) :
  Backend.mapCurrentWeather unicodeUpper payload = Ok reading ->
  WeatherService.mapForecastEntry unicodeUpper payload = Ok reading' ->
  Dashboard.meetsStudentMinimums student reading
  = Dashboard.meetsStudentMinimums student reading'
  /\ (is_Some (OpenWeather.wind payload ≫= OpenWeather.deg) ->
      is_Some (OpenWeather.wind payload ≫= OpenWeather.speed) ->
      WeatherData.winds reading ≠ WeatherData.winds reading').
Proof.
  unfold Backend.mapCurrentWeather, WeatherService.mapForecastEntry,
    Weather.mapForecastEntry, Weather.mapCurrentWeather.
  destruct (Weather.buildSkySummary _ _) as [sky|e]; cbn [JS.bind]; [|done].
  intros [= <-] [= <-]. split.
  - unfold Dashboard.meetsStudentMinimums.
    cbn [WeatherData.winds WeatherData.visibility WeatherData.conditions].
    destruct (OpenWeather.wind payload ≫= OpenWeather.deg) as [deg|]; [|done].
    destruct (OpenWeather.wind payload ≫= OpenWeather.speed) as [speedMph|]; [|done].
    rewrite !parseWindSpeedKts_formatWinds_text by auto. done.
  - intros [deg ->] [speedMph ->]. cbn [WeatherData.winds]. unfold Weather.formatWinds.
    cbv zeta. intros Heq. by apply app_inv_head in Heq.
Qed.

End NormaliserCopies.

(** The hypotheses hold of the sample record, which has a wind of 10 mph
    from 272.4 degrees: the private pilot meets the minimums on both
    readings. *)
Lemma minimums_verdict_ignores_degree_mark_witness :
  exists reading reading',
    Backend.mapCurrentWeather Samples.noUnicodeUpper Samples.rawRecord = Ok reading
    /\ WeatherService.mapForecastEntry Samples.noUnicodeUpper Samples.rawRecord = Ok reading'
    /\ Dashboard.meetsStudentMinimums (Samples.student PrivatePilot) reading = true
    /\ Dashboard.meetsStudentMinimums (Samples.student PrivatePilot) reading' = true
    /\ WeatherData.winds reading ≠ WeatherData.winds reading'.
Proof.
  eexists _, _. split; [by vm_compute|]. split; [by vm_compute|].
  match goal with
  | |- Dashboard.meetsStudentMinimums _ ?r = _ /\ Dashboard.meetsStudentMinimums _ ?r' = _ /\ _ =>
      destruct (minimums_verdict_ignores_degree_mark Samples.noUnicodeUpper Samples.rawRecord
                  r r' (Samples.student PrivatePilot)) as [Hsame Hdiffer];
        [by vm_compute | by vm_compute |]
  end.
  split; [by vm_compute|]. split; [by vm_compute|].
  apply Hdiffer; by eexists.
Defined.

(* ===================================================================== *)
(** * Further properties of the backend's forecast handler *)
(* ===================================================================== *)

Section ForecastHandlerFacts.
Variable unicodeUpper : N -> jsstring.
Variable openWeatherApiKey : option jsstring.

(** [parseInt] reads the decimal digits of a number back. *)
Lemma parseInt10_decimalDigits (n : Z) :
  0 <= n -> Backend.parseInt10 (decimalDigits n) = Some n.
Proof.
  intros Hn. unfold Backend.parseInt10.
  pose proof (decimalDigits_digits n) as Hdigits.
  pose proof (decimalDigits_nonempty n) as Hne.
  destruct (decimalDigits n) as [|d ds] eqn:Hds; [done|].
  pose proof Hdigits as Hd. apply Forall_cons in Hd as [Hd _].
  assert (Hrange : (48 <= d <= 57)%N)
    by (unfold isDigit, inRange in Hd; rewrite andb_true_iff, !N.leb_le in Hd; lia).
  assert (trimStart (d :: ds) = d :: ds) as ->.
  { cbn. assert (isWhiteSpace d = false) as ->; [|done].
    unfold isWhiteSpace, inRange.
    rewrite !orb_false_iff, !andb_false_iff, !N.leb_gt, bool_decide_eq_false.
    split_and!; [lia | set_unfold; lia | lia]. }
  rewrite !bool_decide_eq_false_2 by lia.
  rewrite (takeDigits_all (d :: ds) Hdigits).
  rewrite bool_decide_eq_false_2 by done.
  by rewrite <- Hds, digitsValue_decimalDigits.
Qed.

(** X5: the day count of the forecast handler lies between 1 and 7 for
    every [days] parameter; it is 3 without the parameter; and for the
    parameter that is the decimal text of a whole number [n] it is 3 when
    [n] is 0 (not 1) and the smaller of [n] and 7 otherwise. *)
Theorem daysInt_range_and_default (days : option jsstring) (n : nat) :
  1 <= Backend.daysInt days <= 7
  /\ Backend.daysInt None = 3
  /\ Backend.daysInt (Some (decimalDigits (Z.of_nat n)))
     = if bool_decide (n = 0%nat) then 3 else Z.min (Z.of_nat n) 7.
Proof.
  split; [|split].
  - unfold Backend.daysInt. cbv zeta. lia.
  - reflexivity.
  - unfold Backend.daysInt.
    change (default (js "3") (Some (decimalDigits (Z.of_nat n))))
      with (decimalDigits (Z.of_nat n)).
    rewrite parseInt10_decimalDigits by lia. cbv zeta.
    case_bool_decide as Hn; [by subst|].
    rewrite (proj2 (Z.eqb_neq _ _)) by lia. lia.
Qed.

(** The summaries of an aggregation are at most as many as the days asked
    for. *)
Lemma summarizeForecast_length (degreeMark : jsstring) entries (maxDays : Z) readings :
  1 <= maxDays ->
  Weather.summarizeForecast unicodeUpper degreeMark entries maxDays = Ok readings ->
  Z.of_nat (length readings) <= maxDays.
Proof.
  intros Hmax Hok.
  destruct (summarizeForecast_Ok unicodeUpper degreeMark entries maxDays readings Hmax Hok)
    as [_ Hall].
  rewrite <- (Forall2_length _ _ _ Hall), length_take. lia.
Qed.

(** X6: the forecast handler answers 400 exactly when [lat] or [lon] is
    missing or empty, whatever the key and the provider; it answers 200
    only with the key configured and data from the provider, asked for 8
    entries a day, and then with at most as many daily summaries as the
    day count, so never more than 7; every other answer is a 500 with the
    handler's error text and details. *)
Theorem forecastHandler_answers (lat lon days : option jsstring)
    (axios : Z -> Backend.AxiosOutcome) :
  let response := Backend.forecastHandler unicodeUpper openWeatherApiKey lat lon days axios in
  (Backend.status response = 400 <-> default [] lat = [] \/ default [] lon = [])
  /\ (Backend.status response = 200 ->
      exists key list dailySummaries,
        openWeatherApiKey = Some key /\ key ≠ []
        /\ axios (Backend.daysInt days * 8) = Backend.AxiosData list
        /\ Backend.body response = Backend.ForecastBody dailySummaries
        /\ Z.of_nat (length dailySummaries) <= Backend.daysInt days <= 7)
  /\ (Backend.status response ≠ 400 -> Backend.status response ≠ 200 ->
      Backend.status response = 500
      /\ exists details,
           Backend.body response
           = Backend.ErrorBody (js "Unable to fetch forecast weather") (Some details)).
Proof.
  intros response. subst response. unfold Backend.forecastHandler.
  assert (Hdays : 1 <= Backend.daysInt days <= 7)
    by (unfold Backend.daysInt; cbv zeta; lia).
  assert (H400 : forall body, default [] lat = [] \/ default [] lon = [] ->
            let r := Backend.mkResponse 400 body in
            (Backend.status r = 400 <-> default [] lat = [] \/ default [] lon = [])
            /\ (Backend.status r = 200 ->
                exists key list dailySummaries,
                  openWeatherApiKey = Some key /\ key ≠ []
                  /\ axios (Backend.daysInt days * 8) = Backend.AxiosData list
                  /\ Backend.body r = Backend.ForecastBody dailySummaries
                  /\ Z.of_nat (length dailySummaries) <= Backend.daysInt days <= 7)
            /\ (Backend.status r ≠ 400 -> Backend.status r ≠ 200 ->
                Backend.status r = 500
                /\ exists details,
                     Backend.body r
                     = Backend.ErrorBody (js "Unable to fetch forecast weather")
                         (Some details))).
  { intros body Hmissing. cbn [Backend.status Backend.body].
    split; [done|]. split; [done|]. by intros []. }
  destruct (bool_decide_reflect (default [] lat = [])) as [Hlat|Hlat];
    [apply H400; by left|].
  destruct (bool_decide_reflect (default [] lon = [])) as [Hlon|Hlon];
    [apply H400; by right|].
  clear H400. cbn [orb]. cbv zeta.
  assert (H500 : forall details (P : Prop),
            let r := Backend.mkResponse 500
                       (Backend.ErrorBody (js "Unable to fetch forecast weather")
                          (Some details)) in
            (Backend.status r = 400 <-> default [] lat = [] \/ default [] lon = [])
            /\ (Backend.status r = 200 -> P)
            /\ (Backend.status r ≠ 400 -> Backend.status r ≠ 200 ->
                Backend.status r = 500
                /\ exists details,
                     Backend.body r
                     = Backend.ErrorBody (js "Unable to fetch forecast weather")
                         (Some details))).
  { intros details P. cbn [Backend.status Backend.body].
    split; [split; [done | by intros [|]]|].
    split; [done|]. intros _ _. split; [done|]. by eexists. }
  destruct openWeatherApiKey as [key|]; [|apply H500].
  destruct (bool_decide_reflect (key = [])) as [Hkey|Hkey]; [apply H500|].
  destruct (axios _) as [list|e [data|]] eqn:Haxios; [|apply H500..].
  destruct (Weather.summarizeForecast _ _ _ _) as [dailySummaries|e] eqn:Hsum;
    [|apply H500].
  cbn [Backend.status Backend.body]. split; [split; [done | by intros [|]]|].
  split; [|done].
  intros _. exists key, list, dailySummaries.
  split; [done|]. split; [done|]. split; [done|].
  split; [done|]. split; [|lia].
  eapply summarizeForecast_length; [|exact Hsum]. lia.
Qed.

End ForecastHandlerFacts.

(* ===================================================================== *)
(** * The current-weather requests *)
(* ===================================================================== *)

Section CurrentWeatherFacts.
Variable unicodeUpper : N -> jsstring.

(** The error of the normaliser is the TypeError of the empty
    description. *)
Lemma mapCurrentWeather_error (degreeMark : jsstring) (payload : OpenWeather.Entry)
    (e : Error) :
  Weather.mapCurrentWeather unicodeUpper degreeMark payload = Throw e ->
  e = TypeError (js "Cannot read properties of undefined (reading 'toUpperCase')").
Proof.
  unfold Weather.mapCurrentWeather, Weather.buildSkySummary.
  case_bool_decide; [done|].
  assert (Hthrow : forall ds e', mapM (Weather.capitalize unicodeUpper) ds = Throw e' ->
            e' = TypeError (js "Cannot read properties of undefined (reading 'toUpperCase')")).
  { induction ds as [|d ds IH]; intros e'; [done|]. cbn.
    destruct d as [|c d]; cbn; [by intros [= <-]|].
    destruct (mapM _ ds) as [rs|e'']; cbn; [done|]. intros [= <-]. by apply IH. }
  destruct (mapM _ _) as [parts|e'] eqn:Hparts; cbn; [done|].
  intros [= <-]. by apply Hthrow in Hparts.
Qed.

(** X8: [fetchCurrentWeather] returns [null] exactly when the key is
    missing or empty, the request is rejected, the response is not ok, or
    the record read carries an empty condition description; otherwise it
    returns the record normalised. *)
Theorem fetchCurrentWeather_null_iff (apiKey : option jsstring)
    (openWeather : jsstring -> jsstring -> CurrentWeather.CurrentFetch) (lat lon : number) :
  let answer := openWeather (Number_toString lat) (Number_toString lon) in
  match CurrentWeather.fetchCurrentWeather unicodeUpper apiKey openWeather lat lon with
  | None =>
      default [] apiKey = []
      \/ (exists e, answer = CurrentWeather.FetchRejected e)
      \/ (exists status, answer = CurrentWeather.FetchNotOk status)
      \/ (exists data, answer = CurrentWeather.FetchData data
                       /\ [] ∈ Weather.descriptionList data)
  | Some weather =>
      default [] apiKey ≠ []
      /\ exists data,
           answer = CurrentWeather.FetchData data
           /\ ([] ∉ Weather.descriptionList data)
           /\ Weather.mapCurrentWeather unicodeUpper WeatherService.degreeMark data
              = Ok weather
  end.
Proof.
  intros answer. subst answer.
  unfold CurrentWeather.fetchCurrentWeather, CurrentWeather.fetchCurrentWeather_body,
    WeatherService.ensureApiKey.
  destruct apiKey as [key|]; [|by left].
  destruct (bool_decide_reflect (key = [])) as [Hkey|Hkey]; [by left|].
  cbn [JS.bind default].
  destruct (openWeather _ _) as [e|status|data]; [right; left; by eexists
                                                  | right; right; left; by eexists |].
  destruct (Weather.mapCurrentWeather _ _ data) as [weather|e] eqn:Hmap;
    pose proof (mapCurrentWeather_throws_iff unicodeUpper WeatherService.degreeMark data)
      as Hthrows.
  - split; [done|]. exists data. split; [done|]. split; [|done].
    intros Hin. apply Hthrows in Hin as [e He]. congruence.
  - right; right; right. exists data. split; [done|]. apply Hthrows. by exists e.
Qed.

(** X9: the [/api/weather/current] handler answers 400 exactly when
    [lat] or [lon] is missing or empty; it answers 200, with the record
    normalised, exactly when moreover the key is configured, the provider
    answers with a record, and the record carries no empty condition
    description; a record with an empty description is answered with 500
    and the text of the TypeError as details. *)
Theorem currentHandler_answers (openWeatherApiKey : option jsstring)
    (lat lon : option jsstring) (axios : CurrentWeather.AxiosOutcome) :
  let response := CurrentWeather.currentHandler unicodeUpper openWeatherApiKey lat lon axios in
  let given := default [] lat ≠ [] /\ default [] lon ≠ [] in
  (CurrentWeather.status response = 400 <-> ¬ given)
  /\ (CurrentWeather.status response = 200
      <-> given /\ default [] openWeatherApiKey ≠ []
          /\ exists data, axios = CurrentWeather.AxiosData data
                          /\ ([] ∉ Weather.descriptionList data))
  /\ (forall weather, response = CurrentWeather.WeatherResponse weather ->
      exists data, axios = CurrentWeather.AxiosData data
                   /\ Backend.mapCurrentWeather unicodeUpper data = Ok weather)
  /\ (forall data, given -> default [] openWeatherApiKey ≠ [] ->
      axios = CurrentWeather.AxiosData data -> [] ∈ Weather.descriptionList data ->
      response
      = CurrentWeather.ErrorResponse 500 (js "Unable to fetch current weather")
          (Some (JStr (js "Cannot read properties of undefined (reading 'toUpperCase')")))).
Proof.
  intros response given. subst response given.
  unfold CurrentWeather.currentHandler.
  destruct (bool_decide_reflect (default [] lat = [])) as [Hlat|Hlat].
  { cbn [orb CurrentWeather.status]. split; [|split; [|split]].
    - split; [by intros _ [? _] | done].
    - split; [done | by intros [[? _] _]].
    - by intros weather [=].
    - by intros data [? _]. }
  destruct (bool_decide_reflect (default [] lon = [])) as [Hlon|Hlon].
  { cbn [orb CurrentWeather.status]. split; [|split; [|split]].
    - split; [by intros _ [_ ?] | done].
    - split; [done | by intros [[_ ?] _]].
    - by intros weather [=].
    - by intros data [_ ?]. }
  cbn [orb]. cbv zeta.
  assert (Hgiven : default [] lat ≠ [] /\ default [] lon ≠ []) by done.
  destruct openWeatherApiKey as [key|].
  2: { cbn [CurrentWeather.status default]. split; [|split; [|split]].
       - split; [done | by intros []].
       - split; [done | by intros (_ & ? & _)].
       - by intros weather [=].
       - by intros data _ ?. }
  destruct (bool_decide_reflect (key = [])) as [Hkey|Hkey].
  { cbn [CurrentWeather.status default]. split; [|split; [|split]].
    - split; [done | by intros []].
    - split; [done | by intros (_ & ? & _)].
    - by intros weather [=].
    - by intros data _ ?. }
  cbn [default].
  destruct axios as [data|e [details|]].
  2,3: cbn [CurrentWeather.status]; (split; [|split; [|split]]);
       [ split; [done | by intros []]
       | split; [done | by intros (_ & _ & ? & ? & _)]
       | by intros weather [=]
       | by intros data _ _ ? ].
  unfold Backend.mapCurrentWeather in *.
  destruct (Weather.mapCurrentWeather _ _ data) as [weather|e] eqn:Hmap;
    pose proof (mapCurrentWeather_throws_iff unicodeUpper Backend.degreeMark data)
      as Hthrows.
  - assert (Hdescr : [] ∉ Weather.descriptionList data).
    { intros Hin. apply Hthrows in Hin as [e He]. congruence. }
    cbn [CurrentWeather.status]. split; [|split; [|split]].
    + split; [done | by intros []].
    + split; [|done]. intros _. split; [done|]. split; [done|]. by exists data.
    + intros weather' [= <-]. by exists data.
    + by intros data' _ _ [= <-] Hin.
  - pose proof (mapCurrentWeather_error _ _ _ Hmap) as ->.
    cbn [CurrentWeather.status message]. split; [|split; [|split]].
    + split; [done | by intros []].
    + split; [done|]. intros (_ & _ & data' & [= <-] & Hdescr).
      destruct Hdescr. apply Hthrows. eexists. exact Hmap.
    + by intros weather [=].
    + done.
Qed.

End CurrentWeatherFacts.

(* ===================================================================== *)
(** * When the forecast is lost *)
(* ===================================================================== *)

Section ForecastFailure.
Variable unicodeUpper : N -> jsstring.

Lemma mapM_throws_iff {A B} (f : A -> Result B) (l : list A) :
  (exists e, mapM f l = Throw e) <-> Exists (fun a => exists e, f a = Throw e) l.
Proof.
  induction l as [|a l IH]; cbn.
  - split; [by intros [e ?] | by intros ?%Exists_nil].
  - rewrite Exists_cons, <- IH. destruct (f a) as [b|e]; cbn.
    + destruct (mapM f l) as [bs|e]; cbn.
      * split; [by intros [e ?] | by intros [[e ?]|[e ?]]].
      * split; [intros _; right; by eexists | intros _; by eexists].
    + split; [intros _; left; by eexists | intros _; by eexists].
Qed.

(** The aggregation throws exactly when an entry has an invalid time, or
    the midday entry of one of the first [maxDays] dates carries an empty
    condition description. *)
Lemma summarizeForecast_throws_iff (degreeMark : jsstring) entries (maxDays : Z) :
  1 <= maxDays ->
  (exists e, Weather.summarizeForecast unicodeUpper degreeMark entries maxDays = Throw e)
  <-> ¬ Forall validEntry entries
      \/ exists date entry,
           date ∈ take (Z.to_nat maxDays) (firstOccurrences (entryDate <$> entries))
           /\ Weather.middayEntry (entriesOn date entries) = Some entry
           /\ [] ∈ Weather.descriptionList entry.
Proof.
  intros Hmax. rewrite summarizeForecast_spec by done.
  destruct (decide (Forall validEntry entries)) as [Hvalid|Hinvalid].
  2: { split; [by left | intros _; by eexists]. }
  unfold groupsByDate. rewrite <- list_fmap_compose, <- fmap_take.
  rewrite mapM_throws_iff, Exists_fmap, Exists_exists.
  split.
  - intros (date & Hdate & e & He). right. cbn in He. unfold summaryOf in He.
    destruct (Weather.middayEntry (entriesOn date entries)) as [entry|] eqn:Hentry.
    + exists date, entry. split; [done|]. split; [done|].
      apply (mapCurrentWeather_throws_iff unicodeUpper degreeMark). by exists e.
    + destruct (middayEntry_is_Some (entriesOn date entries)) as [entry Hsome].
      * apply entriesOn_nonempty. eapply elem_of_sublist; [exact Hdate | apply sublist_take].
      * congruence.
  - intros [Hinvalid | (date & entry & Hdate & Hentry & Hdescr)]; [done|].
    exists date. split; [done|]. cbn. unfold summaryOf. rewrite Hentry.
    by apply (mapCurrentWeather_throws_iff unicodeUpper degreeMark).
Qed.

(** X10: [fetchWeatherForecast] loses the whole forecast, returning the
    empty list from its [catch], exactly when the key is missing or empty,
    the request is rejected, the response is not ok, an entry of the list
    has an invalid time, or the midday entry of one of the first days
    carries an empty condition description: one such entry empties the
    forecast of all days. *)
Theorem fetchWeatherForecast_throws_iff (apiKey : option jsstring)
    (openWeather : jsstring -> jsstring -> WeatherService.ForecastFetch)
    (lat lon : number) (days : Z) :
  let answer := openWeather (Number_toString lat) (Number_toString lon) in
  let maxDays := Z.min (Z.max days 1) 7 in
  ((exists e, WeatherService.fetchWeatherForecast_body unicodeUpper apiKey openWeather
                lat lon days = Throw e)
   <-> default [] apiKey = []
       \/ (exists e, answer = WeatherService.FetchRejected e)
       \/ (exists status, answer = WeatherService.FetchNotOk status)
       \/ (exists list, answer = WeatherService.FetchData list
             /\ (¬ Forall validEntry (default [] list)
                 \/ exists date entry,
                      date ∈ take (Z.to_nat maxDays)
                               (firstOccurrences (entryDate <$> default [] list))
                      /\ Weather.middayEntry (entriesOn date (default [] list)) = Some entry
                      /\ [] ∈ Weather.descriptionList entry)))
  /\ ((exists e, WeatherService.fetchWeatherForecast_body unicodeUpper apiKey openWeather
                   lat lon days = Throw e) ->
      WeatherService.fetchWeatherForecast unicodeUpper apiKey openWeather lat lon days = []).
Proof.
  intros answer maxDays. subst answer.
  split; [|intros [e He]; unfold WeatherService.fetchWeatherForecast; by rewrite He].
  unfold WeatherService.fetchWeatherForecast_body, WeatherService.ensureApiKey.
  destruct apiKey as [key|]; [|split; [by left | intros _; by eexists]].
  destruct (bool_decide_reflect (key = [])) as [Hkey|Hkey];
    [split; [by left | intros _; by eexists]|].
  cbn [JS.bind default].
  destruct (openWeather _ _) as [e|status|list].
  - split; [intros _; right; left; by eexists | intros _; by eexists].
  - split; [intros _; right; right; left; by eexists | intros _; by eexists].
  - fold maxDays. rewrite (summarizeForecast_throws_iff WeatherService.degreeMark)
      by (unfold maxDays; lia).
    split.
    + intros H. right; right; right. by exists list.
    + intros [? | [[e [=]] | [[status [=]] | (list' & [= <-] & H)]]]; done.
Qed.

End ForecastFailure.

(* ===================================================================== *)
(** * The fenced block of the advisory reply *)
(* ===================================================================== *)

Section ExtractJson.
Implicit Types (s t pre body post payload : jsstring) (c : N).

Lemma trimStart_afterRun s : trimStart s = afterRun isWhiteSpace s.
Proof. induction s as [|c s IH]; [done|]. cbn. by rewrite IH. Qed.

(** A greedy quantifier whose continuation, when it fails on a text,
    fails on the text with one more code unit of the class before it,
    hands the continuation the text after the whole run. *)
Lemma starGreedy_monotone {R : Type} (p : N -> bool) (k : jsstring -> option R) s :
  (forall c s', p c = true -> k s' = None -> k (c :: s') = None) ->
  starGreedy p k s = k (afterRun p s).
Proof.
  intros Hk.
  assert (Hrun : forall s, k (afterRun p s) = None -> k s = None).
  { induction s0 as [|c s0 IH]; [done|]. cbn. destruct (p c) eqn:Hc; [|done].
    intros Hnone. by apply Hk, IH. }
  induction s as [|c s IH]; [done|]. cbn.
  destruct (p c) eqn:Hc; [|done]. rewrite IH.
  destruct (k (afterRun p s)) eqn:Hrest; [done|]. by apply Hk, Hrun.
Qed.

Lemma startsWith_fence_cons c s :
  c ≠ 96%N -> startsWithIgnoringCase fence (c :: s) = false.
Proof.
  intros Hc. unfold startsWithIgnoringCase, fence. apply bool_decide_eq_false_2.
  change (js "```") with [96; 96; 96]%N. cbn [length take fmap list_fmap].
  change (upperAscii 96) with 96%N. intros [= Hup _]. revert Hup.
  unfold upperAscii, isLowerAscii, inRange.
  destruct (N.leb_spec 97 c), (N.leb_spec c 122); cbn; lia.
Qed.

Lemma startsWith_fence_app post :
  startsWithIgnoringCase fence (fence ++ post) = true.
Proof. unfold startsWithIgnoringCase, fence. by apply bool_decide_eq_true_2. Qed.

(** The text before the first fence, for a text without backticks that a
    fence follows. *)
Lemma untilFence_app body post :
  Forall (fun c => c ≠ 96%N) body -> untilFence (body ++ fence ++ post) = Some body.
Proof.
  induction 1 as [|c body Hc _ IH].
  - cbn [app]. destruct post; by cbn.
  - cbn [app untilFence]. rewrite startsWith_fence_cons by done. by rewrite IH.
Qed.

Lemma untilFence_cons_None c s :
  c ≠ 96%N -> untilFence s = None -> untilFence (c :: s) = None.
Proof. intros Hc Hs. cbn [untilFence]. rewrite startsWith_fence_cons by done. by rewrite Hs. Qed.

Lemma untilFence_suffix (taken t : jsstring) :
  untilFence (taken ++ t) = None -> untilFence t = None.
Proof.
  induction taken as [|c taken IH]; [done|]. cbn [app untilFence].
  destruct (startsWithIgnoringCase fence _); [done|].
  destruct (untilFence (taken ++ t)); [done|]. intros _. by apply IH.
Qed.

(** The lazy capture before the closing fence is the text before the
    first fence. *)
Lemma starLazy_fence (whole taken t : jsstring) :
  whole = taken ++ t ->
  starLazy (fun _ => true)
    (fun s' => match litMatch true fence s' with
               | Some _ => Some (Some (take (length whole - length s') whole))
               | None => None
               end) t
  = (fun inner => Some (taken ++ inner)) <$> untilFence t.
Proof.
  revert taken. induction t as [|c t IH]; intros taken Hwhole.
  - cbn [starLazy untilFence]. rewrite litMatch_ignoreCase.
    assert (startsWithIgnoringCase fence [] = false) as -> by done. done.
  - cbn [starLazy untilFence]. rewrite litMatch_ignoreCase.
    destruct (startsWithIgnoringCase fence (c :: t)) eqn:Hstart.
    + cbn [fmap option_fmap option_map]. do 2 f_equal.
      rewrite Hwhole, length_app, app_nil_r.
      replace (length taken + length (c :: t) - length (c :: t))%nat
        with (length taken) by lia.
      by rewrite take_app_length.
    + rewrite (IH (taken ++ [c])) by (by rewrite <- app_assoc).
      destruct (untilFence t) as [inner|]; cbn [fmap option_fmap option_map]; [|done].
      by rewrite <- app_assoc.
Qed.

(** The pattern of [extractJson] at a text that starts with a fence: an
    optional [json], white space, and the text before the next fence. *)
Lemma rmatch_fencePattern (rest : jsstring) :
  rmatch Backend.fencePattern (fence ++ rest) None (fun _ cap => Some cap)
  = let content :=
      if startsWithIgnoringCase (js "json") rest then drop 4 rest else rest in
    Some <$> untilFence (afterRun isWhiteSpace content).
Proof.
  unfold Backend.fencePattern. cbn [rmatch].
  rewrite litMatch_ignoreCase.
  change (js "```") with fence. rewrite startsWith_fence_app.
  change (drop (length fence) (fence ++ rest)) with rest.
  assert (Hcontent : forall t,
            starGreedy isWhiteSpace
              (fun s' => starLazy (fun _ => true)
                           (fun s'' => match litMatch true fence s'' with
                                       | Some s3 =>
                                           Some (Some (take (length s' - length s'') s'))
                                       | None => None
                                       end) s') t
            = Some <$> untilFence (afterRun isWhiteSpace t)).
  { intros t.
    assert (Hlazy : forall s',
              starLazy (fun _ => true)
                (fun s'' => match litMatch true fence s'' with
                            | Some s3 => Some (Some (take (length s' - length s'') s'))
                            | None => None
                            end) s'
              = Some <$> untilFence s').
    { intros s'. rewrite (starLazy_fence s' [] s' eq_refl).
      by destruct (untilFence s'). }
    rewrite starGreedy_monotone.
    - apply Hlazy.
    - intros c s' Hc. rewrite !Hlazy.
      destruct (untilFence s') eqn:Hs; [done|]. intros _.
      rewrite untilFence_cons_None; [done| |done].
      intros ->. done. }
  rewrite litMatch_ignoreCase. cbv zeta.
  destruct (startsWithIgnoringCase (js "json") rest) eqn:Hjson.
  - change (length (js "json")) with 4%nat. rewrite !Hcontent.
    destruct (untilFence (afterRun isWhiteSpace (drop 4 rest))) eqn:Hinner; [done|].
    cbn.
    (* without a fence after the tag there is none from the tag on *)
    assert (Hnone : forall t, untilFence (afterRun isWhiteSpace t) = None ->
              untilFence t = None).
    { induction t as [|c t IH]; [done|]. cbn [afterRun].
      destruct (isWhiteSpace c) eqn:Hc; [|done]. intros H.
      apply untilFence_cons_None; [by intros -> | by apply IH]. }
    apply Hnone in Hinner.
    assert (untilFence rest = None) as Hrest.
    { unfold startsWithIgnoringCase in Hjson. apply bool_decide_eq_true in Hjson.
      change (js "json") with [106; 115; 111; 110]%N in Hjson.
      destruct rest as [|c1 [|c2 [|c3 [|c4 rest]]]]; try done.
      cbn in Hjson. injection Hjson as H1 H2 H3 H4.
      assert (Hnot : forall c u, upperAscii c = u -> u ≠ 96%N -> c ≠ 96%N)
        by (by intros c u <- Hu ->).
      cbn [drop] in Hinner.
      repeat (apply untilFence_cons_None; [by eapply Hnot|]). done. }
    assert (untilFence (afterRun isWhiteSpace rest) = None) as ->; [|done].
    destruct (afterRun_suffix isWhiteSpace rest) as [taken Htaken].
    apply (untilFence_suffix taken). by rewrite <- Htaken.
  - apply Hcontent.
Qed.

(** Before a fence the pattern does not match in a text without
    backticks. *)
Lemma match_fencePattern_skip pre s :
  Forall (fun c => c ≠ 96%N) pre ->
  String_match Backend.fencePattern (pre ++ s) = String_match Backend.fencePattern s.
Proof.
  induction 1 as [|c pre Hc _ IH]; [done|].
  cbn [app String_match]. rewrite <- IH.
  assert (rmatch Backend.fencePattern (c :: pre ++ s) None (fun _ cap => Some cap) = None)
    as ->; [|done].
  unfold Backend.fencePattern. cbn [rmatch]. rewrite litMatch_ignoreCase.
  change (js "```") with fence. by rewrite startsWith_fence_cons.
Qed.

Lemma afterRun_app_stop (p : N -> bool) s c t :
  p c = false -> afterRun p (s ++ c :: t) = afterRun p s ++ c :: t.
Proof. intros Hc. induction s as [|d s IH]; cbn; [by rewrite Hc|]. by destruct (p d). Qed.

Lemma afterRun_idempotent (p : N -> bool) s : afterRun p (afterRun p s) = afterRun p s.
Proof.
  induction s as [|c s IH]; [done|]. cbn. destruct (p c) eqn:Hc; [done|].
  cbn. by rewrite Hc.
Qed.

(** X11: of a reply with a fenced block, the block's content trimmed is
    extracted: for a reply that has no backtick before the block, a block
    tagged [json] (in any letter case) or with no tag and a content that
    does not start with the letter j, and a content without backticks.
    When the content is empty or white space, the whole reply, trimmed,
    is returned, fences included. *)
Theorem extractJson_fenced pre tag body post :
  Forall (fun c => c ≠ 96%N) pre ->
  Forall (fun c => c ≠ 96%N) body ->
  upperAscii <$> tag = js "JSON"
  \/ (tag = [] /\ forall c, head body = Some c -> upperAscii c ≠ 74%N) ->
  Backend.extractJson (pre ++ fence ++ tag ++ body ++ fence ++ post)
  = if bool_decide (trimStart body = []) then trim (pre ++ fence ++ tag ++ body ++ fence ++ post)
    else trim body.
Proof.
  intros Hpre Hbody Htag. unfold Backend.extractJson.
  rewrite match_fencePattern_skip by done.
  assert (String_match Backend.fencePattern (fence ++ tag ++ body ++ fence ++ post)
          = Some (Some (trimStart body))) as ->.
  { change (fence ++ tag ++ body ++ fence ++ post)
      with (96%N :: [96; 96]%N ++ tag ++ body ++ fence ++ post).
    cbn [String_match].
    change (96%N :: [96; 96]%N ++ tag ++ body ++ fence ++ post)
      with (fence ++ tag ++ body ++ fence ++ post).
    rewrite rmatch_fencePattern. cbv zeta.
    assert ((if startsWithIgnoringCase (js "json") (tag ++ body ++ fence ++ post)
             then drop 4 (tag ++ body ++ fence ++ post)
             else tag ++ body ++ fence ++ post) = body ++ fence ++ post) as ->.
    { destruct Htag as [Htag | [-> Hhead]].
      - assert (length tag = 4%nat) as Hlen
          by (apply (f_equal length) in Htag; by rewrite length_fmap in Htag).
        unfold startsWithIgnoringCase. rewrite bool_decide_eq_true_2.
        + by rewrite <- Hlen, drop_app_length.
        + change (length (js "json")) with 4%nat.
          by rewrite <- Hlen, take_app_length, Htag.
      - cbn [app]. unfold startsWithIgnoringCase. rewrite bool_decide_eq_false_2; [done|].
        change (js "json") with [106; 115; 111; 110]%N.
        change (upperAscii <$> [106; 115; 111; 110]%N) with [74; 83; 79; 78]%N.
        destruct body as [|c body]; [by cbn|].
        cbn. intros [= Hc _]. by apply (Hhead c). }
    change (fence ++ post) with (96%N :: [96; 96]%N ++ post).
    rewrite afterRun_app_stop by done.
    change (96%N :: [96; 96]%N ++ post) with (fence ++ post).
    rewrite untilFence_app by (by apply Forall_afterRun).
    by rewrite trimStart_afterRun. }
  case_bool_decide as Hempty; [done|].
  unfold trim. by rewrite !trimStart_afterRun, afterRun_idempotent.
Qed.

(** X12: a reply without three backticks in a row is used whole,
    trimmed. *)
Theorem extractJson_no_fence payload :
  mentions fence payload = false -> Backend.extractJson payload = trim payload.
Proof.
  intros Hnone. unfold Backend.extractJson.
  assert (String_match Backend.fencePattern payload = None) as ->; [|done].
  induction payload as [|c payload IH].
  - cbn [String_match]. unfold Backend.fencePattern. cbn [rmatch].
    rewrite litMatch_ignoreCase. change (js "```") with fence.
    cbn [mentions] in Hnone. apply orb_false_iff in Hnone as [-> _]. done.
  - cbn [mentions] in Hnone. apply orb_false_iff in Hnone as [Hstart Hrest].
    cbn [String_match]. rewrite (IH Hrest).
    unfold Backend.fencePattern. cbn [rmatch].
    rewrite litMatch_ignoreCase. change (js "```") with fence. by rewrite Hstart.
Qed.

End ExtractJson.

(** The hypotheses hold of a reply that wraps the empty list in a block
    tagged [json]. *)
Lemma extractJson_fenced_witness :
  Backend.extractJson (js "Here you go: ```json [] ``` Enjoy.") = js "[]".
Proof.
  apply (extractJson_fenced (js "Here you go: ") (js "json") (js " [] ") (js " Enjoy.")).
  - apply (bool_decide_unpack _). vm_compute. exact I.
  - apply (bool_decide_unpack _). vm_compute. exact I.
  - by left.
Defined.

Lemma extractJson_no_fence_witness : Backend.extractJson (js " [] ") = js "[]".
Proof. by apply (extractJson_no_fence (js " [] ")). Defined.

(* ===================================================================== *)
(** * The advisory request, from the client to the provider and back *)
(* ===================================================================== *)

Section AdvisoryRoundTrip.
Variable JSON_parse : jsstring -> option JSON.
Variable toISOString : Z -> jsstring.

(** X13: without a forecast the advisory client gets no suggestions,
    whatever the provider replies: the request carries [weather: null],
    the backend answers 400 before it asks the provider, and the client
    returns the empty list. *)
Theorem generateRescheduleSuggestions_without_forecast
    (context : ClaudeService.RescheduleContext) (provider : Backend.ProviderOutcome)
    (configured : bool) :
  ClaudeService.weatherForecast context = [] ->
  Backend.status
    (Backend.rescheduleHandler JSON_parse configured
       (ClaudeService.payloadOf toISOString context) provider)
  = (if configured then 400 else 500)
  /\ ClaudeService.generateRescheduleSuggestions toISOString
       (fun payload =>
          ClaudeService.BackendResponds
            (Backend.rescheduleHandler JSON_parse configured payload provider))
       context
     = Ok [].
Proof.
  intros Hnone.
  assert (Hstatus : Backend.status
            (Backend.rescheduleHandler JSON_parse configured
               (ClaudeService.payloadOf toISOString context) provider)
          = (if configured then 400 else 500)).
  { unfold Backend.rescheduleHandler, ClaudeService.payloadOf. rewrite Hnone.
    by destruct configured. }
  split; [done|].
  destruct (Backend.rescheduleHandler JSON_parse configured
              (ClaudeService.payloadOf toISOString context) provider)
    as [status body] eqn:Hresponse.
  eapply generateRescheduleSuggestions_not_ok; [by rewrite Hresponse|].
  cbn in Hstatus. rewrite Hstatus. by destruct configured.
Qed.

(** X14: with a forecast, a configured backend and a provider whose
    first text block, after the extraction of the fenced block, parses as
    JSON, the client returns the items of the parsed value, as the
    response carries them, when the value is an array, and the empty list
    when it is anything else.  The response carries a value as
    [JSON.stringify] writes it: a negative zero comes out as 0 and an
    infinite number as [null]; items without such numbers come out as
    they were parsed. *)
Theorem generateRescheduleSuggestions_round_trip
    (context : ClaudeService.RescheduleContext) (content : list Backend.ContentBlock)
    (block : Backend.ContentBlock) (suggestions : JSON) :
  ClaudeService.weatherForecast context ≠ [] ->
  find (fun item => bool_decide (Backend.type item = Some (js "text"))) content = Some block ->
  JSON_parse (Backend.extractJson (Backend.text block)) = Some suggestions ->
  let returned :=
    ClaudeService.generateRescheduleSuggestions toISOString
      (served JSON_parse (Backend.ProviderReplies content)) context in
  returned = Ok (match suggestions with
                 | JArr items => JSON_roundTrip <$> items
                 | _ => []
                 end)
  /\ (forall items,
        suggestions = JArr items -> Forall (fun item => JSON_roundTrip item = item) items ->
        returned = Ok items)
  /\ (suggestions = JArr [JNum (-0)%float; JNum infinity; JNum 2.5%float] ->
      returned = Ok [JNum 0%float; JNull; JNum 2.5%float]).
Proof.
  intros Hforecast Hblock Hparse returned.
  assert (Hreturned : returned = Ok (match suggestions with
                                     | JArr items => JSON_roundTrip <$> items
                                     | _ => []
                                     end)).
  { subst returned.
    unfold ClaudeService.generateRescheduleSuggestions,
      ClaudeService.generateRescheduleSuggestions_body, served,
      Backend.rescheduleHandler, ClaudeService.payloadOf.
    cbn [negb Backend.student Backend.weather Backend.conflict].
    destruct (ClaudeService.weatherForecast context) as [|reading forecast]; [done|].
    cbn [head]. unfold Backend.rescheduleBody. rewrite Hblock, Hparse.
    cbn [Backend.status Backend.body]. change (negb _) with false. cbv iota.
    destruct suggestions as [| | x | | |]; cbn [JSON_roundTrip]; try done.
    by destruct (Prim2SF x). }
  split; [exact Hreturned|]. split.
  - intros items -> Hsame. rewrite Hreturned. f_equal. revert Hsame.
    clear. induction 1 as [|item items Hitem _ IH]; [done|]. rewrite fmap_cons. congruence.
  - intros ->. rewrite Hreturned. by vm_compute.
Qed.

End AdvisoryRoundTrip.

(** The hypotheses hold of the sample context with its forecast removed. *)
Lemma generateRescheduleSuggestions_without_forecast_witness :
  ClaudeService.generateRescheduleSuggestions Samples.isoText
    (served Samples.parseEmptyList
       (Backend.ProviderReplies [Backend.mkBlock (Some (js "text")) (js "[]")]))
    (ClaudeService.mkContext (Samples.student PrivatePilot) (Samples.booking WeatherConflict)
       (js "Weather conditions exceed the minimums.") [] 1762560000000)
  = Ok [].
Proof.
  apply (generateRescheduleSuggestions_without_forecast Samples.parseEmptyList
           Samples.isoText
           (ClaudeService.mkContext (Samples.student PrivatePilot)
              (Samples.booking WeatherConflict)
              (js "Weather conditions exceed the minimums.") [] 1762560000000)
           (Backend.ProviderReplies [Backend.mkBlock (Some (js "text")) (js "[]")]) true).
  reflexivity.
Defined.

(** The hypotheses hold of the sample context and a provider that
    replies with the empty list in a fenced block. *)
Lemma generateRescheduleSuggestions_round_trip_witness :
  ClaudeService.generateRescheduleSuggestions Samples.isoText
    (served Samples.parseEmptyList
       (Backend.ProviderReplies
          [Backend.mkBlock (Some (js "text")) (js "```json [] ```")]))
    Samples.context
  = Ok [].
Proof.
  destruct (generateRescheduleSuggestions_round_trip Samples.parseEmptyList Samples.isoText
              Samples.context
              [Backend.mkBlock (Some (js "text")) (js "```json [] ```")]
              (Backend.mkBlock (Some (js "text")) (js "```json [] ```"))
              (JArr [])) as [Hreturned _].
  - done.
  - reflexivity.
  - reflexivity.
  - exact Hreturned.
Defined.

(* ===================================================================== *)
(** * The lesson list *)
(* ===================================================================== *)

Section SortFacts.
Context {A : Type} (key : A -> Z).
Implicit Types (x y : A) (l sorted : list A).

Let ordered : relation A := fun a b => key a <= key b.

Lemma insertByKey_Permutation x l : Lessons.insertByKey key x l ≡ₚ x :: l.
Proof.
  induction l as [|y l IH]; [done|]. cbn.
  destruct (key x <? key y); [done|]. rewrite IH. apply Permutation_swap.
Qed.

Lemma Array_sort_foldl_Permutation l sorted :
  foldl (fun sorted x => Lessons.insertByKey key x sorted) sorted l ≡ₚ sorted ++ l.
Proof.
  revert sorted. induction l as [|x l IH]; intros sorted; cbn; [by rewrite app_nil_r|].
  rewrite IH, insertByKey_Permutation. cbn. apply Permutation_middle.
Qed.

Lemma Array_sort_Permutation l : Lessons.Array_sort key l ≡ₚ l.
Proof. unfold Lessons.Array_sort. by rewrite Array_sort_foldl_Permutation. Qed.

Lemma insertByKey_sorted x l :
  StronglySorted ordered l -> StronglySorted ordered (Lessons.insertByKey key x l).
Proof.
  induction 1 as [|y l Hsorted IH Hy]; cbn; [by repeat constructor|].
  destruct (Z.ltb_spec (key x) (key y)) as [Hlt|Hge].
  - constructor; [by constructor|]. constructor; [unfold ordered; lia|].
    eapply Forall_impl; [exact Hy|]. unfold ordered. intros z Hz. lia.
  - constructor; [done|]. rewrite insertByKey_Permutation. by constructor.
Qed.

Lemma Array_sort_foldl_sorted l sorted :
  StronglySorted ordered sorted ->
  StronglySorted ordered (foldl (fun sorted x => Lessons.insertByKey key x sorted) sorted l).
Proof.
  revert sorted. induction l as [|x l IH]; intros sorted Hs; [done|].
  cbn. by apply IH, insertByKey_sorted.
Qed.

Lemma Array_sort_sorted l : StronglySorted ordered (Lessons.Array_sort key l).
Proof. apply Array_sort_foldl_sorted. constructor. Qed.

Lemma filter_none (P : A -> Prop) `{forall a, Decision (P a)} l :
  Forall (fun a => ¬ P a) l -> filter P l = [].
Proof.
  induction 1 as [|a l Ha _ IH]; [done|]. by rewrite filter_cons_False.
Qed.

(** The elements with one key keep their order. *)
Lemma insertByKey_filter (k : Z) x l :
  StronglySorted ordered l ->
  filter (fun a => key a = k) (Lessons.insertByKey key x l)
  = filter (fun a => key a = k) l ++ (if decide (key x = k) then [x] else []).
Proof.
  induction 1 as [|y l Hsorted IH Hy]; cbn [Lessons.insertByKey].
  - rewrite filter_cons, filter_nil. by destruct (decide (key x = k)).
  - destruct (Z.ltb_spec (key x) (key y)) as [Hlt|Hge].
    + rewrite filter_cons. destruct (decide (key x = k)) as [Hk|Hk]; [|by rewrite app_nil_r].
      assert (filter (fun a => key a = k) (y :: l) = []) as ->; [|done].
      apply filter_none. constructor; [lia|].
      eapply Forall_impl; [exact Hy|]. unfold ordered. intros z Hz. lia.
    + rewrite !filter_cons, IH. by destruct (decide (key y = k)).
Qed.

Lemma Array_sort_foldl_filter (k : Z) l sorted :
  StronglySorted ordered sorted ->
  filter (fun a => key a = k)
    (foldl (fun sorted x => Lessons.insertByKey key x sorted) sorted l)
  = filter (fun a => key a = k) sorted ++ filter (fun a => key a = k) l.
Proof.
  revert sorted. induction l as [|x l IH]; intros sorted Hs; cbn [foldl].
  - by rewrite filter_nil, app_nil_r.
  - rewrite IH by (by apply insertByKey_sorted).
    rewrite insertByKey_filter, filter_cons, <- app_assoc by done.
    by destruct (decide (key x = k)).
Qed.

Lemma Array_sort_stable (k : Z) l :
  filter (fun a => key a = k) (Lessons.Array_sort key l) = filter (fun a => key a = k) l.
Proof. unfold Lessons.Array_sort. rewrite Array_sort_foldl_filter; [done | constructor]. Qed.

End SortFacts.

Section LessonListFacts.
Import Heap.
Implicit Types (lessons : list Dashboard.Lesson).

Lemma List_filter_bool_decide {A} (P : A -> Prop) `{forall a, Decision (P a)} (l : list A) :
  List.filter (fun a => bool_decide (P a)) l = filter P l.
Proof.
  induction l as [|a l IH]; [done|]. cbn [List.filter]. rewrite filter_cons, IH.
  destruct (bool_decide_reflect (P a)); [by rewrite decide_True | by rewrite decide_False].
Qed.

(** X15: [upcomingLessons] returns a new array that holds the bookings
    of the student, all of them and no other, in ascending order of their
    dates; bookings of one date keep the order of the data. *)
Theorem upcomingLessons_sorted (bookings : list Dashboard.Lesson) (studentId : jsstring)
    (next : positive) :
  let own := filter (fun booking => FlightBooking.studentId (val booking) = studentId)
               bookings in
  exists result,
    Lessons.upcomingLessons bookings studentId next = Ok (result, Pos.succ next)
    /\ addr result = next
    /\ byDate (val result)
    /\ val result ≡ₚ own
    /\ forall t, lessonsAt t (val result) = lessonsAt t own.
Proof.
  intros own.
  exists (mkObj next
            (Lessons.Array_sort Lessons.getTime
               (List.filter
                  (fun booking =>
                     bool_decide (FlightBooking.studentId (val booking) = studentId))
                  bookings))).
  split; [reflexivity|]. cbn [addr val].
  rewrite (List_filter_bool_decide
             (fun booking => FlightBooking.studentId (val booking) = studentId)).
  fold own. split_and!.
  - done.
  - apply Array_sort_sorted.
  - apply Array_sort_Permutation.
  - intros t. apply (Array_sort_stable Lessons.getTime).
Qed.

(** The items of [prev.map(...)] in [onReschedule]. *)
Lemma mapLessons_rescheduleItem (bookingId : jsstring) (newDate : Z) lessons
    (changed : bool) (next : positive) :
  exists mapped changed' next',
    Dashboard.mapLessons (Lessons.rescheduleItem bookingId newDate) lessons changed next
    = Ok (mapped, changed', next')
    /\ (next <= next')%positive
    /\ Forall2 (fun item item' =>
                  (FlightBooking.id (val item) = bookingId ->
                   val item' = Lessons.rescheduled (val item) newDate
                   /\ (next <= addr item')%positive)
                  /\ (FlightBooking.id (val item) ≠ bookingId -> item' = item))
               lessons mapped.
Proof.
  revert changed next. induction lessons as [|item lessons IH]; intros changed next.
  - exists [], changed, next. split; [done|]. split; [lia | constructor].
  - cbn [Dashboard.mapLessons]. unfold Lessons.rescheduleItem at 1.
    destruct (bool_decide_reflect (FlightBooking.id (val item) = bookingId)) as [Hid|Hid].
    + destruct (IH (changed || true) (Pos.succ next)) as (mapped & changed' & next' & Hmap & Hle & Hall).
      eexists (_ :: mapped), changed', next'. split.
      * unfold Heap.bind, new, fresh, ret in *. cbn. by rewrite Hmap.
      * split; [lia|]. constructor.
        -- cbn [val addr]. split; [intros _; split; [done | lia] | done].
        -- eapply Forall2_impl; [exact Hall|]. cbn. intros a b [H1 H2].
           split; [|done]. intros Ha. destruct (H1 Ha). split; [done | lia].
    + destruct (IH (changed || false) next) as (mapped & changed' & next' & Hmap & Hle & Hall).
      eexists (item :: mapped), changed', next'. split.
      * unfold Heap.bind, ret in *. cbn. by rewrite Hmap.
      * split; [done|]. by constructor.
Qed.

(** X16: the update of [onReschedule] returns a new array in ascending
    order of the dates that holds the lessons of the state, each lesson
    with the given id replaced by a new object, rescheduled to the new
    date, and every other lesson the object it was; lessons of one date
    keep their order. *)
Theorem onReschedule_sorted (bookingId : jsstring) (newDate : Z)
    (prev : Dashboard.LessonArray) (next : positive) :
  exists result next' mapped,
    Lessons.onReschedule bookingId newDate prev next = Ok (result, next')
    /\ addr result = next
    /\ Forall2 (fun item item' =>
                  (FlightBooking.id (val item) = bookingId ->
                   val item' = Lessons.rescheduled (val item) newDate
                   /\ (next < addr item')%positive)
                  /\ (FlightBooking.id (val item) ≠ bookingId -> item' = item))
               (val prev) mapped
    /\ byDate (val result)
    /\ val result ≡ₚ mapped
    /\ forall t, lessonsAt t (val result) = lessonsAt t mapped.
Proof.
  destruct (mapLessons_rescheduleItem bookingId newDate (val prev) false (Pos.succ next))
    as (mapped & changed' & next' & Hmap & Hle & Hall).
  exists (mkObj next (Lessons.Array_sort Lessons.getTime mapped)), next', mapped.
  split_and!.
  - unfold Lessons.onReschedule, Heap.bind, fresh, ret. cbn. by rewrite Hmap.
  - done.
  - eapply Forall2_impl; [exact Hall|]. cbn. intros a b [H1 H2].
    split; [|done]. intros Ha. destruct (H1 Ha). split; [done | lia].
  - apply Array_sort_sorted.
  - apply Array_sort_Permutation.
  - intros t. apply (Array_sort_stable Lessons.getTime).
Qed.

End LessonListFacts.

(* ===================================================================== *)
(** * What a conflict scan leaves alone *)
(* ===================================================================== *)

Section ScanInvariants.
Import Heap.
Variable LocalTZA : Z -> Z.
Variable unicodeUpper : N -> jsstring.
Variable apiKey : option jsstring.
Variable openWeather : jsstring -> jsstring -> WeatherService.ForecastFetch.
Implicit Types (lesson : Dashboard.Lesson) (next : positive).

Lemma decidedStatus_Rescheduled (student : Student.t) (forecastMap : gmap jsstring (list WeatherData.t))
    (today : Z) (booking : FlightBooking.t) :
  decidedStatus LocalTZA student forecastMap today booking = Rescheduled
  <-> FlightBooking.status booking = Rescheduled.
Proof.
  unfold decidedStatus.
  destruct (bool_decide_reflect (FlightBooking.status booking = Rescheduled)) as [Hr|Hr];
    [done|].
  cbv zeta. destruct (_ || _); [done|]. destruct (firstMatch _ _) as [r|]; [|done].
  by destruct (Dashboard.meetsStudentMinimums student r).
Qed.

Lemma resetStatus_Rescheduled (booking : FlightBooking.t) :
  resetStatus booking = Rescheduled <-> FlightBooking.status booking = Rescheduled.
Proof. unfold resetStatus. by case_bool_decide. Qed.

(** An update by a verdict that keeps the rescheduled lessons, and them
    only, rescheduled. *)
Lemma updated_statusChange (verdict : FlightBooking.t -> Status)
    (prev : Dashboard.LessonArray) next :
  (forall booking, verdict booking = Rescheduled
                   <-> FlightBooking.status booking = Rescheduled) ->
  Forall2 (statusChange next) (val prev) (val (updated verdict prev next).1)
  /\ (Forall2 (fun lesson lesson' =>
                 FlightBooking.status (val lesson') = FlightBooking.status (val lesson))
              (val prev) (val (updated verdict prev next).1) ->
      (updated verdict prev next).1 = prev).
Proof.
  intros Hverdict. pose proof (updated_Forall2 verdict prev next) as Hall. split.
  - eapply Forall2_impl; [exact Hall|]. cbn. intros lesson lesson' (Hval & Hsame & Hnew).
    destruct (decide (FlightBooking.status (val lesson) = verdict (val lesson)))
      as [Heq|Hne]; [left; by apply Hsame|].
    right. exists (verdict (val lesson)). split; [done|]. split; [done|].
    split; [|split; [|by apply Hnew]].
    + intros Hr. apply Hne. rewrite Hr. by apply Hverdict.
    + intros Hr. apply Hne. rewrite Hr. symmetry. by apply Hverdict.
  - intros Hstatus. unfold updated. cbn [fst].
    destruct (anyChange verdict (val prev)) eqn:Hany; [|done]. exfalso.
    apply bool_decide_eq_true, Exists_exists in Hany as (l & Hl & Hne).
    apply list_elem_of_lookup in Hl as [i Hi].
    destruct (Forall2_lookup_l _ _ _ _ _ Hstatus Hi) as (l' & Hi' & Hl').
    destruct (Forall2_lookup_lr _ _ _ _ _ _ Hall Hi Hi') as (Hval & _).
    rewrite Hval in Hl'. by apply Hne.
Qed.

Lemma statusChange_byDate next (lessons lessons' : list Dashboard.Lesson) :
  Forall2 (statusChange next) lessons lessons' -> byDate lessons -> byDate lessons'.
Proof.
  assert (Htime : forall l l', statusChange next l l' ->
            Lessons.getTime l' = Lessons.getTime l).
  { intros l l' [-> | (status & Hval & _)]; [done|].
    unfold Lessons.getTime. by rewrite Hval. }
  unfold byDate. induction 1 as [|l l' ls ls' Hl Hls IH]; [done|].
  intros [Hs Hall]%StronglySorted_inv. constructor; [by apply IH|].
  rewrite (Htime _ _ Hl). clear IH Hs. induction Hls as [|a a' ls ls' Ha _ IH]; [done|].
  apply Forall_cons in Hall as [H1 H2]. constructor; [|by apply IH].
  by rewrite (Htime _ _ Ha).
Qed.

(** X17: a conflict scan, whatever the student, the provider, the
    cancellation flag and the lesson state it meets when it updates,
    returns a lesson state (it does not throw) of the same lessons in the
    same order; a lesson is either the object it was or a new object that
    differs in the status only, and then neither the old nor the new
    status is Rescheduled.  So the list stays in ascending order of the
    dates when it was, and the state itself is returned when no status
    changes. *)
Theorem conflictScan_changes_status_only (student : option Student.t)
    (lessons prev : Dashboard.LessonArray) (now today : Z) (cancelled : bool) next :
  exists result next',
    Dashboard.conflictScan LocalTZA unicodeUpper apiKey openWeather student lessons now
      cancelled today prev next
    = Ok (result, next')
    /\ Forall2 (statusChange next) (val prev) (val result)
    /\ (byDate (val prev) -> byDate (val result))
    /\ (Forall2 (fun lesson lesson' =>
                   FlightBooking.status (val lesson') = FlightBooking.status (val lesson))
                (val prev) (val result) ->
        result = prev).
Proof.
  assert (Hkeep : exists result next',
            Ok (prev, next) = Ok (result, next')
            /\ Forall2 (statusChange next) (val prev) (val result)
            /\ (byDate (val prev) -> byDate (val result))
            /\ (Forall2 (fun lesson lesson' =>
                           FlightBooking.status (val lesson')
                           = FlightBooking.status (val lesson))
                        (val prev) (val result) ->
                result = prev)).
  { exists prev, next. split; [done|]. split; [|done].
    apply Forall_Forall2_diag, Forall_forall. intros l _. by left. }
  assert (Hupdate : forall verdict,
            (forall booking, verdict booking = Rescheduled
                             <-> FlightBooking.status booking = Rescheduled) ->
            exists result next',
              Ok (updated verdict prev next) = Ok (result, next')
              /\ Forall2 (statusChange next) (val prev) (val result)
              /\ (byDate (val prev) -> byDate (val result))
              /\ (Forall2 (fun lesson lesson' =>
                             FlightBooking.status (val lesson')
                             = FlightBooking.status (val lesson))
                          (val prev) (val result) ->
                  result = prev)).
  { intros verdict Hverdict.
    destruct (updated_statusChange verdict prev next Hverdict) as [Hall Hsame].
    exists (updated verdict prev next).1, (updated verdict prev next).2.
    split; [by rewrite <- surjective_pairing|]. split; [done|]. split; [|done].
    by apply statusChange_byDate with next. }
  unfold Dashboard.conflictScan.
  destruct student as [student|]; [|exact Hkeep].
  case_bool_decide; [exact Hkeep|].
  case_bool_decide.
  - rewrite (updater_ext _ (setStatusTo resetStatus))
      by (intros lesson _; apply resetLesson_setStatus).
    rewrite updater_setStatus. apply Hupdate, resetStatus_Rescheduled.
  - cbv zeta. destruct cancelled; [exact Hkeep|].
    rewrite (updater_ext _
               (setStatusTo
                  (decidedStatus LocalTZA student
                     (Dashboard.forecastMapOf unicodeUpper apiKey openWeather
                        (Dashboard.uniqueLocations
                           (Dashboard.relevantLessons LocalTZA now (val lessons))))
                     today)))
      by (intros lesson _; apply evaluateLesson_setStatus, forecastMapOf_valid).
    rewrite updater_setStatus. apply Hupdate. intros booking.
    apply decidedStatus_Rescheduled.
Qed.

End ScanInvariants.

(** ** The locations of one scan *)

Section MapKeyOrder.
Context {K V : Type} `{EqDecision K}.
Implicit Types (m : Map K V) (k : K) (v : V).

Lemma Map_set_key_list k v m :
  (Map_set k v m).*1 = if decide (k ∈ m.*1) then m.*1 else m.*1 ++ [k].
Proof.
  induction m as [|[k' v'] m IH].
  - cbn. rewrite decide_False by apply not_elem_of_nil. done.
  - cbn [Map_set]. destruct (decide (k' = k)) as [->|Hne].
    + rewrite decide_True by (apply elem_of_cons; by left). done.
    + rewrite !fmap_cons, IH. cbn [fst]. destruct (decide (k ∈ m.*1)) as [Hin|Hnin].
      * rewrite decide_True by (apply elem_of_cons; by right). done.
      * rewrite decide_False; [done|]. apply not_elem_of_cons. done.
Qed.

(** The keys of [new Map(entries)] stand in the order of their first
    entries. *)
Lemma Map_of_key_list (entries : list (K * V)) :
  (Map_of entries).*1 = firstOccurrences entries.*1.
Proof.
  induction entries as [|[k v] entries IH] using rev_ind; [done|].
  unfold Map_of in *. rewrite foldl_app. cbn [foldl fst snd].
  rewrite Map_set_key_list, IH, fmap_app. cbn [fmap list_fmap fst].
  rewrite firstOccurrences_snoc.
  destruct (decide (k ∈ entries.*1)) as [Hin|Hnin].
  - rewrite decide_True by (by apply elem_of_firstOccurrences). done.
  - rewrite decide_False by (by rewrite elem_of_firstOccurrences). done.
Qed.

End MapKeyOrder.

Section ScanLocations.
Import Heap.
Implicit Types (lesson : Dashboard.Lesson) (lessons : list Dashboard.Lesson).

(** X18. The locations one scan asks forecasts for, [uniqueLocations], are
    one for each location key of the lessons, in the order in which the
    keys first appear: no key is asked for twice, and every location
    asked for is the departure location of one of the lessons. *)
Theorem uniqueLocations_one_per_key lessons :
  let keys := (fun lesson => Dashboard.LOCATION_KEY (FlightBooking.departureLocation (val lesson)))
                <$> lessons in
  Dashboard.LOCATION_KEY <$> Dashboard.uniqueLocations lessons = firstOccurrences keys
  /\ NoDup (Dashboard.LOCATION_KEY <$> Dashboard.uniqueLocations lessons)
  /\ forall location,
      location ∈ Dashboard.uniqueLocations lessons ->
      exists lesson, lesson ∈ lessons /\ FlightBooking.departureLocation (val lesson) = location.
Proof.
  intros keys. unfold Dashboard.uniqueLocations, Map_values.
  set (entries := (fun lesson => (Dashboard.LOCATION_KEY (FlightBooking.departureLocation (val lesson)),
                                  FlightBooking.departureLocation (val lesson))) <$> lessons).
  assert (forall entry, entry ∈ Map_of entries ->
            exists lesson, lesson ∈ lessons
              /\ entry.1 = Dashboard.LOCATION_KEY (FlightBooking.departureLocation (val lesson))
              /\ entry.2 = FlightBooking.departureLocation (val lesson)) as Hentry.
  { intros entry Hin. apply Map_of_elem in Hin.
    apply list_elem_of_fmap in Hin as (lesson & -> & Hin). by exists lesson. }
  assert (Dashboard.LOCATION_KEY <$> (Map_of entries).*2 = firstOccurrences keys) as Hkeys.
  { rewrite <- list_fmap_compose.
    transitivity ((Map_of entries).*1).
    - apply Forall_fmap_ext_1, Forall_forall. intros entry Hin. cbn.
      destruct (Hentry entry Hin) as (lesson & _ & -> & ->). done.
    - rewrite Map_of_key_list. unfold entries, keys. by rewrite <- list_fmap_compose. }
  split; [exact Hkeys|]. split.
  - pose proof (NoDup_firstOccurrences keys) as Hdistinct.
    rewrite <- Hkeys in Hdistinct. exact Hdistinct.
  - intros location Hin. apply list_elem_of_fmap in Hin as (entry & -> & Hin).
    destruct (Hentry entry Hin) as (lesson & Hl & _ & ->). by exists lesson.
Qed.

End ScanLocations.
